(* ===== verification/_CoqProject ===== *)
-Q . S2P
Prelude.v
Dataset.v
Fixture.v
Ranking.v
Centroid.v
Pipeline.v
Text.v
Regex.v
Lookup.v
Validate.v
Endpoint.v
Json.v
Prompt.v
Extract.v
Topic.v
Reply.v
Chat.v
