(* ===== verification/Prelude.v ===== *)
(** * A verified model of the Vietnam travel recommendation engine

    The repository is a small web application written in Python.  Its
    parts are:
    - [src/clustering.py], class [TravelRecommendationEngine]: the
      recommendation engine.  It loads a table of (location, month)
      weather observations, each tagged with a cluster id, an
      [is_centroid] flag and a suitability score [hci]; it fits a
      [StandardScaler] on the five weather features; it classifies a
      preference vector to the nearest cluster centroid
      ([find_best_cluster]); it filters, ranks and truncates the table
      ([get_recommendations]); and it answers look-ups
      ([search_by_location], [get_cluster_info],
      [get_all_clusters_summary]).
    - [src/chatbot.py], class [TravelChatbot]: asks an external language
      model whether a message is about travel ([check_travel_topic],
      with the keyword fallback [_check_travel_topic_fallback]) and for
      a preference dictionary ([extract_travel_preferences], with the
      regular-expression fallbacks [_extract_fallback] and the default
      builders), clamps the dictionary ([_validate_preferences]), and
      phrases the reply ([generate_response]).
    - [src/main.py]: the FastAPI routes.  [/chat] chains the chatbot and
      the engine and stores a [ChatHistory] row; [/api/clusters] and
      [/api/search] call the engine's look-ups; [/api/history] reads the
      stored rows.
    - [src/models.py]: the SQLAlchemy table [ChatHistory].

    The chatbot produces the preference dictionary that the engine
    consumes; the engine's result list is what the chatbot phrases and
    what [main.py] stores.  The engine's state (the table, the fitted
    scaler and the centroid rows) is fixed after [__init__]; the only
    state that changes is the chat history table.

    ** Files of the development
    - [Prelude] (this file): the result type that models Python
      exceptions with its [let? x := m in k] notation (scope [engine_scope]);
      the models of the library calls the code relies on
      ([pd_head] for pandas [DataFrame.head], [sumQ]/[meanQ] for
      [Series.sum]/[Series.mean]); the hint database [engine]; generic
      lemmas on [List.filter], prefixes and sums of rationals.
    - [Dataset] (module [Store]): a row of the table ([Row], the CSV
      columns), the five weather [feature]s in the order of
      [self.features], the preference dictionary ([Prefs], its region
      and terrain a [cat_value]: whatever value the extraction left
      there, a string, a list or another scalar), the engine's
      errors, the fitted scaler and the engine state built by [__init__]
      ([load]).
    - [Fixture]: a five-row table with two clusters, the concrete input
      of the witnesses.
    - [Ranking]: the interface [HciSort] of [sort_values('hci',
      ascending=False)] (a permutation sorted by decreasing [hci]) and a
      stable insertion sort that implements it.
    - [Centroid]: [find_best_cluster] (standardised squared distance,
      [np.argmin] with first-index tie-breaking).
    - [Pipeline]: [get_recommendations] (the guarded month, region and
      terrain filters, the cluster narrowing, the ranking and [head]).
      The region and terrain comparisons follow pandas ([cat_select]):
      a scalar is compared with every cell, a list position by position
      after a length check that raises [ValueError] with the text
      [lengths_error].
    - [Lookup]: [search_by_location], [get_cluster_info],
      [get_all_clusters_summary].  The search lower-cases the query and
      the cells with [Text.lower] and, as [str.contains] does at its
      default [regex=True], compiles the query as a regular expression
      ([compile_query]) and searches each cell with [Regex.re_search]
      ([cell_match]).
    - [Validate]: the chatbot's [_validate_preferences] and the contract
      it establishes for the engine ([valid_prefs]).
    - [Endpoint]: the routes of [main.py] and the [ChatHistory] table:
      [chat_endpoint] with its guards, its error handling and its insert,
      the look-up routes, [get_chat_history] (its [ORDER BY] as the
      interface [HistoryOrder], implemented by the insertion sort
      [order_newest]; SQLite's [LIMIT]), and the server as a
      step relation [chat_step] over the table with [reachable], which
      starts from the table [create_tables] makes in a fresh database
      file and allows a restart of the server at any point (the file
      keeps its rows).  The message is stripped with [Text.strip], the
      Unicode white space of [str.strip()].  The language model's answers are an [Oracle] record indexed by the call
      number, because [/chat] classifies the message twice.
    - [Text]: Python's [str] as a list of code points, UTF-8 decoding of
      the source's literals ([u]), [str.lower] on the Latin script,
      [str.strip], [len(str.split())] and the classes [\s], [\d], [\w].
    - [Regex]: [re.search] on the patterns of [chatbot.py]: a parser of
      the pattern syntax they use and a backtracking matcher in
      continuation-passing style that follows the priority order of
      Python's engine, with its captures; a declarative semantics [den];
      the flag [re.DOTALL] ([dotall]) and [re.sub] ([re_sub], with the
      empty-match rules of Python 3.7 and later).
    - [Json]: [json.loads] as a recursive-descent parser over code
      points (strings with escapes and surrogate pairs, numbers by the
      grammar of [NUMBER_RE], objects keeping a key's first position and
      last value), Python's exceptions [TypeError]/[ValueError]
      ([py_error]), and the decoding of a model answer that
      [check_travel_topic] and [extract_travel_preferences] share
      ([decode_answer], [extract_json]).
    - [Prompt]: [str.format] with keyword arguments, scanning the
      template as CPython's [MarkupIterator_next] and [parse_field] do
      ([py_format]), and the two prompt templates of
      [TravelChatbot.__init__], verbatim.
    - [Extract]: [_extract_fallback], [_get_default_preferences],
      [_get_default_preferences_with_fallback] and
      [extract_travel_preferences] from the model's text: the
      [fallback_map] loop ([fallback_loop]) and [_validate_preferences]
      on JSON values ([validate_dict]), each exception giving the
      fallback dictionary.
    - [Topic]: Python's truthiness and comparison on JSON values,
      [_check_travel_topic_fallback], [check_travel_topic] and
      [process_user_input].
    - [Reply]: [generate_polite_refusal] and [_get_default_refusal]
      (with Python's [in] on JSON values, which raises on a number),
      [_get_default_response], the prompts of the refusal and of the
      reply ([refusal_prompt], [locations_text], [response_prompt]) and
      the reply [generate_response] writes for recommendations
      ([compose_response]).
    - [Chat]: the composition of [main.py] with [chatbot.py]: the
      [Oracle] of [chat_endpoint] built from [process_user_input],
      [generate_polite_refusal] and [compose_response]
      ([chatbot_oracle]), fed by the record [Model] of the language
      model in one request (per call, a function from the prompt to the
      text it answers); an exception of the chatbot reaches the handler
      as [str(e)].  A run of the server ([serve]) is a sequence of
      [Request]s, each with its own model, body, uuid and clock, handled
      in order with the table each request leaves passed to the next.

    ** What the theorems show
    - Centroid: the chosen cluster is the cluster of a centroid row at
      minimal standardised distance, the first such row in table order;
      the error cases are exactly a missing key and an empty centroid
      set; a centroid's own feature vector is classified to its cluster.
    - Pipeline: the result has at most [top_k] entries, all rows of the
      table, ranked by non-increasing [hci] and no worse than any row
      left out; each categorical filter is respected when it can be and
      is transparent when it cannot; the cluster fallback branch is
      unreachable on a non-empty table; the errors are exactly the
      centroid classifier's and the length mismatch of a list-valued
      region or terrain ([get_recommendations_list_region]).
    - Lookup: for a query whose only metacharacter is [.], the search
      returns a best-first selection of the rows whose lowered city or
      province has a window matching the lowered query, a plain
      substring when the query has no [.] ([search_by_location_sound]);
      the query "." returns what the empty query returns, the whole
      table ranked ([search_by_location_dot]); cluster summaries exist exactly for
      the ids present, in increasing order, and their means lie between
      the minimum and the maximum of the members.
    - Validate: every validated dictionary is within the documented
      ranges and complete, so the engine never raises [KeyError] on it;
      with a centroid row the only exception left is the list
      comparison, since the validation copies region and terrain
      unchecked.
    - Endpoint: an empty message gets a 500, not the intended 400; a
      request stores at most one record, with the next key; in every
      reachable table (from a fresh file, through requests and restarts)
      each record has a message non-empty after [strip()], and a record
      classified as not travel related has no recommendations
      ([reachable_records_ok]); the history route
      returns at most [limit] entries newest first, and all of them for
      a negative limit; the second classification can pair a refusal
      text with recommendations.
    - Regex: the matcher is sound and complete for the declarative
      semantics ([m_correct]), so [re_search] holds exactly when the
      pattern matches from some position ([re_search_spec]).  Text:
      UTF-8 decoding inverts encoding ([utf8_roundtrip]).
    - Extract: every fallback extraction lies in its documented range,
      so both paths of [extract_travel_preferences] meet the engine's
      contract and, when the table has a centroid row, the only
      exception [get_recommendations] raises on the chatbot's output is
      the one of a region or terrain the model gave as a list (for
      instance [{'region': ['Miền Bắc', 'Miền Trung']}]).  The
      percentage pattern of the humidity matches only where a [%] is
      followed by a word character, so it never reads "60%" followed by
      a space, punctuation or the end ([humidity_percent_needs_word], by
      the declarative semantics of [Regex]); a degree sign at the end of
      the message is not read either.
    - Prompt and Topic: the topic prompt's JSON example has single
      braces, so its [str.format] raises [KeyError] before the API call
      and [check_travel_topic] always returns the keyword fallback's
      result ([check_travel_topic_always_fallback]); the extraction
      prompt formats.  Hence, whatever the model would answer, the
      fallback decides, [process_user_input] raises only if the refusal
      generator does and never reaches the "not sure" branch; any
      message with "du lịch" proceeds to extraction.
    - Json and Extract: [json.loads] never runs out of fuel
      ([json_loads_go_decides]); a number written as a string makes the
      extraction discard the whole answer
      ([string_number_discards_answer]).
    - Chat: whatever the model answers or raises, short of a list as
      region or terrain in the extraction ([prefs_scalar]), [/chat]
      answers every non-empty message on a table with a centroid row
      successfully,
      with the keyword fallback's verdict, [get_recommendations] on the
      first extraction, the reply ([compose_response]) or the refusal
      (the model's, or a default one, the "too short" ones exactly for
      a message of fewer than three words), and stores one record
      ([chat_never_fails]); with such a list of the wrong length the
      answer is a 500 carrying pandas' [ValueError] text and nothing is
      stored ([chat_list_region_500]).  Over a whole run without lists
      ([scalar_run]), every request is answered:
      the empty ones with the 500 and all others successfully, and the
      table ends with the messages of the answered requests appended in
      request order ([serve_answers_every_request]).  When the clocks of
      a run increase, [/api/history] afterwards lists those messages
      newest first, whatever order SQL gives to equal timestamps
      ([serve_history_newest_first], through [order_desc_increasing]:
      the only order by decreasing timestamp of a table whose
      timestamps increase strictly is the reversed table).

    ** Modelling choices, bounds and fuel
    - Floating-point numbers are modelled by exact rationals [Q]:
      rounding is not modelled.  The standardised Euclidean distance
      [sqrt (sum_f ((u_f - m_f)/s_f - (c_f - m_f)/s_f)^2)] is compared
      through its square [sum_f (u_f - c_f)^2 / var_f], which needs no
      square root; [np.argmin] of the distances and of their squares
      coincide because the square root is increasing.
    - sklearn replaces a zero standard deviation by 1; the model does
      the same with the variance.
    - [sort_values] uses numpy's default quicksort, which is not stable:
      the model states only what it guarantees (a permutation ordered by
      decreasing [hci]), as the class [HciSort], and every theorem on the
      pipeline holds for every instance.  SQL's [ORDER BY timestamp
      DESC] is treated the same way ([HistoryOrder]).
    - [str.contains] in [search_by_location] is called with its default
      [regex=True].  The model compiles the queries whose only
      metacharacter is [.] (the regular expression is then the query,
      character by character, with [.] any character but a newline);
      a query with another metacharacter of [re], which Python may
      accept or reject with [re.error], gives [None], outside the model.
    - In [Text], [str.lower] covers the Latin script (which holds every
      Vietnamese letter), [\w] its letters and digits, and [\d] the ASCII
      digits: characters of other scripts are taken as caseless and
      non-word.  The regex model accepts the syntax the source's
      patterns use; [parse] runs with fuel [4 * length + 4], enough
      because every call of the descent either reads a character or
      descends at most three levels before reading one, and every
      pattern of the source parses (checked by evaluation:
      [extract_patterns_parse], [topic_patterns_parse],
      [decode_patterns_parse]).
    - The matcher needs no fuel: [star] recurses on the text and [m] on
      the pattern; the quantifiers [*] and [+] apply to single
      characters in every pattern of the source.
    - [json.loads] runs with fuel [2 * length + 1] on the text after its
      leading white space: every call of [parse_value] on a text [s]
      needs at most [2 * length s + 1], and [parse_elems] and
      [parse_members] at most [2 * length s + 2], because each of their
      recursive calls reads at least one character first; so the fuel
      never runs out ([json_loads_go_decides]).
    - [int()] of a month string reads white space, a sign and ASCII
      digits.  A JSON list as region or terrain keeps its string
      elements; its other elements never equal a cell, which is what
      numpy does except when the list is exactly as long as the
      working set and mixes strings with numbers (numpy then turns the
      numbers into strings) or holds lists (a two-dimensional or
      ragged array).
    - Python's [str()] of numbers, used only in the description text of
      the fallback dictionary, is a parameter ([str_int], [str_float]).

    ** Not modelled
    - The OpenAI API itself: each call is a function, given as input,
      from the prompt the code builds to the text it answers ([None]
      when the call raises); the index [random.choice] draws is an
      input too.  The model name, temperature and token limits are
      not modelled.
    - The [:.1f] and [:.2f] formatting of floats in
      [_get_default_response] is a parameter, as [str()] of numbers is.
    - [str.format] features the two templates do not use (attribute
      and index access in a field, [!r], [!a], format specs) give the
      explicit result [FmtUnsupported].
    - [json.loads]'s [NaN] and [Infinity] constants and its recursion
      limit ([RecursionError] on nesting deeper than the interpreter's
      limit, which the code would catch like a decode error).
    - The request body is taken as a JSON object whose [message] and
      [session_id], when present, are strings ([ChatRequest]).  A body
      that is not JSON, not an object, or whose fields have other types
      makes [request.json()], [.get] or [.strip()] raise inside the
      [try], a 500 that is not modelled, and a [session_id] of another
      type would be stored through SQLite's column affinity.
    - The database session, the lifespan
      hook, the HTML front end and [/health]: I/O.
    - [pd.read_csv]: the table is given as a list of typed rows. *)

From stdpp Require Import base list strings.
From Stdlib Require Import QArith Lqa Lia.

(** ** Exceptions as values *)

Inductive result (A E : Type) : Type :=
| Ok (a : A)
| Err (e : E).
Arguments Ok {A E} a.
Arguments Err {A E} e.

Definition result_bind {A B E : Type} (m : result A E) (k : A -> result B E)
  : result B E :=
  match m with
  | Ok a => k a
  | Err e => Err e
  end.

Definition is_ok {A E : Type} (r : result A E) : bool :=
  match r with Ok _ => true | Err _ => false end.


Declare Scope engine_scope.
Delimit Scope engine_scope with engine.
Notation "'let?' x ':=' m 'in' k" := (result_bind m (fun x => k))
  (at level 10, x name, m at level 100, k at level 200) : engine_scope.

Lemma result_bind_Ok {A B E : Type} (m : result A E) (k : A -> result B E) (b : B) :
  result_bind m k = Ok b <-> exists a, m = Ok a /\ k a = Ok b.
Proof.
  destruct m as [a|e]; simpl; split.
  - intros H. eauto.
  - intros (a' & Ha & Hk). congruence.
  - discriminate.
  - intros (a' & Ha & _). discriminate.
Qed.

Lemma result_bind_Err {A B E : Type} (m : result A E) (k : A -> result B E) (e : E) :
  m = Err e -> result_bind m k = Err e.
Proof. intros ->. reflexivity. Qed.

(** ** Library functions the code calls *)

(** pandas [DataFrame.head(n)]: the first [n] rows; for a negative [n],
    every row except the last [|n|] ones. *)
Definition pd_head {A : Type} (n : Z) (l : list A) : list A :=
  if (0 <=? n)%Z then firstn (Z.to_nat n) l
  else firstn (length l - Z.to_nat (- n)) l.

(** [Series.sum()] and [Series.mean()] over exact rationals. *)
Definition sumQ (l : list Q) : Q := fold_right Qplus 0%Q l.

Definition meanQ (l : list Q) : Q :=
  (sumQ l / inject_Z (Z.of_nat (length l)))%Q.

(** ** Automation *)

Create HintDb engine.

#[export] Hint Resolve incl_filter : engine.

Ltac bool_to_prop :=
  repeat match goal with
    | H : Qle_bool _ _ = true |- _ => apply Qle_bool_iff in H
    | H : Qeq_bool _ _ = true |- _ => apply Qeq_bool_iff in H
    | H : (_ =? _)%Z = true |- _ => apply Z.eqb_eq in H
    | H : (_ <=? _)%Z = true |- _ => apply Z.leb_le in H
    | H : (_ <=? _)%Z = false |- _ => apply Z.leb_gt in H
    | H : (_ <? _)%Z = true |- _ => apply Z.ltb_lt in H
    | H : (_ <? _)%Z = false |- _ => apply Z.ltb_ge in H
    | H : (_ <? _)%nat = true |- _ => apply Nat.ltb_lt in H
    | H : (_ <? _)%nat = false |- _ => apply Nat.ltb_ge in H
    | H : String.eqb _ _ = true |- _ => apply String.eqb_eq in H
    | H : _ && _ = true |- _ => apply andb_prop in H as [? ?]
    | H : _ || _ = true |- _ => apply orb_prop in H as [? | ?]
    end.

(** ** Lemmas on filters *)

Lemma filter_In_iff {A : Type} (p : A -> bool) (l : list A) (x : A) :
  In x (List.filter p l) <-> In x l /\ p x = true.
Proof. apply filter_In. Qed.

Lemma filter_nonempty_iff {A : Type} (p : A -> bool) (l : list A) :
  List.filter p l <> [] <-> exists x, In x l /\ p x = true.
Proof.
  split.
  - destruct (List.filter p l) as [|y ys] eqn:E; [congruence|].
    intros _. exists y. apply filter_In_iff. rewrite E. left. reflexivity.
  - intros (x & Hx & Hp) E.
    assert (In x (List.filter p l)) as Hin by (apply filter_In_iff; auto).
    rewrite E in Hin. contradiction.
Qed.

Lemma filter_nil_iff {A : Type} (p : A -> bool) (l : list A) :
  List.filter p l = [] <-> forall x, In x l -> p x = false.
Proof.
  split.
  - intros E x Hx. destruct (p x) eqn:Hp; [|reflexivity].
    exfalso. apply (proj2 (filter_nonempty_iff p l)); eauto.
  - intros H. destruct (List.filter p l) as [|y ys] eqn:E; [reflexivity|].
    exfalso. assert (In y (List.filter p l)) as Hy by (rewrite E; left; auto).
    apply filter_In_iff in Hy as [Hy Hp]. rewrite H in Hp by exact Hy. discriminate.
Qed.

Lemma filter_all_true {A : Type} (p : A -> bool) (l : list A) :
  (forall x, In x l -> p x = true) -> List.filter p l = l.
Proof.
  induction l as [|x l IH]; intros H; simpl; [reflexivity|].
  rewrite H by (left; reflexivity). f_equal. apply IH. intros y Hy. apply H. right. exact Hy.
Qed.

(** ** Lemmas on [pd_head] *)

Lemma pd_head_nonneg {A : Type} (n : Z) (l : list A) :
  (0 <= n)%Z -> pd_head n l = firstn (Z.to_nat n) l.
Proof. intros H. unfold pd_head. destruct (Z.leb_spec 0 n); [reflexivity | lia]. Qed.

Lemma pd_head_prefix {A : Type} (n : Z) (l : list A) :
  exists rest, l = pd_head n l ++ rest.
Proof.
  unfold pd_head. destruct (0 <=? n)%Z.
  - exists (skipn (Z.to_nat n) l). symmetry. apply firstn_skipn.
  - exists (skipn (length l - Z.to_nat (- n)) l). symmetry. apply firstn_skipn.
Qed.

Lemma pd_head_incl {A : Type} (n : Z) (l : list A) : incl (pd_head n l) l.
Proof.
  destruct (pd_head_prefix n l) as [rest E]. intros x Hx.
  rewrite E. apply in_or_app. left. exact Hx.
Qed.

Lemma pd_head_length {A : Type} (n : Z) (l : list A) :
  length (pd_head n l) =
  if (0 <=? n)%Z then Nat.min (Z.to_nat n) (length l)
  else (length l - Z.to_nat (- n))%nat.
Proof.
  unfold pd_head. destruct (0 <=? n)%Z; rewrite length_firstn; lia.
Qed.

#[export] Hint Resolve pd_head_incl : engine.

(** ** Lemmas on sums and means of rationals *)

Lemma sumQ_bounds (lo hi : Q) (l : list Q) :
  Forall (fun x => lo <= x <= hi)%Q l ->
  (lo * inject_Z (Z.of_nat (length l)) <= sumQ l <=
   hi * inject_Z (Z.of_nat (length l)))%Q.
Proof.
  induction 1 as [|x l [Hlo Hhi] _ [IHlo IHhi]]; simpl.
  - split; unfold Qle; simpl; lia.
  - rewrite Nat2Z.inj_succ, <- Z.add_1_l, inject_Z_plus.
    split; ring_simplify; lra.
Qed.

Lemma meanQ_bounds (lo hi : Q) (l : list Q) :
  l <> [] -> Forall (fun x => lo <= x <= hi)%Q l -> (lo <= meanQ l <= hi)%Q.
Proof.
  intros Hne HF. destruct (sumQ_bounds lo hi l HF) as [Hlo Hhi].
  assert (0 < inject_Z (Z.of_nat (length l)))%Q as Hpos.
  { destruct l as [|y l]; [congruence|]. unfold Qlt; simpl; lia. }
  unfold meanQ. split.
  - apply Qle_shift_div_l; [exact Hpos | lra].
  - apply Qle_shift_div_r; [exact Hpos | lra].
Qed.

Lemma meanQ_nonneg (l : list Q) :
  Forall (fun x => 0 <= x)%Q l -> (0 <= meanQ l)%Q.
Proof.
  intros HF. destruct l as [|y l'].
  - unfold meanQ. simpl. unfold Qle. simpl. lia.
  - assert (Hs : (0 <= sumQ (y :: l'))%Q).
    { clear -HF. induction HF as [|x l Hx _ IH]; simpl; [unfold Qle; simpl; lia | lra]. }
    unfold meanQ. apply Qle_shift_div_l; [unfold Qlt; simpl; lia | lra].
Qed.

Lemma Qsq_nonneg (a : Q) : (0 <= a * a)%Q.
Proof. destruct (Qlt_le_dec a 0); nra. Qed.

#[export] Hint Resolve Qsq_nonneg : engine.

Lemma In_firstn_l {A : Type} (n : nat) (l : list A) (x : A) : In x (firstn n l) -> In x l.
Proof. intros H. rewrite <- (firstn_skipn n l). apply in_or_app. left. exact H. Qed.
