(* ===== verification/Dataset.v ===== *)
(** The data of [src/clustering.py]: one row of [df_ranking.csv], the five
    weather features of [self.features], the preference dictionary the
    engine reads, the exceptions it can raise, the [StandardScaler] fitted
    in [__init__], and the engine state [__init__] builds. *)

From S2P Require Import Prelude.
From stdpp Require Import base list strings.
From Stdlib Require Import QArith Lqa Lia.

Module Store.

(** One row of the table; the fields are the CSV columns the code reads. *)
Record Row := mkRow {
  name : string;
  province : string;
  region : string;
  terrain : string;
  lat : Q;
  lon : Q;
  month : Z;
  avgtemp_c : Q;
  maxwind_kph : Q;
  totalprecip_mm : Q;
  avghumidity : Q;
  cloud_cover_mean : Q;
  cluster : Z;
  is_centroid : bool;
  hci : Q
}.

(** The five weather columns, in the order of [self.features]. *)
Inductive feature :=
| F_avgtemp_c
| F_maxwind_kph
| F_totalprecip_mm
| F_avghumidity
| F_cloud_cover_mean.

Definition features : list feature :=
  [F_avgtemp_c; F_maxwind_kph; F_totalprecip_mm; F_avghumidity; F_cloud_cover_mean].

(** [row[f]] for a weather column [f]. *)
Definition feature_value (f : feature) (r : Row) : Q :=
  match f with
  | F_avgtemp_c => avgtemp_c r
  | F_maxwind_kph => maxwind_kph r
  | F_totalprecip_mm => totalprecip_mm r
  | F_avghumidity => avghumidity r
  | F_cloud_cover_mean => cloud_cover_mean r
  end.

(** The value of [preferences['region']] or [preferences['terrain']]:
    the dictionary holds whatever the extraction put there.  A string;
    a JSON list, which pandas turns into an array with [np.asarray]
    (each element [Some s] for a string [s], [None] for a value of
    another type); or another value (a number, a boolean, an object),
    which pandas compares with each cell as a scalar. *)
Inductive cat_value :=
| CatStr (s : string)
| CatList (l : list (option string))
| CatOther.

(** The preference dictionary passed to [find_best_cluster] and
    [get_recommendations]; [None] is a key absent from the dictionary
    ([preferences.get(k)] then gives [None], [preferences[k]] raises
    [KeyError]).  For [month], [region] and [terrain] a key bound to
    JSON [null] behaves the same way ([get(k) is not None] is false). *)
Record Prefs := mkPrefs {
  p_avgtemp_c : option Q;
  p_maxwind_kph : option Q;
  p_totalprecip_mm : option Q;
  p_avghumidity : option Q;
  p_cloud_cover_mean : option Q;
  p_month : option Z;
  p_region : option cat_value;
  p_terrain : option cat_value;
  p_preferences : option string
}.

(** The exceptions the engine's code can raise. *)
Inductive engine_error :=
| KeyError (key : string)
| ValueError (msg : string).

(** The fitted [StandardScaler]: per-feature mean and population
    variance ([ddof = 0]), as [fit] computes them. *)
Record Scaler := mkScaler {
  sc_mean : feature -> Q;
  sc_var : feature -> Q
}.

Definition column (f : feature) (rows : list Row) : list Q :=
  map (feature_value f) rows.

Definition fit (rows : list Row) : Scaler :=
  {| sc_mean := fun f => meanQ (column f rows);
     sc_var := fun f =>
       meanQ (map (fun x => (x - meanQ (column f rows)) * (x - meanQ (column f rows)))%Q
                  (column f rows)) |}.

(** The square of [scale_]: sklearn replaces a zero standard deviation
    by [1] ([_handle_zeros_in_scale]). *)
Definition scale2 (sc : Scaler) (f : feature) : Q :=
  if Qeq_bool (sc_var sc f) 0 then 1%Q else sc_var sc f.

(** The state of a [TravelRecommendationEngine] after [__init__]:
    [self.df], [self.scaler] and [self.centroids].  ([self.df_scaled] is
    computed but never read, and is left out.) *)
Record Engine := mkEngine {
  df : list Row;
  scaler : Scaler;
  centroids : list Row
}.

(** [__init__] after [pd.read_csv]: [fit_transform] raises [ValueError]
    on a table with no row; otherwise the scaler is fitted on the whole
    table and the centroid rows are kept in table order. *)
Definition load (rows : list Row) : result Engine engine_error :=
  match rows with
  | [] => Err (ValueError "Found array with 0 sample(s)")
  | _ :: _ =>
      Ok {| df := rows;
            scaler := fit rows;
            centroids := List.filter is_centroid rows |}
  end.

(** The invariant the spec's data model states for the table: months
    lie in 1..12, and the cluster of every row has exactly one centroid
    row. *)
Definition count_centroids (rows : list Row) (c : Z) : nat :=
  length (List.filter (fun r => is_centroid r && (cluster r =? c)%Z) rows).

Definition wf_table (rows : list Row) : bool :=
  forallb (fun r => (1 <=? month r)%Z && (month r <=? 12)%Z &&
                    (count_centroids rows (cluster r) =? 1)%nat) rows.

(** The engine state is what [load] builds from its table. *)
Definition loaded (e : Engine) : Prop :=
  e.(scaler) = fit e.(df) /\ e.(centroids) = List.filter is_centroid e.(df) /\ e.(df) <> [].

(** ** Lemmas *)

Lemma scale2_pos (sc : Scaler) (f : feature) :
  (0 <= sc_var sc f)%Q -> (0 < scale2 sc f)%Q.
Proof.
  intros H. unfold scale2. destruct (Qeq_bool (sc_var sc f) 0) eqn:E.
  - reflexivity.
  - destruct (Qlt_le_dec 0 (sc_var sc f)) as [Hlt|Hle]; [exact Hlt|].
    exfalso. assert (sc_var sc f == 0)%Q as Heq by lra.
    apply Qeq_bool_iff in Heq. congruence.
Qed.

Lemma fit_var_nonneg (rows : list Row) (f : feature) :
  (0 <= sc_var (fit rows) f)%Q.
Proof.
  simpl. apply meanQ_nonneg. apply Forall_forall. intros x Hx.
  apply list_elem_of_In, in_map_iff in Hx as (y & <- & _). apply Qsq_nonneg.
Qed.

Lemma fit_scale2_pos (rows : list Row) (f : feature) : (0 < scale2 (fit rows) f)%Q.
Proof. apply scale2_pos, fit_var_nonneg. Qed.

Lemma loaded_scale2_pos (e : Engine) (f : feature) :
  loaded e -> (0 < scale2 (scaler e) f)%Q.
Proof. intros (-> & _ & _). apply fit_scale2_pos. Qed.

Lemma loaded_centroid_in (e : Engine) (c : Row) :
  loaded e -> In c (centroids e) -> In c (df e) /\ is_centroid c = true.
Proof. intros (_ & -> & _) H. apply filter_In_iff in H. exact H. Qed.

#[export] Hint Resolve fit_scale2_pos loaded_scale2_pos : engine.

(** ** Properties of [__init__] *)


End Store.
