(* ===== verification/Fixture.v ===== *)
(** A small table in the shape of [df_ranking.csv], after the spec's
    two-cluster example: cluster 0 has its centroid at (30, 20, 25, 80,
    70) and cluster 1 at (18, 10, 5, 55, 20).  The witnesses of the
    development evaluate the engine on it. *)

From S2P Require Import Prelude Dataset.
From stdpp Require Import base list strings.
From Stdlib Require Import QArith.
Import Store.

Module Fixture.

Definition sapa : Row :=
  mkRow "Sa Pa" "Lao Cai" "North" "mountain" 22 103 1
        18 10 5 55 20 1 true 70.
Definition dalat : Row :=
  mkRow "Da Lat" "Lam Dong" "Highlands" "mountain" 12 108 1
        19 11 6 56 21 1 false 85.
Definition nhatrang : Row :=
  mkRow "Nha Trang" "Khanh Hoa" "Central" "coast" 12 109 6
        30 20 25 80 70 0 true 80.
Definition vungtau : Row :=
  mkRow "Vung Tau" "Ba Ria" "South" "coast" 10 107 6
        29 19 24 79 69 0 false 60.
Definition halong : Row :=
  mkRow "Ha Long" "Quang Ninh" "North" "coast" 21 107 6
        28 18 22 78 65 0 false 75.

Definition table : list Row := [sapa; dalat; nhatrang; vungtau; halong].

Definition engine : Engine :=
  {| df := table; scaler := fit table; centroids := List.filter is_centroid table |}.

Lemma engine_loaded : loaded engine.
Proof. split; [reflexivity|]. split; [reflexivity|]. discriminate. Qed.

Lemma load_table : load table = Ok engine.
Proof. reflexivity. Qed.

(** A complete preference dictionary with no categorical filter. *)
Definition prefs (t w pr h cl : Q) : Prefs :=
  mkPrefs (Some t) (Some w) (Some pr) (Some h) (Some cl) None None None None.

End Fixture.
