(* ===== verification/Ranking.v ===== *)
(** Ranking by [hci]: the interface [HciSort] of pandas'
    [sort_values('hci', ascending=False)], used by [get_recommendations]
    and [search_by_location], its consequences for any implementation,
    and a stable insertion sort that implements it. *)

From S2P Require Import Prelude Dataset.
From stdpp Require Import base list.
From Stdlib Require Import QArith Lqa Sorted Permutation.
Import Store.

Module Ranking.

(** [r1] may come before [r2] in a list ranked by decreasing [hci]. *)
Definition hci_ge (r1 r2 : Row) : Prop := (hci r2 <= hci r1)%Q.

#[export] Instance hci_ge_trans : Transitive hci_ge.
Proof. intros a b c Hab Hbc. unfold hci_ge in *. lra. Qed.

(** What [sort_values('hci', ascending=False)] guarantees with its
    default [kind='quicksort']: the same rows, in an order of
    non-increasing [hci].  The order of rows with equal [hci] is not
    specified (numpy's quicksort is not stable). *)
Class HciSort := {
  sort_hci : list Row -> list Row;
  sort_hci_perm : forall l, Permutation (sort_hci l) l;
  sort_hci_sorted : forall l, Sorted hci_ge (sort_hci l)
}.

(** ** Consequences of the interface *)

Lemma sorted_prefix {A : Type} (R : A -> A -> Prop) (l1 l2 : list A) :
  Sorted R (l1 ++ l2) -> Sorted R l1.
Proof.
  induction l1 as [|x l1 IH]; simpl; intros H; [constructor|].
  inversion H as [|? ? Hs Hhd]; subst. constructor; [apply IH; exact Hs|].
  destruct l1 as [|y l1]; [constructor|]. inversion Hhd; subst. constructor. assumption.
Qed.

(** In a list ranked by [hci], every row of a prefix is at least as good
    as every row after it. *)
Lemma sorted_prefix_dominates (l1 l2 : list Row) (x y : Row) :
  Sorted hci_ge (l1 ++ l2) -> In x l1 -> In y l2 -> (hci y <= hci x)%Q.
Proof.
  intros H Hx Hy. apply Sorted_StronglySorted in H; [|exact hci_ge_trans].
  revert x Hx. induction l1 as [|z l1 IH]; intros x Hx; [contradiction|].
  simpl in H. inversion H as [|? ? Hs Hall]; subst.
  destruct Hx as [<-|Hx].
  - rewrite List.Forall_forall in Hall. apply (Hall y). apply in_or_app. right. exact Hy.
  - apply IH; assumption.
Qed.

Section WithSort.
Context `{HciSort}.

Lemma sort_hci_In (l : list Row) (x : Row) : In x (sort_hci l) <-> In x l.
Proof. split; apply Permutation_in; [|symmetry]; apply sort_hci_perm. Qed.

Lemma sort_hci_length (l : list Row) : length (sort_hci l) = length l.
Proof. apply Permutation_length, sort_hci_perm. Qed.

Lemma sort_hci_nil (l : list Row) : sort_hci l = [] <-> l = [].
Proof.
  split; intros E.
  - apply Permutation_nil. rewrite <- E. apply sort_hci_perm.
  - subst. apply Permutation_nil. symmetry. apply sort_hci_perm.
Qed.

End WithSort.

(** ** A stable implementation: insertion sort by decreasing [hci] *)

Fixpoint insert_desc (x : Row) (l : list Row) : list Row :=
  match l with
  | [] => [x]
  | y :: ys => if Qle_bool (hci y) (hci x) then x :: y :: ys else y :: insert_desc x ys
  end.

Fixpoint isort_desc (l : list Row) : list Row :=
  match l with
  | [] => []
  | x :: xs => insert_desc x (isort_desc xs)
  end.

(** [insert_desc x l] puts [x] after the rows strictly better than it
    and before all the others. *)
Lemma insert_desc_split (x : Row) (l : list Row) :
  exists pre suf, l = pre ++ suf /\ insert_desc x l = pre ++ x :: suf /\
    Forall (fun y => hci x < hci y)%Q pre.
Proof.
  induction l as [|y ys IH]; simpl.
  - exists [], []. auto.
  - destruct (Qle_bool (hci y) (hci x)) eqn:E.
    + exists [], (y :: ys). auto.
    + destruct IH as (pre & suf & -> & -> & HF). exists (y :: pre), suf.
      split; [reflexivity|]. split; [reflexivity|]. constructor; [|exact HF].
      apply Qnot_le_lt. intros Hle. apply Qle_bool_iff in Hle. congruence.
Qed.

Lemma insert_desc_perm (x : Row) (l : list Row) : Permutation (insert_desc x l) (x :: l).
Proof.
  destruct (insert_desc_split x l) as (pre & suf & -> & -> & _).
  symmetry. apply Permutation_middle.
Qed.

Lemma insert_desc_sorted (x : Row) (l : list Row) :
  Sorted hci_ge l -> Sorted hci_ge (insert_desc x l).
Proof.
  induction l as [|y ys IH]; simpl; intros Hs.
  - repeat constructor.
  - destruct (Qle_bool (hci y) (hci x)) eqn:E.
    + constructor; [exact Hs|]. constructor. apply Qle_bool_iff. exact E.
    + assert (Hxy : hci_ge y x).
      { unfold hci_ge. apply Qlt_le_weak, Qnot_le_lt. intros Hle.
        apply Qle_bool_iff in Hle. congruence. }
      inversion Hs as [|? ? Hs' Hhd]; subst.
      constructor; [apply IH; exact Hs'|].
      destruct ys as [|z zs]; simpl; [constructor; exact Hxy|].
      destruct (Qle_bool (hci z) (hci x)); constructor; [exact Hxy|].
      inversion Hhd; subst. assumption.
Qed.

Lemma isort_desc_perm (l : list Row) : Permutation (isort_desc l) l.
Proof.
  induction l as [|x l IH]; simpl; [reflexivity|].
  rewrite insert_desc_perm. constructor. exact IH.
Qed.

Lemma isort_desc_sorted (l : list Row) : Sorted hci_ge (isort_desc l).
Proof. induction l as [|x l IH]; simpl; [constructor|]. apply insert_desc_sorted, IH. Qed.

#[export] Instance isort_HciSort : HciSort :=
  {| sort_hci := isort_desc;
     sort_hci_perm := isort_desc_perm;
     sort_hci_sorted := isort_desc_sorted |}.

(** Stability: among the rows of any one [hci] value, the insertion sort
    keeps the table order. *)
Lemma insert_desc_filter_eq (v : Q) (x : Row) (l : list Row) :
  List.filter (fun r => Qeq_bool (hci r) v) (insert_desc x l) =
  if Qeq_bool (hci x) v then x :: List.filter (fun r => Qeq_bool (hci r) v) l
  else List.filter (fun r => Qeq_bool (hci r) v) l.
Proof.
  destruct (insert_desc_split x l) as (pre & suf & -> & -> & HF).
  rewrite !List.filter_app. simpl.
  destruct (Qeq_bool (hci x) v) eqn:Ex; [|reflexivity].
  replace (List.filter (fun r => Qeq_bool (hci r) v) pre) with (@nil Row); [reflexivity|].
  symmetry. apply filter_nil_iff. intros y Hy.
  rewrite List.Forall_forall in HF. specialize (HF y Hy).
  apply Qeq_bool_iff in Ex. destruct (Qeq_bool (hci y) v) eqn:Ey; [|reflexivity].
  apply Qeq_bool_iff in Ey. lra.
Qed.

End Ranking.
