(* ===== verification/Centroid.v ===== *)
(** The nearest-centroid matcher: [find_best_cluster] of
    [src/clustering.py].  The preference vector is built with the
    defaults of the code, standardised with the fitted scaler, compared
    with every centroid row, and [np.argmin] picks the first closest. *)

From S2P Require Import Prelude Dataset Fixture.
From stdpp Require Import base list strings.
From Stdlib Require Import QArith Lqa Lia.
Import Store.

Module Centroid.

(** [preferences[k]]: a missing key raises [KeyError]. *)
Definition get_key (k : string) (o : option Q) : result Q engine_error :=
  match o with
  | Some v => Ok v
  | None => Err (KeyError k)
  end.

(** [preferences.get(k, d)]. *)
Definition get_default (d : Q) (o : option Q) : Q :=
  match o with
  | Some v => v
  | None => d
  end.

(** [user_data]: the dictionary literal is evaluated key by key in the
    order of [self.features]; precipitation and cloud cover default to
    [20.0] and [50.0]. *)
Definition user_vector (p : Prefs) : result (feature -> Q) engine_error :=
  (let? t := get_key "avgtemp_c" (p_avgtemp_c p) in
   let? w := get_key "maxwind_kph" (p_maxwind_kph p) in
   let pr := get_default 20%Q (p_totalprecip_mm p) in
   let? h := get_key "avghumidity" (p_avghumidity p) in
   let cl := get_default 50%Q (p_cloud_cover_mean p) in
   Ok (fun f => match f with
                | F_avgtemp_c => t
                | F_maxwind_kph => w
                | F_totalprecip_mm => pr
                | F_avghumidity => h
                | F_cloud_cover_mean => cl
                end))%engine.

(** The square of [euclidean_distances] between [scaler.transform(u)]
    and [scaler.transform(v)]:
    [sum_f ((u_f - m_f)/s_f - (v_f - m_f)/s_f)^2 = sum_f (u_f - v_f)^2 / s_f^2]. *)
Definition sq_dist (sc : Scaler) (u v : feature -> Q) : Q :=
  sumQ (map (fun f => (u f - v f) * (u f - v f) / scale2 sc f)%Q features).

(** [np.argmin]: the index of the first occurrence of the minimum, with
    that minimum; [None] on an empty sequence. *)
Fixpoint argmin (l : list Q) : option (nat * Q) :=
  match l with
  | [] => None
  | x :: xs =>
      match argmin xs with
      | None => Some (0%nat, x)
      | Some (j, y) => if Qle_bool x y then Some (0%nat, x) else Some (S j, y)
      end
  end.

Definition centroid_vector (c : Row) : feature -> Q := fun f => feature_value f c.

Definition centroid_distances (e : Engine) (u : feature -> Q) : list Q :=
  map (fun c => sq_dist (scaler e) u (centroid_vector c)) (centroids e).

Definition empty_centroids_error : engine_error :=
  ValueError "Found array with 0 sample(s)".

(** [find_best_cluster]: [scaler.transform] of the empty centroid array
    raises [ValueError]; otherwise the cluster of the centroid row at
    [np.argmin] of the distances. *)
Definition find_best_cluster (e : Engine) (p : Prefs) : result Z engine_error :=
  (let? u := user_vector p in
   match argmin (centroid_distances e u) with
   | None => Err empty_centroids_error
   | Some (i, _) =>
       match nth_error (centroids e) i with
       | Some c => Ok (cluster c)
       | None => Err empty_centroids_error
       end
   end)%engine.

(** ** Lemmas on [argmin] *)

Lemma argmin_None (l : list Q) : argmin l = None <-> l = [].
Proof.
  destruct l as [|x xs]; simpl; [tauto|].
  split; [|discriminate]. destruct (argmin xs) as [[j y]|]; [destruct (Qle_bool x y)|]; discriminate.
Qed.

(** The index returned holds the minimum, and every earlier entry is
    strictly larger: the first occurrence of the minimum. *)
Lemma argmin_spec (l : list Q) (i : nat) (x : Q) :
  argmin l = Some (i, x) ->
  nth_error l i = Some x /\
  (forall y, In y l -> (x <= y)%Q) /\
  (forall j y, (j < i)%nat -> nth_error l j = Some y -> (x < y)%Q).
Proof.
  revert i x. induction l as [|z zs IH]; intros i x H; simpl in H; [discriminate|].
  destruct (argmin zs) as [[j y]|] eqn:E.
  - destruct (IH j y eq_refl) as (Hn & Hmin & Hfirst).
    destruct (Qle_bool z y) eqn:Ezy; injection H as <- <-.
    + apply Qle_bool_iff in Ezy. split; [reflexivity|]. split; [|intros; lia].
      intros w [<-|Hw]; [apply Qle_refl|]. specialize (Hmin w Hw). lra.
    + assert (y < z)%Q as Hyz by (apply Qnot_le_lt; intros Hle; apply Qle_bool_iff in Hle; congruence).
      split; [exact Hn|]. split.
      * intros w [<-|Hw]; [lra | apply Hmin, Hw].
      * intros [|j'] w Hj Hw; simpl in Hw; [congruence|]. apply (Hfirst j'); [lia | exact Hw].
  - apply argmin_None in E. subst. injection H as <- <-.
    split; [reflexivity|]. split; [intros w [<-|[]]; apply Qle_refl | intros; lia].
Qed.

Lemma argmin_index_valid (l : list Q) (i : nat) (x : Q) :
  argmin l = Some (i, x) -> (i < length l)%nat.
Proof. intros H. apply nth_error_Some. destruct (argmin_spec l i x H) as (-> & _). discriminate. Qed.

(** ** Lemmas on [sq_dist] *)

Lemma sumQ_nonneg (l : list Q) : Forall (fun x => 0 <= x)%Q l -> (0 <= sumQ l)%Q.
Proof. induction 1; simpl; [apply Qle_refl | lra]. Qed.

Lemma sq_term_nonneg (sc : Scaler) (u v : feature -> Q) (f : feature) :
  (0 < scale2 sc f)%Q -> (0 <= (u f - v f) * (u f - v f) / scale2 sc f)%Q.
Proof. intros H. apply Qle_shift_div_l; [exact H|]. rewrite Qmult_0_l. apply Qsq_nonneg. Qed.

Lemma sq_term_zero (sc : Scaler) (u v : feature -> Q) (f : feature) :
  (0 < scale2 sc f)%Q -> ((u f - v f) * (u f - v f) / scale2 sc f == 0)%Q -> (u f == v f)%Q.
Proof.
  intros Hs H. assert ((u f - v f) * (u f - v f) == 0)%Q as H2.
  { rewrite <- (Qmult_0_l (scale2 sc f)), <- H. field. intros E. rewrite E in Hs. discriminate. }
  apply Qmult_integral in H2 as [E|E]; lra.
Qed.

Lemma sq_dist_self (sc : Scaler) (u : feature -> Q) : (sq_dist sc u u == 0)%Q.
Proof. unfold sq_dist; simpl. unfold Qdiv. ring_simplify. reflexivity. Qed.

Lemma sq_dist_nonneg (sc : Scaler) (u v : feature -> Q) :
  (forall f, 0 < scale2 sc f)%Q -> (0 <= sq_dist sc u v)%Q.
Proof.
  intros Hs. apply sumQ_nonneg. apply List.Forall_forall. intros x Hx.
  apply in_map_iff in Hx as (f & <- & _). apply sq_term_nonneg, Hs.
Qed.

(** The squared distance vanishes only on equal feature vectors. *)
Lemma sq_dist_zero (sc : Scaler) (u v : feature -> Q) :
  (forall f, 0 < scale2 sc f)%Q -> (sq_dist sc u v == 0)%Q -> forall f, (u f == v f)%Q.
Proof.
  intros Hs H f. apply (sq_term_zero sc u v f (Hs f)).
  pose proof (sq_term_nonneg sc u v) as Hn. unfold sq_dist in H; simpl in H.
  pose proof (Hn F_avgtemp_c (Hs _)). pose proof (Hn F_maxwind_kph (Hs _)).
  pose proof (Hn F_totalprecip_mm (Hs _)). pose proof (Hn F_avghumidity (Hs _)).
  pose proof (Hn F_cloud_cover_mean (Hs _)).
  destruct f; lra.
Qed.

Lemma sq_dist_ext (sc : Scaler) (u u' v : feature -> Q) :
  (forall f, u f = u' f) -> sq_dist sc u v = sq_dist sc u' v.
Proof. intros H. unfold sq_dist. simpl. rewrite !H. reflexivity. Qed.

(** ** Lemmas on [user_vector] *)

Lemma user_vector_Ok (p : Prefs) :
  (exists u, user_vector p = Ok u) <->
  is_Some (p_avgtemp_c p) /\ is_Some (p_maxwind_kph p) /\ is_Some (p_avghumidity p).
Proof.
  unfold user_vector.
  destruct (p_avgtemp_c p), (p_maxwind_kph p), (p_avghumidity p); simpl;
    split; try (intros [u Hu]; discriminate); try (intros (Ha & Hb & Hc);
    try destruct Ha as [? Ha]; try destruct Hb as [? Hb]; try destruct Hc as [? Hc]; discriminate);
    eauto; intros; repeat split; eexists; reflexivity.
Qed.

Lemma user_vector_Err (p : Prefs) (err : engine_error) :
  user_vector p = Err err <->
  (p_avgtemp_c p = None /\ err = KeyError "avgtemp_c") \/
  (is_Some (p_avgtemp_c p) /\ p_maxwind_kph p = None /\ err = KeyError "maxwind_kph") \/
  (is_Some (p_avgtemp_c p) /\ is_Some (p_maxwind_kph p) /\ p_avghumidity p = None /\
   err = KeyError "avghumidity").
Proof.
  unfold user_vector.
  destruct (p_avgtemp_c p), (p_maxwind_kph p), (p_avghumidity p); simpl;
    split; intros H; try (injection H as <-); try discriminate;
    try (destruct H as [(? & ?)|[(? & ? & ?)|(? & ? & ? & ?)]]);
    try (destruct_and?; congruence);
    subst; eauto 10; try (exfalso; match goal with H : is_Some None |- _ => by destruct H end).
Qed.

(** Once the vector is built, the only error left is the empty centroid
    set, and otherwise the cluster of the centroid at [np.argmin]. *)
Lemma find_best_cluster_unfold (e : Engine) (p : Prefs) (u : feature -> Q) :
  user_vector p = Ok u ->
  find_best_cluster e p =
  match argmin (centroid_distances e u) with
  | None => Err empty_centroids_error
  | Some (i, _) =>
      match nth_error (centroids e) i with
      | Some c => Ok (cluster c)
      | None => Err empty_centroids_error
      end
  end.
Proof. intros Hu. unfold find_best_cluster. rewrite Hu. reflexivity. Qed.

Lemma find_best_cluster_keys_Err (e : Engine) (p : Prefs) (u : feature -> Q) (err : engine_error) :
  user_vector p = Ok u ->
  find_best_cluster e p = Err err <-> centroids e = [] /\ err = empty_centroids_error.
Proof.
  intros Hu. rewrite (find_best_cluster_unfold e p u Hu).
  destruct (argmin (centroid_distances e u)) as [[i x]|] eqn:Ha.
  - pose proof (argmin_index_valid _ _ _ Ha) as Hi.
    unfold centroid_distances in Hi. rewrite length_map in Hi.
    destruct (nth_error (centroids e) i) eqn:Hn; [|apply nth_error_None in Hn; lia].
    split; [discriminate|]. intros [Hc _]. rewrite Hc in Hi. simpl in Hi. lia.
  - apply argmin_None, map_eq_nil in Ha. split; [intros H; injection H as <-; auto|].
    intros [_ ->]. reflexivity.
Qed.

(** ** Properties of [find_best_cluster] *)

(** The cluster returned is the one at [np.argmin] of the distances. *)
Lemma find_best_cluster_argmin (e : Engine) (p : Prefs) (k : Z) :
  find_best_cluster e p = Ok k ->
  exists u i c,
    user_vector p = Ok u /\ nth_error (centroids e) i = Some c /\ cluster c = k /\
    (forall c', In c' (centroids e) ->
       (sq_dist (scaler e) u (centroid_vector c) <= sq_dist (scaler e) u (centroid_vector c'))%Q) /\
    (forall j c', (j < i)%nat -> nth_error (centroids e) j = Some c' ->
       (sq_dist (scaler e) u (centroid_vector c) < sq_dist (scaler e) u (centroid_vector c'))%Q).
Proof.
  destruct (user_vector p) as [u|err] eqn:Hu; [|unfold find_best_cluster; rewrite Hu; discriminate].
  rewrite (find_best_cluster_unfold e p u Hu).
  destruct (argmin (centroid_distances e u)) as [[i x]|] eqn:Ha; [|discriminate].
  destruct (nth_error (centroids e) i) as [c|] eqn:Hc; [|discriminate].
  intros Hk. injection Hk as <-.
  destruct (argmin_spec _ _ _ Ha) as (Hn & Hmin & Hfirst).
  unfold centroid_distances in Hn, Hmin, Hfirst. rewrite nth_error_map, Hc in Hn.
  injection Hn as Hx. subst x.
  exists u, i, c. split; [reflexivity|]. split; [exact Hc|]. split; [reflexivity|]. split.
  - intros c' Hc'. apply Hmin. apply in_map_iff. exists c'. split; [reflexivity | exact Hc'].
  - intros j c' Hj Hc'. apply (Hfirst j); [exact Hj|]. rewrite nth_error_map, Hc'. reflexivity.
Qed.

(** C8: [find_best_cluster] returns the cluster of a centroid row whose
    standardised distance to the preference vector is minimal, and that
    row is the first one in table order with that distance (no earlier
    centroid is as close): np.argmin's first-occurrence tie-breaking. *)
Theorem find_best_cluster_nearest (e : Engine) (p : Prefs) (k : Z) :
  find_best_cluster e p = Ok k ->
  exists u i c,
    user_vector p = Ok u /\ nth_error (centroids e) i = Some c /\ cluster c = k /\
    (forall c', In c' (centroids e) ->
       (sq_dist (scaler e) u (centroid_vector c) <= sq_dist (scaler e) u (centroid_vector c'))%Q) /\
    (forall j c', (j < i)%nat -> nth_error (centroids e) j = Some c' ->
       (sq_dist (scaler e) u (centroid_vector c) < sq_dist (scaler e) u (centroid_vector c'))%Q).
Proof. apply find_best_cluster_argmin. Qed.

(** C9: [find_best_cluster] fails exactly when a key it reads with
    [preferences[k]] is missing ([KeyError], in the order the dictionary
    literal reads them) or when the table has no centroid row
    ([ValueError]); it never fails otherwise. *)
Theorem find_best_cluster_error (e : Engine) (p : Prefs) (err : engine_error) :
  find_best_cluster e p = Err err <->
  (p_avgtemp_c p = None /\ err = KeyError "avgtemp_c") \/
  (is_Some (p_avgtemp_c p) /\ p_maxwind_kph p = None /\ err = KeyError "maxwind_kph") \/
  (is_Some (p_avgtemp_c p) /\ is_Some (p_maxwind_kph p) /\ p_avghumidity p = None /\
   err = KeyError "avghumidity") \/
  (is_Some (p_avgtemp_c p) /\ is_Some (p_maxwind_kph p) /\ is_Some (p_avghumidity p) /\
   centroids e = [] /\ err = empty_centroids_error).
Proof.
  destruct (user_vector p) as [u|err'] eqn:Hu.
  - rewrite (find_best_cluster_keys_Err e p u err Hu).
    assert (Hk := proj1 (user_vector_Ok p) (ex_intro _ u Hu)). destruct Hk as (Ha & Hb & Hc).
    split; [intros [H1 H2]; right; right; right; auto|].
    intros [(Hn & _)|[(_ & Hn & _)|[(_ & _ & Hn & _)|(_ & _ & _ & H1 & H2)]]];
      [rewrite Hn in Ha; by destruct Ha | rewrite Hn in Hb; by destruct Hb
      | rewrite Hn in Hc; by destruct Hc | auto].
  - unfold find_best_cluster at 1. rewrite Hu. simpl.
    assert (He := proj1 (user_vector_Err p err') Hu).
    split.
    + intros H. injection H as <-. destruct He as [H|[H|H]]; auto.
    + intros H. f_equal.
      destruct He as [(Ha & ->)|[(Ha & Hb & ->)|(Ha & Hb & Hc & ->)]];
      destruct H as [(Ha' & ->)|[(Ha' & Hb' & ->)|[(Ha' & Hb' & Hc' & ->)|(Ha' & Hb' & Hc' & _ & ->)]]];
      try reflexivity; exfalso;
      repeat match goal with
             | H : ?x = None, H' : is_Some ?x |- _ => rewrite H in H'; destruct H' as [? H']; discriminate
             end.
Qed.

(** The preference dictionary of a row's own weather features. *)
Definition prefs_of_row (c : Row) : Prefs :=
  mkPrefs (Some (avgtemp_c c)) (Some (maxwind_kph c)) (Some (totalprecip_mm c))
          (Some (avghumidity c)) (Some (cloud_cover_mean c)) None None None None.

Lemma user_vector_prefs_of_row (c : Row) :
  exists u, user_vector (prefs_of_row c) = Ok u /\ forall f, u f = centroid_vector c f.
Proof. eexists. split; [reflexivity|]. intros []; reflexivity. Qed.

(** C10: a centroid row's own feature vector is classified to its own
    cluster, provided every centroid row with the same features carries
    the same cluster id (the zero distance is the minimum, and it is
    reached only on equal features because every scale is positive). *)
Theorem find_best_cluster_centroid (e : Engine) (c : Row) :
  loaded e -> In c (centroids e) ->
  (forall c', In c' (centroids e) ->
     (forall f, feature_value f c' == feature_value f c)%Q -> cluster c' = cluster c) ->
  find_best_cluster e (prefs_of_row c) = Ok (cluster c).
Proof.
  intros Hl Hc Huniq.
  destruct (find_best_cluster e (prefs_of_row c)) as [k|err] eqn:Hf.
  - destruct (find_best_cluster_argmin e _ k Hf) as (u & i & c' & Hu & Hi & <- & Hmin & _).
    destruct (user_vector_prefs_of_row c) as (u' & Hu' & Hext). rewrite Hu' in Hu. injection Hu as <-.
    f_equal. apply Huniq; [apply nth_error_In in Hi; exact Hi|].
    pose proof (Hmin c Hc) as Hle.
    rewrite !(sq_dist_ext _ u' (centroid_vector c)) in Hle by exact Hext.
    rewrite sq_dist_self in Hle.
    assert (Hs : forall f, (0 < scale2 (scaler e) f)%Q) by (intros; apply loaded_scale2_pos, Hl).
    pose proof (sq_dist_nonneg _ (centroid_vector c) (centroid_vector c') Hs).
    intros f. symmetry. apply (sq_dist_zero (scaler e) (centroid_vector c) (centroid_vector c') Hs).
    lra.
  - destruct (user_vector_prefs_of_row c) as (u & Hu & _).
    apply (find_best_cluster_keys_Err e _ u err Hu) in Hf as [Hn _].
    rewrite Hn in Hc. contradiction.
Qed.

(** Witnesses on the fixture table. *)

Lemma find_best_cluster_nearest_witness :
  find_best_cluster Fixture.engine (Fixture.prefs 28 18 22 78 65) = Ok 0%Z /\
  exists u i c,
    user_vector (Fixture.prefs 28 18 22 78 65) = Ok u /\
    nth_error (centroids Fixture.engine) i = Some c /\ cluster c = 0%Z /\
    (forall c', In c' (centroids Fixture.engine) ->
       (sq_dist (scaler Fixture.engine) u (centroid_vector c) <=
        sq_dist (scaler Fixture.engine) u (centroid_vector c'))%Q) /\
    (forall j c', (j < i)%nat -> nth_error (centroids Fixture.engine) j = Some c' ->
       (sq_dist (scaler Fixture.engine) u (centroid_vector c) <
        sq_dist (scaler Fixture.engine) u (centroid_vector c'))%Q).
Proof.
  assert (H : find_best_cluster Fixture.engine (Fixture.prefs 28 18 22 78 65) = Ok 0%Z)
    by (vm_compute; reflexivity).
  split; [exact H|]. apply (find_best_cluster_nearest _ _ _ H).
Defined.

Lemma find_best_cluster_centroid_witness :
  find_best_cluster Fixture.engine (prefs_of_row Fixture.sapa) = Ok 1%Z.
Proof.
  apply (find_best_cluster_centroid Fixture.engine Fixture.sapa Fixture.engine_loaded).
  - simpl. auto.
  - intros c' [<-|[<-|[]]] Hf; [reflexivity|].
    exfalso. specialize (Hf F_avgtemp_c). vm_compute in Hf. discriminate.
Defined.

Lemma find_best_cluster_error_witness :
  find_best_cluster Fixture.engine
    (mkPrefs None (Some 18) None (Some 78) None None None None None) = Err (KeyError "avgtemp_c").
Proof. apply (proj2 (find_best_cluster_error _ _ _)). left. split; reflexivity. Defined.

(** The spec's example: with centroids at (30, 20, 25, 80, 70) for
    cluster 0 and (18, 10, 5, 55, 20) for cluster 1, the preference
    (28, 18, 22, 78, 65) is classified to cluster 0, and a dictionary
    without [avgtemp_c] raises [KeyError]. *)
Example find_best_cluster_spec_example :
  find_best_cluster Fixture.engine (Fixture.prefs 28 18 22 78 65) = Ok 0%Z /\
  find_best_cluster Fixture.engine
    (mkPrefs None (Some 18) None (Some 78) None None None None None) = Err (KeyError "avgtemp_c").
Proof. split; vm_compute; reflexivity. Qed.

End Centroid.
