(* ===== verification/Pipeline.v ===== *)
(** The filter-and-rank pipeline: [get_recommendations] and
    [_row_to_dict] of [src/clustering.py].  The month, region and terrain
    filters are each applied only when they keep at least one row; the
    working set is then narrowed to the nearest cluster when it is large;
    it is ranked by [hci] (through the [HciSort] interface) and cut with
    [head(top_k)].  The region and terrain comparisons are pandas': a
    list of another length than the working set raises [ValueError]. *)

From S2P Require Import Prelude Dataset Fixture Ranking Centroid.
From stdpp Require Import base list strings.
From Stdlib Require Import QArith Lqa Lia Sorted Permutation.
From Stdlib Require DecimalString.
Import Store Ranking Centroid.

Module Pipeline.

(** The dictionary built by [_row_to_dict]. *)
Record Recommendation := mkRecommendation {
  rec_city : string;
  rec_province : string;
  rec_region : string;
  rec_terrain : string;
  rec_lat : Q;
  rec_lon : Q;
  rec_month : Z;
  rec_avgtemp_c : Q;
  rec_maxwind_kph : Q;
  rec_totalprecip_mm : Q;
  rec_avghumidity : Q;
  rec_cloud_cover_mean : Q;
  rec_score : Q;
  rec_cluster : Z
}.

Definition row_to_dict (r : Row) : Recommendation :=
  {| rec_city := name r; rec_province := province r; rec_region := region r;
     rec_terrain := terrain r; rec_lat := lat r; rec_lon := lon r;
     rec_month := month r; rec_avgtemp_c := avgtemp_c r;
     rec_maxwind_kph := maxwind_kph r; rec_totalprecip_mm := totalprecip_mm r;
     rec_avghumidity := avghumidity r; rec_cloud_cover_mean := cloud_cover_mean r;
     rec_score := hci r; rec_cluster := cluster r |}.

(** [sub = data[mask]; if len(sub) > 0: data = sub]: the guarded filter
    the code writes out for the month, region, terrain and cluster
    narrowing steps. *)
Definition narrow (keep : Row -> bool) (data : list Row) : list Row :=
  let sub := List.filter keep data in
  if (0 <? length sub)%nat then sub else data.

Definition month_filter (pm : option Z) (data : list Row) : list Row :=
  match pm with
  | Some m => narrow (fun r => (month r =? m)%Z) data
  | None => data
  end.

(** [str()] of a non-negative [int]. *)
Definition decimal (n : nat) : string := DecimalString.NilZero.string_of_uint (Nat.to_uint n).

(** [str(e)] of the [ValueError] pandas raises when a column of [n]
    cells is compared with an array of [m] elements. *)
Definition lengths_error (n m : nat) : string :=
  ("('Lengths must match to compare', (" ++ decimal n ++ ",), (" ++ decimal m ++ ",))")%string.

(** [data[data[col] == v]]: a string or another scalar is compared with
    every cell; a list, turned into an array, is compared position by
    position after pandas checks that the lengths agree. *)
Definition cat_select (col : Row -> string) (v : cat_value) (data : list Row)
  : result (list Row) engine_error :=
  match v with
  | CatStr g => Ok (List.filter (fun r => String.eqb (col r) g) data)
  | CatOther => Ok []
  | CatList l =>
      if (length data =? length l)%nat
      then Ok (map fst (List.filter (fun rx => match snd rx with
                                               | Some g => String.eqb (col (fst rx)) g
                                               | None => false
                                               end) (combine data l)))
      else Err (ValueError (lengths_error (length data) (length l)))
  end.

(** [if preferences.get(k) is not None: sub = data[data[col] ==
    preferences[k]]; if len(sub) > 0: data = sub]. *)
Definition cat_filter (col : Row -> string) (pv : option cat_value) (data : list Row)
  : result (list Row) engine_error :=
  match pv with
  | Some v => (let? sub := cat_select col v data in
               Ok (if (0 <? length sub)%nat then sub else data))%engine
  | None => Ok data
  end.

Definition region_filter (pr : option cat_value) (data : list Row) : result (list Row) engine_error :=
  cat_filter region pr data.

Definition terrain_filter (pt : option cat_value) (data : list Row) : result (list Row) engine_error :=
  cat_filter terrain pt data.

(** Steps 1-4: month, then region, then terrain; the comparison of the
    region or the terrain can raise. *)
Definition filter_stage (p : Prefs) (data : list Row) : result (list Row) engine_error :=
  (let? d := region_filter (p_region p) (month_filter (p_month p) data) in
   terrain_filter (p_terrain p) d)%engine.

(** A categorical preference that is not a list, which pandas compares
    without raising. *)
Definition cat_scalar (pv : option cat_value) : bool :=
  match pv with Some (CatList _) => false | _ => true end.

Definition prefs_scalar (p : Prefs) : bool := cat_scalar (p_region p) && cat_scalar (p_terrain p).

(** Step 5: the cluster fallback when nothing is left, the cluster
    narrowing when more than [top_k * 2] rows are left. *)
Definition cluster_stage (e : Engine) (p : Prefs) (top_k : Z) (data : list Row)
  : result (list Row) engine_error :=
  (if (length data =? 0)%nat then
     let? best := find_best_cluster e p in
     Ok (List.filter (fun r => (cluster r =? best)%Z) (df e))
   else if (top_k * 2 <? Z.of_nat (length data))%Z then
     let? best := find_best_cluster e p in
     Ok (narrow (fun r => (cluster r =? best)%Z) data)
   else Ok data)%engine.

Section WithSort.
Context `{HciSort}.

(** [get_recommendations]: steps 1-5, then [sort_values('hci',
    ascending=False)], [head(top_k)] and [_row_to_dict]. *)
Definition get_recommendations (e : Engine) (p : Prefs) (top_k : Z)
  : result (list Recommendation) engine_error :=
  (let? filtered := filter_stage p (df e) in
   let? data := cluster_stage e p top_k filtered in
   Ok (map row_to_dict (pd_head top_k (sort_hci data))))%engine.

End WithSort.

(** ** Lemmas on [narrow] *)

Lemma narrow_incl (keep : Row -> bool) (data : list Row) : incl (narrow keep data) data.
Proof. unfold narrow. destruct (0 <? length _)%nat; [apply incl_filter | apply incl_refl]. Qed.

Lemma narrow_nil (keep : Row -> bool) (data : list Row) : narrow keep data = [] -> data = [].
Proof.
  unfold narrow. destruct (0 <? length (List.filter keep data))%nat eqn:E; [|auto].
  intros Hn. rewrite Hn in E. discriminate.
Qed.

(** When some row passes, [narrow] is the plain filter. *)
Lemma narrow_match (keep : Row -> bool) (data : list Row) :
  (exists x, In x data /\ keep x = true) -> narrow keep data = List.filter keep data.
Proof.
  intros Hex. apply filter_nonempty_iff in Hex. unfold narrow.
  destruct (List.filter keep data) as [|y ys]; [congruence | reflexivity].
Qed.

(** When no row passes, [narrow] leaves the set unchanged. *)
Lemma narrow_nomatch (keep : Row -> bool) (data : list Row) :
  (forall x, In x data -> keep x = false) -> narrow keep data = data.
Proof. intros Hno. apply filter_nil_iff in Hno. unfold narrow. rewrite Hno. reflexivity. Qed.

Lemma narrow_respects (keep : Row -> bool) (data : list Row) :
  (exists x, In x data /\ keep x = true) -> forall x, In x (narrow keep data) -> keep x = true.
Proof. intros Hex x Hx. rewrite narrow_match in Hx by exact Hex. apply filter_In_iff in Hx. apply Hx. Qed.

#[export] Hint Resolve narrow_incl : engine.

(** ** Lemmas on the stages *)

Lemma month_filter_incl (pm : option Z) (data : list Row) : incl (month_filter pm data) data.
Proof. destruct pm; simpl; auto with engine. apply incl_refl. Qed.

Lemma cat_select_incl (col : Row -> string) (v : cat_value) (data sub : list Row) :
  cat_select col v data = Ok sub -> incl sub data.
Proof.
  destruct v as [g|l|]; cbn [cat_select]; [| |intros [= <-]; intros x []].
  - intros [= <-]. apply incl_filter.
  - destruct (length data =? length l)%nat; [|discriminate]. intros [= <-] x Hx.
    apply in_map_iff in Hx as ([y o] & <- & Hy). apply filter_In in Hy as [Hy _].
    exact (in_combine_l _ _ _ _ Hy).
Qed.

Lemma cat_filter_incl (col : Row -> string) (pv : option cat_value) (data d : list Row) :
  cat_filter col pv data = Ok d -> incl d data.
Proof.
  destruct pv as [v|]; cbn [cat_filter]; [|intros [= <-]; apply incl_refl].
  destruct (cat_select col v data) as [sub|] eqn:E; cbn [result_bind]; [|discriminate].
  intros [= <-]. destruct (0 <? length sub)%nat; [exact (cat_select_incl _ _ _ _ E)|apply incl_refl].
Qed.

Lemma cat_filter_nil (col : Row -> string) (pv : option cat_value) (data : list Row) :
  cat_filter col pv data = Ok [] -> data = [].
Proof.
  destruct pv as [v|]; cbn [cat_filter]; [|intros [= ->]; reflexivity].
  destruct (cat_select col v data) as [sub|]; cbn [result_bind]; [|discriminate].
  destruct (0 <? length sub)%nat eqn:E; intros [= Hn]; [subst; discriminate|exact Hn].
Qed.

(** A string preference is the guarded filter of the column. *)
Lemma cat_filter_str (col : Row -> string) (g : string) (data : list Row) :
  cat_filter col (Some (CatStr g)) data = Ok (narrow (fun r => String.eqb (col r) g) data).
Proof. reflexivity. Qed.

(** Comparing raises exactly for a list whose length is not the
    number of rows. *)
Lemma cat_filter_error (col : Row -> string) (pv : option cat_value) (data : list Row)
    (err : engine_error) :
  cat_filter col pv data = Err err <->
  exists l, pv = Some (CatList l) /\ length data <> length l /\
            err = ValueError (lengths_error (length data) (length l)).
Proof.
  destruct pv as [[g|l|]|]; cbn [cat_filter cat_select result_bind];
    try (split; [discriminate|intros (l & Hl & _); discriminate]).
  destruct (Nat.eqb_spec (length data) (length l)) as [E|E]; cbn [result_bind].
  - split; [discriminate|]. intros (l' & [= <-] & Hne & _). contradiction.
  - split; [intros [= <-]; eauto|]. intros (l' & [= <-] & _ & ->). reflexivity.
Qed.

Lemma cat_filter_scalar (col : Row -> string) (pv : option cat_value) (data : list Row) :
  cat_scalar pv = true -> exists d, cat_filter col pv data = Ok d.
Proof.
  intros Hs. destruct (cat_filter col pv data) as [d|err] eqn:E; [eauto|].
  apply cat_filter_error in E as (l & -> & _). discriminate.
Qed.

(** A list as region, of another length than the month-narrowed set,
    makes the region comparison raise. *)
Lemma filter_stage_list_region (p : Prefs) (data : list Row) (l : list (option string)) :
  p_region p = Some (CatList l) -> length l <> length (month_filter (p_month p) data) ->
  filter_stage p data =
  Err (ValueError (lengths_error (length (month_filter (p_month p) data)) (length l))).
Proof.
  intros Hl Hn. unfold filter_stage, region_filter. set (d := month_filter (p_month p) data) in *.
  rewrite (proj2 (cat_filter_error region _ d (ValueError (lengths_error (length d) (length l)))));
    [reflexivity|]. exists l. auto.
Qed.

Lemma filter_stage_Ok (p : Prefs) (data fs : list Row) :
  filter_stage p data = Ok fs ->
  exists d, region_filter (p_region p) (month_filter (p_month p) data) = Ok d /\
            terrain_filter (p_terrain p) d = Ok fs.
Proof.
  unfold filter_stage. destruct (region_filter _ _) as [d|]; cbn [result_bind]; [eauto|discriminate].
Qed.

Lemma filter_stage_incl (p : Prefs) (data fs : list Row) :
  filter_stage p data = Ok fs -> incl fs data.
Proof.
  intros (d & Hd & Hfs)%filter_stage_Ok.
  eauto using incl_tran, cat_filter_incl, month_filter_incl.
Qed.

Lemma filter_stage_nil (p : Prefs) (data : list Row) : filter_stage p data = Ok [] -> data = [].
Proof.
  intros (d & Hd & Hfs)%filter_stage_Ok. apply cat_filter_nil in Hfs as ->.
  apply cat_filter_nil in Hd. unfold month_filter in Hd.
  destruct (p_month p); [exact (narrow_nil _ _ Hd)|exact Hd].
Qed.

(** Without a list among the categorical preferences the filters never
    raise. *)
Lemma filter_stage_scalar (p : Prefs) (data : list Row) :
  prefs_scalar p = true -> exists fs, filter_stage p data = Ok fs.
Proof.
  unfold prefs_scalar. intros [Hr Ht]%andb_prop. unfold filter_stage.
  destruct (cat_filter_scalar region _ (month_filter (p_month p) data) Hr) as [d Hd].
  unfold region_filter. rewrite Hd. exact (cat_filter_scalar terrain _ d Ht).
Qed.

(** The working set after step 5 is drawn from the filtered set. *)
Lemma cluster_stage_incl (e : Engine) (p : Prefs) (k : Z) (data : list Row) :
  (data = [] -> df e = []) ->
  forall data', cluster_stage e p k data = Ok data' -> incl data' data.
Proof.
  intros Hempty data'. unfold cluster_stage.
  destruct (length data =? 0)%nat eqn:E0.
  - apply Nat.eqb_eq, length_zero_iff_nil in E0. rewrite (Hempty E0).
    destruct (find_best_cluster e p); simpl; [|discriminate]. intros Hd. injection Hd as <-.
    subst. intros x [].
  - destruct (k * 2 <? Z.of_nat (length data))%Z.
    + destruct (find_best_cluster e p); simpl; [|discriminate]. intros Hd. injection Hd as <-.
      apply narrow_incl.
    + intros Hd. injection Hd as <-. apply incl_refl.
Qed.

Lemma filter_stage_nonempty (p : Prefs) (data fs : list Row) :
  data <> [] -> filter_stage p data = Ok fs -> fs <> [].
Proof. intros Hne Hfs ->. apply Hne, (filter_stage_nil p), Hfs. Qed.

Lemma cluster_stage_nonempty (e : Engine) (p : Prefs) (k : Z) (data data' : list Row) :
  data <> [] -> cluster_stage e p k data = Ok data' -> data' <> [].
Proof.
  intros Hne. unfold cluster_stage.
  destruct (length data =? 0)%nat eqn:E0; [apply Nat.eqb_eq, length_zero_iff_nil in E0; contradiction|].
  destruct (k * 2 <? Z.of_nat (length data))%Z.
  - destruct (find_best_cluster e p); simpl; [|discriminate]. intros Hd. injection Hd as <-.
    intros Hn. apply Hne, (narrow_nil _ _ Hn).
  - intros Hd. injection Hd as <-. exact Hne.
Qed.

Lemma Sorted_map_row_to_dict (l : list Row) :
  Sorted hci_ge l -> Sorted (fun a b => rec_score b <= rec_score a)%Q (map row_to_dict l).
Proof.
  induction 1 as [|x l Hs IH Hhd]; simpl; constructor; [exact IH|].
  destruct Hhd; simpl; constructor. exact H.
Qed.

(** The working set of step 5 for the table of [e]. *)
Definition working_set (e : Engine) (p : Prefs) (k : Z) : result (list Row) engine_error :=
  (let? filtered := filter_stage p (df e) in cluster_stage e p k filtered)%engine.

Lemma working_set_incl (e : Engine) (p : Prefs) (k : Z) (data : list Row) :
  working_set e p k = Ok data -> exists fs, filter_stage p (df e) = Ok fs /\ incl data fs.
Proof.
  unfold working_set. destruct (filter_stage p (df e)) as [fs|] eqn:E; cbn [result_bind]; [|discriminate].
  intros Hd. exists fs. split; [reflexivity|]. apply (cluster_stage_incl e p k fs); [|exact Hd].
  intros ->. apply (filter_stage_nil p), E.
Qed.

Lemma filter_stage_month (p : Prefs) (data : list Row) (m : Z) :
  p_month p = Some m -> (exists r, In r data /\ month r = m) ->
  forall fs, filter_stage p data = Ok fs -> forall r, In r fs -> month r = m.
Proof.
  intros Hm (r0 & Hr0 & Hm0) fs (d & Hd & Ht)%filter_stage_Ok r Hr.
  apply (cat_filter_incl _ _ _ _ Ht), (cat_filter_incl _ _ _ _ Hd) in Hr.
  rewrite Hm in Hr. cbn [month_filter] in Hr.
  apply Z.eqb_eq. revert r Hr. apply narrow_respects. exists r0. split; [exact Hr0 | apply Z.eqb_eq, Hm0].
Qed.

Lemma filter_stage_region (p : Prefs) (data : list Row) (g : string) :
  p_region p = Some (CatStr g) -> (exists r, In r (month_filter (p_month p) data) /\ region r = g) ->
  forall fs, filter_stage p data = Ok fs -> forall r, In r fs -> region r = g.
Proof.
  intros Hg (r0 & Hr0 & Hg0) fs (d & Hd & Ht)%filter_stage_Ok r Hr.
  apply (cat_filter_incl _ _ _ _ Ht) in Hr. unfold region_filter in Hd.
  rewrite Hg, cat_filter_str in Hd. injection Hd as <-.
  apply String.eqb_eq. revert r Hr. apply narrow_respects. exists r0.
  split; [exact Hr0 | apply String.eqb_eq, Hg0].
Qed.

(** The same dictionary without a month. *)
Definition drop_month (p : Prefs) : Prefs :=
  mkPrefs (p_avgtemp_c p) (p_maxwind_kph p) (p_totalprecip_mm p) (p_avghumidity p)
          (p_cloud_cover_mean p) None (p_region p) (p_terrain p) (p_preferences p).

(** The abstract contract of the ranking step: [rows] is a best-first
    selection of [k] rows of [data]. *)
Definition topk_spec (k : nat) (data rows : list Row) : Prop :=
  exists rest, Permutation data (rows ++ rest) /\ length rows = Nat.min k (length data) /\
    Sorted hci_ge rows /\ forall x y, In x rows -> In y rest -> (hci y <= hci x)%Q.

Lemma topk_of_sorted (k : nat) (data sorted : list Row) :
  Permutation sorted data -> Sorted hci_ge sorted -> topk_spec k data (firstn k sorted).
Proof.
  intros Hp Hs. exists (skipn k sorted). rewrite firstn_skipn. split; [symmetry; exact Hp|].
  rewrite length_firstn, (Permutation_length Hp). split; [reflexivity|].
  rewrite <- (firstn_skipn k sorted) in Hs. split; [apply (sorted_prefix _ _ _ Hs)|].
  intros x y Hx Hy. apply (sorted_prefix_dominates _ _ x y Hs Hx Hy).
Qed.

Section Theorems.
Context `{HciSort}.

Lemma get_recommendations_Ok (e : Engine) (p : Prefs) (k : Z) (recs : list Recommendation) :
  get_recommendations e p k = Ok recs ->
  exists data, working_set e p k = Ok data /\ recs = map row_to_dict (pd_head k (sort_hci data)).
Proof.
  unfold get_recommendations, working_set.
  destruct (filter_stage p (df e)) as [fs|]; cbn [result_bind]; [|discriminate].
  destruct (cluster_stage e p k fs) as [data|]; cbn [result_bind]; [|discriminate].
  intros [= <-]. eauto.
Qed.

(** Every row returned is in the filtered set, hence in the table. *)
Lemma get_recommendations_rows (e : Engine) (p : Prefs) (k : Z) (recs : list Recommendation) :
  get_recommendations e p k = Ok recs ->
  exists rows fs, recs = map row_to_dict rows /\ filter_stage p (df e) = Ok fs /\ incl rows fs.
Proof.
  intros Hr. destruct (get_recommendations_Ok e p k recs Hr) as (data & Hd & ->).
  destruct (working_set_incl e p k data Hd) as (fs & Hfs & Hincl).
  exists (pd_head k (sort_hci data)), fs. split; [reflexivity|]. split; [exact Hfs|].
  intros x Hx. apply Hincl, sort_hci_In, (pd_head_incl k _ x Hx).
Qed.

(** A property of every row of the filtered set holds of every result. *)
Lemma get_recommendations_Forall (e : Engine) (p : Prefs) (k : Z) (recs : list Recommendation)
      (P : Row -> Prop) (Q' : Recommendation -> Prop) :
  (forall r, P r -> Q' (row_to_dict r)) ->
  (forall fs, filter_stage p (df e) = Ok fs -> forall r, In r fs -> P r) ->
  get_recommendations e p k = Ok recs -> List.Forall Q' recs.
Proof.
  intros HPQ HP Hr. destruct (get_recommendations_rows e p k recs Hr) as (rows & fs & -> & Hfs & Hincl).
  apply List.Forall_forall. intros x Hx. apply in_map_iff in Hx as (r & <- & Hr').
  apply HPQ, (HP fs Hfs), Hincl, Hr'.
Qed.


(** C2: the recommendations are ranked by non-increasing score ([hci]). *)
Theorem get_recommendations_sorted (e : Engine) (p : Prefs) (k : Z) (recs : list Recommendation) :
  get_recommendations e p k = Ok recs ->
  Sorted (fun a b => rec_score b <= rec_score a)%Q recs.
Proof.
  intros Hr. destruct (get_recommendations_Ok e p k recs Hr) as (data & _ & ->).
  apply Sorted_map_row_to_dict. destruct (pd_head_prefix k (sort_hci data)) as [rest Hp].
  apply (sorted_prefix _ _ rest). rewrite <- Hp. apply sort_hci_sorted.
Qed.

(** C3: the month filter is honoured whenever the table has a row of the
    requested month: every recommendation is then of that month. *)
Theorem get_recommendations_month (e : Engine) (p : Prefs) (k : Z) (m : Z)
        (recs : list Recommendation) :
  p_month p = Some m -> (exists r, In r (df e) /\ month r = m) ->
  get_recommendations e p k = Ok recs -> List.Forall (fun x => rec_month x = m) recs.
Proof.
  intros Hm Hex. apply (get_recommendations_Forall e p k recs (fun r => month r = m)); [auto|].
  exact (filter_stage_month p (df e) m Hm Hex).
Qed.

(** C5: the region filter is honoured whenever the month-narrowed set
    has a row of the requested region (not, as the spec states, whenever
    the table has one). *)
Theorem get_recommendations_region (e : Engine) (p : Prefs) (k : Z) (g : string)
        (recs : list Recommendation) :
  p_region p = Some (CatStr g) -> (exists r, In r (month_filter (p_month p) (df e)) /\ region r = g) ->
  get_recommendations e p k = Ok recs -> List.Forall (fun x => rec_region x = g) recs.
Proof.
  intros Hg Hex. apply (get_recommendations_Forall e p k recs (fun r => region r = g)); [auto|].
  exact (filter_stage_region p (df e) g Hg Hex).
Qed.

(** C4: an unsatisfiable month is ignored: if no row of the table has
    the requested month, the result is the one of the same dictionary
    without a month. *)
Theorem get_recommendations_month_skipped (e : Engine) (p : Prefs) (k : Z) (m : Z) :
  p_month p = Some m -> (forall r, In r (df e) -> month r <> m) ->
  get_recommendations e p k = get_recommendations e (drop_month p) k.
Proof.
  intros Hm Hno. unfold get_recommendations.
  replace (filter_stage p (df e)) with (filter_stage (drop_month p) (df e)); [reflexivity|].
  unfold filter_stage, drop_month. cbn [p_month p_region p_terrain]. rewrite Hm. cbn [month_filter].
  rewrite narrow_nomatch; [reflexivity|]. intros r Hr. apply Z.eqb_neq, Hno, Hr.
Qed.

(** C6: on a non-empty table and a positive [top_k], a successful call
    returns at least one recommendation: the filters never empty the
    working set, so the cluster fallback of step 5 is never taken. *)
Theorem get_recommendations_nonempty (e : Engine) (p : Prefs) (k : Z) (recs : list Recommendation) :
  df e <> [] -> (0 < k)%Z -> get_recommendations e p k = Ok recs -> recs <> [].
Proof.
  intros Hne Hk Hr. destruct (get_recommendations_Ok e p k recs Hr) as (data & Hd & ->).
  unfold working_set in Hd.
  destruct (filter_stage p (df e)) as [fs|] eqn:Hfs; cbn [result_bind] in Hd; [|discriminate].
  pose proof (cluster_stage_nonempty e p k fs data (filter_stage_nonempty p _ _ Hne Hfs) Hd) as Hdne.
  rewrite pd_head_nonneg by lia.
  destruct (sort_hci data) as [|x xs] eqn:Es; [apply (proj1 (sort_hci_nil data)) in Es; contradiction|].
  destruct (Z.to_nat k) as [|n] eqn:En; [lia|]. simpl. discriminate.
Qed.

(** Step 5 raises exactly when it calls [find_best_cluster] and that
    call raises. *)
Lemma cluster_stage_error {A : Type} (e : Engine) (p : Prefs) (k : Z) (fs : list Row)
    (f : list Row -> A) (err : engine_error) :
  (let? data := cluster_stage e p k fs in Ok (f data))%engine = Err err <->
  (fs = [] \/ (k * 2 < Z.of_nat (length fs))%Z) /\ find_best_cluster e p = Err err.
Proof.
  unfold cluster_stage.
  destruct (length (fs) =? 0)%nat eqn:E0.
  - apply Nat.eqb_eq, length_zero_iff_nil in E0.
    destruct (find_best_cluster e p) as [b|err']; simpl.
    + split; [discriminate | intros [_ Hc]; discriminate].
    + split; [intros Hx; injection Hx as <-; auto | intros [_ Hx]; injection Hx as <-; reflexivity].
  - assert (fs <> []) as Hne
      by (intros Hn; rewrite Hn in E0; discriminate).
    destruct (k * 2 <? Z.of_nat (length (fs)))%Z eqn:Ek; bool_to_prop.
    + destruct (find_best_cluster e p) as [b|err']; simpl.
      * split; [discriminate | intros [_ Hc]; discriminate].
      * split; [intros Hx; injection Hx as <-; auto | intros [_ Hx]; injection Hx as <-; reflexivity].
    + simpl. split; [discriminate|]. intros [[Hn|Hlt] _]; [contradiction | lia].
Qed.

(** The exceptions of [get_recommendations]. *)
Lemma get_recommendations_Err (e : Engine) (p : Prefs) (k : Z) (err : engine_error) :
  get_recommendations e p k = Err err <->
  filter_stage p (df e) = Err err \/
  exists fs, filter_stage p (df e) = Ok fs /\
    (fs = [] \/ (k * 2 < Z.of_nat (length fs))%Z) /\ find_best_cluster e p = Err err.
Proof.
  unfold get_recommendations. destruct (filter_stage p (df e)) as [fs|err'] eqn:Hfs; cbn [result_bind].
  - rewrite cluster_stage_error. split; [intros Hc; right; eauto|].
    intros [Hc|(fs' & [= <-] & Hc)]; [discriminate|exact Hc].
  - split; [intros [= <-]; left; reflexivity|].
    intros [[= <-]|(fs' & Hc & _)]; [reflexivity|discriminate].
Qed.

(** C7: [get_recommendations] raises exactly when the comparison of a
    list-valued region or terrain raises, or when it calls
    [find_best_cluster] (the filtered set is empty or has more than
    [top_k * 2] rows) and that call raises, with the same exception. *)
Theorem get_recommendations_error (e : Engine) (p : Prefs) (k : Z) (err : engine_error) :
  get_recommendations e p k = Err err <->
  filter_stage p (df e) = Err err \/
  exists fs, filter_stage p (df e) = Ok fs /\
    (fs = [] \/ (k * 2 < Z.of_nat (length fs))%Z) /\ find_best_cluster e p = Err err.
Proof. apply get_recommendations_Err. Qed.

(** C21: a region given as a list, which [_validate_preferences] lets
    through, makes [get_recommendations] raise pandas' [ValueError]
    whenever the list's length is not the number of rows left by the
    month filter; the exception's text gives both lengths. *)
Theorem get_recommendations_list_region (e : Engine) (p : Prefs) (k : Z) (l : list (option string)) :
  p_region p = Some (CatList l) -> length l <> length (month_filter (p_month p) (df e)) ->
  get_recommendations e p k =
  Err (ValueError (lengths_error (length (month_filter (p_month p) (df e))) (length l))).
Proof.
  intros Hl Hn. apply get_recommendations_Err. left. exact (filter_stage_list_region p (df e) l Hl Hn).
Qed.

(** C1 (refinement): the result is a top-[top_k] selection of the
    working set: the rows returned and the rows left out together are a
    permutation of the working set, there are [min top_k |set|] of them,
    they are ranked by [hci], and none of the rows left out is better
    than a row returned. *)
Theorem get_recommendations_topk (e : Engine) (p : Prefs) (k : Z) (recs : list Recommendation) :
  (0 <= k)%Z -> get_recommendations e p k = Ok recs ->
  exists data rows, working_set e p k = Ok data /\ recs = map row_to_dict rows /\
    topk_spec (Z.to_nat k) data rows.
Proof.
  intros Hk Hr. destruct (get_recommendations_Ok e p k recs Hr) as (data & Hd & ->).
  rewrite pd_head_nonneg by exact Hk.
  exists data, (firstn (Z.to_nat k) (sort_hci data)). split; [exact Hd|]. split; [reflexivity|].
  apply topk_of_sorted; [apply sort_hci_perm | apply sort_hci_sorted].
Qed.

End Theorems.

(** ** Witnesses and examples on the fixture table *)

Definition fixture_prefs : Prefs := Fixture.prefs 28 18 22 78 65.

Definition with_filters (m : option Z) (g t : option string) : Prefs :=
  mkPrefs (Some 28) (Some 18) (Some 22) (Some 78) (Some 65) m (option_map CatStr g) (option_map CatStr t) None.


Lemma get_recommendations_sorted_witness :
  Sorted (fun a b => rec_score b <= rec_score a)%Q
         (map row_to_dict [Fixture.nhatrang; Fixture.halong]).
Proof.
  apply (get_recommendations_sorted Fixture.engine fixture_prefs 2). vm_compute. reflexivity.
Defined.

Lemma get_recommendations_month_witness :
  List.Forall (fun x => rec_month x = 6%Z)
    (map row_to_dict [Fixture.nhatrang; Fixture.halong; Fixture.vungtau]).
Proof.
  apply (get_recommendations_month Fixture.engine (with_filters (Some 6%Z) None None) 5 6).
  - reflexivity.
  - exists Fixture.nhatrang. split; [simpl; auto | reflexivity].
  - vm_compute. reflexivity.
Defined.

Lemma get_recommendations_region_witness :
  List.Forall (fun x => rec_region x = "North") (map row_to_dict [Fixture.halong]).
Proof.
  apply (get_recommendations_region Fixture.engine (with_filters (Some 6%Z) (Some "North") None) 5).
  - reflexivity.
  - exists Fixture.halong. split; [vm_compute; auto | reflexivity].
  - vm_compute. reflexivity.
Defined.

(** The spec's scenario: a month that no row has (May) is ignored. *)
Lemma get_recommendations_month_skipped_witness :
  get_recommendations Fixture.engine (with_filters (Some 5%Z) None None) 5 =
  get_recommendations Fixture.engine (drop_month (with_filters (Some 5%Z) None None)) 5.
Proof.
  apply (get_recommendations_month_skipped _ _ _ 5); [reflexivity|].
  intros r Hr. simpl in Hr. repeat destruct Hr as [<-|Hr]; [discriminate..|contradiction].
Defined.

Lemma get_recommendations_nonempty_witness :
  map row_to_dict [Fixture.dalat; Fixture.sapa] <> [].
Proof.
  apply (get_recommendations_nonempty Fixture.engine (with_filters (Some 1%Z) None None) 5).
  - discriminate.
  - lia.
  - vm_compute. reflexivity.
Defined.

(** An engine whose table has no centroid row. *)
Definition no_centroid_engine : Engine :=
  {| df := Fixture.table; scaler := fit Fixture.table; centroids := [] |}.

Lemma get_recommendations_error_witness :
  get_recommendations no_centroid_engine fixture_prefs 1 = Err empty_centroids_error.
Proof.
  apply (proj2 (get_recommendations_error _ _ _ _)). right. eexists. split; [vm_compute; reflexivity|].
  split; [right; vm_compute; reflexivity|vm_compute; reflexivity].
Defined.

(** The model's region as a list of one region, on the five-row table. *)
Lemma get_recommendations_list_region_witness :
  get_recommendations Fixture.engine
    (mkPrefs (Some 28) (Some 18) (Some 22) (Some 78) (Some 65) None (Some (CatList [Some "North"%string])) None None) 5 =
  Err (ValueError "('Lengths must match to compare', (5,), (1,))").
Proof.
  rewrite (get_recommendations_list_region Fixture.engine _ 5 [Some "North"%string]);
    [vm_compute; reflexivity|reflexivity|vm_compute; discriminate].
Defined.

Lemma get_recommendations_topk_witness :
  exists data rows, working_set Fixture.engine fixture_prefs 2 = Ok data /\
    map row_to_dict [Fixture.nhatrang; Fixture.halong] = map row_to_dict rows /\
    topk_spec (Z.to_nat 2) data rows.
Proof.
  apply (get_recommendations_topk Fixture.engine fixture_prefs 2); [lia|].
  vm_compute. reflexivity.
Defined.

(** A negative [top_k] does not give an empty result, contrary to
    the spec: [len(filtered_data) > top_k * 2] always holds, so the set
    is narrowed to the nearest cluster, and [head(-1)] keeps all its rows
    but the last. *)
Example negative_top_k_example :
  get_recommendations Fixture.engine fixture_prefs (-1) =
  Ok (map row_to_dict [Fixture.nhatrang; Fixture.halong]).
Proof. vm_compute. reflexivity. Qed.


End Pipeline.
