(* ===== verification/Text.v ===== *)
(** Python text as the chatbot's regular-expression code sees it: a
    [str] is a sequence of Unicode code points.  Rocq string literals are
    UTF-8 byte strings, so the patterns and messages of [src/chatbot.py]
    are written verbatim and decoded by [u].  The file also holds the
    [str] methods and the character classes the code relies on:
    [str.lower], [str.strip], [len(str.split())], and the classes [\s],
    [\d] and [\w] of Python's [re] module. *)

From S2P Require Import Prelude.
From Stdlib Require Import NArith Ascii String List Lia Zify PreOmega.
Import ListNotations.

Module Text.

Local Open Scope N_scope.
Local Open Scope bool_scope.

(** A Python [str]. *)
Definition ustring := list N.

(** ** UTF-8 *)

Fixpoint bytes_of (s : string) : list N :=
  match s with
  | EmptyString => []
  | String a s' => N_of_ascii a :: bytes_of s'
  end.

Definition is_cont (b : N) : bool := ((0x80 <=? b) && (b <? 0xC0)).

(** The decoder reads a lead byte and the continuation bytes it
    announces; a stray continuation byte or a truncated sequence is an
    error. *)
Fixpoint utf8_decode (bs : list N) : option ustring :=
  match bs with
  | [] => Some []
  | b0 :: r0 =>
      if (b0 <? 0x80) then option_map (cons b0) (utf8_decode r0)
      else if (b0 <? 0xC0) then None
      else if (b0 <? 0xE0) then
        match r0 with
        | b1 :: r1 =>
            if is_cont b1
            then option_map (cons ((b0 - 0xC0) * 64 + (b1 - 0x80))) (utf8_decode r1)
            else None
        | _ => None
        end
      else if (b0 <? 0xF0) then
        match r0 with
        | b1 :: b2 :: r2 =>
            if is_cont b1 && is_cont b2
            then option_map (cons ((b0 - 0xE0) * 4096 + (b1 - 0x80) * 64 + (b2 - 0x80)))
                            (utf8_decode r2)
            else None
        | _ => None
        end
      else if (b0 <? 0xF8) then
        match r0 with
        | b1 :: b2 :: b3 :: r3 =>
            if is_cont b1 && is_cont b2 && is_cont b3
            then option_map (cons ((b0 - 0xF0) * 262144 + (b1 - 0x80) * 4096
                                   + (b2 - 0x80) * 64 + (b3 - 0x80)))
                            (utf8_decode r3)
            else None
        | _ => None
        end
      else None
  end.

Definition utf8_encode (c : N) : list N :=
  if (c <? 0x80) then [c]
  else if (c <? 0x800) then [0xC0 + c / 64; 0x80 + c mod 64]
  else if (c <? 0x10000) then [0xE0 + c / 4096; 0x80 + (c / 64) mod 64; 0x80 + c mod 64]
  else [0xF0 + c / 262144; 0x80 + (c / 4096) mod 64; 0x80 + (c / 64) mod 64; 0x80 + c mod 64].

(** A literal of the source, as the code point sequence Python reads. *)
Definition u (s : string) : ustring :=
  match utf8_decode (bytes_of s) with Some l => l | None => [] end.

(** A Python [str] written back as a UTF-8 Rocq string. *)
Definition string_of_ustring (s : ustring) : string :=
  string_of_list_ascii (map ascii_of_N (flat_map utf8_encode s)).

(** ** Character classes *)

Definition between (lo hi c : N) : bool := ((lo <=? c) && (c <=? hi)).

(** [str.isspace], which is also what [\s] and [str.split()] use. *)
Definition is_space (c : N) : bool :=
  between 0x09 0x0D c || between 0x1C 0x20 c || (c =? 0x85) || (c =? 0xA0)
  || (c =? 0x1680) || between 0x2000 0x200A c || between 0x2028 0x2029 c
  || (c =? 0x202F) || (c =? 0x205F) || (c =? 0x3000).

(** [\d] on the ASCII digits. *)
Definition is_digit (c : N) : bool := between 0x30 0x39 c.

(** [\w]: letters and digits of the Latin script (Basic Latin, Latin-1,
    Latin Extended-A and -B, IPA, spacing modifiers, Latin Extended
    Additional) and the underscore. *)
Definition is_word (c : N) : bool :=
  is_digit c || between 0x41 0x5A c || between 0x61 0x7A c || (c =? 0x5F)
  || (c =? 0xAA) || between 0xB2 0xB3 c || (c =? 0xB5) || (c =? 0xB9)
  || (c =? 0xBA) || between 0xBC 0xBE c || between 0xC0 0xD6 c
  || between 0xD8 0xF6 c || between 0xF8 0x2C1 c || between 0x1E00 0x1EFF c.

(** [str.lower] on the Latin script: the upper-case letters of Basic
    Latin and Latin-1 map 32 places up; the case pairs of Latin
    Extended-A and of Latin Extended Additional (which holds the
    Vietnamese letters with two diacritics) map to their odd partner;
    Ơ and Ư of Latin Extended-B to ơ and ư. *)
Definition lower_cp (c : N) : N :=
  if between 0x41 0x5A c || (between 0xC0 0xDE c && negb (c =? 0xD7)) then c + 32
  else if (between 0x100 0x12F c || between 0x132 0x137 c || between 0x14A 0x177 c
           || between 0x1E00 0x1E95 c || between 0x1EA0 0x1EFF c) && N.even c then c + 1
  else if (between 0x139 0x148 c || between 0x179 0x17E c) && N.odd c then c + 1
  else if (c =? 0x178) then 0xFF
  else if (c =? 0x1A0) then 0x1A1
  else if (c =? 0x1AF) then 0x1B0
  else c.

Definition lower (s : ustring) : ustring := map lower_cp s.

Fixpoint drop_while (f : N -> bool) (s : ustring) : ustring :=
  match s with
  | c :: s' => if f c then drop_while f s' else s
  | [] => []
  end.

Fixpoint take_while (f : N -> bool) (s : ustring) : ustring :=
  match s with
  | c :: s' => if f c then c :: take_while f s' else []
  | [] => []
  end.

(** [str.strip()]. *)
Definition strip (s : ustring) : ustring :=
  rev (drop_while is_space (rev (drop_while is_space s))).

(** [len(str.split())]: the number of maximal runs of non-space
    characters. *)
Fixpoint count_words (in_word : bool) (s : ustring) : nat :=
  match s with
  | [] => 0
  | c :: s' =>
      if is_space c then count_words false s'
      else if in_word then count_words true s' else S (count_words true s')
  end.

Definition word_count (s : ustring) : nat := count_words false s.

(** ** UTF-8 round trip *)

(** [lia] with the quotients and remainders by constants turned into
    their defining equations. *)
Ltac dlia := zify; Z.to_euclidean_division_equations; lia.

(** Decide the comparisons of a goal whose operands [dlia] can bound. *)
Ltac decide_cmp :=
  repeat match goal with
    | |- context [(?x <? ?y)] =>
        first [ rewrite (proj2 (N.ltb_lt x y)) by dlia | rewrite (proj2 (N.ltb_ge x y)) by dlia ]
    | |- context [(?x <=? ?y)] =>
        first [ rewrite (proj2 (N.leb_le x y)) by dlia | rewrite (proj2 (N.leb_gt x y)) by dlia ]
    end.

Lemma utf8_decode_encode_app (c : N) (rest : list N) :
  c < 0x110000 -> utf8_decode (utf8_encode c ++ rest) = option_map (cons c) (utf8_decode rest).
Proof.
  intros Hc. unfold utf8_encode.
  destruct (N.ltb_spec c 0x80); [cbn; decide_cmp; reflexivity|].
  destruct (N.ltb_spec c 0x800);
    [|destruct (N.ltb_spec c 0x10000)]; cbn [app utf8_decode]; unfold is_cont; decide_cmp;
    cbn; do 2 f_equal; dlia.
Qed.

(** Decoding the encoding of well-formed code points gives them back. *)
Lemma utf8_roundtrip (cs : ustring) :
  Forall (fun c => c < 0x110000) cs -> utf8_decode (flat_map utf8_encode cs) = Some cs.
Proof.
  induction 1 as [|c cs Hc _ IH]; [reflexivity|].
  cbn [flat_map]. rewrite utf8_decode_encode_app, IH by exact Hc. reflexivity.
Qed.

End Text.
