(* ===== verification/Regex.v ===== *)
(** Python's [re] module on the patterns of [src/chatbot.py]: literal
    characters, the classes [\s], [\d] and [.], the quantifiers [*], [+]
    and [?], capturing groups, [(?:...)], the negative look-ahead
    [(?!...)], alternation and the word boundary [\b], the flag [re.DOTALL] and
    [re.sub].  The parser reads
    the pattern text of the source; the matcher is a backtracking matcher
    in continuation-passing style that tries the alternatives in the
    order of Python's engine (greedy quantifiers, left alternative
    first), so the first match it returns is the one [re.search]
    returns, captures included.  A declarative semantics states which
    spans a pattern matches, and the matcher is proved to agree with it. *)

From S2P Require Import Prelude Text.
From Stdlib Require Import NArith Ascii String List Lia Bool Setoid.
Import ListNotations Text.

Module Regex.

(** ** Syntax *)

Inductive cclass := CLit (c : N) | CSpace | CDigit | CDot | CAny.

Inductive regex :=
| REps
| RAtom (k : cclass)
| RStar (k : cclass)
| RPlus (k : cclass)
| ROpt (r : regex)
| RSeq (r1 r2 : regex)
| RAlt (r1 r2 : regex)
| RGroup (n : nat) (r : regex)
| RWordB
| RNotAhead (r : regex).

(** [.] without [re.DOTALL] matches everything but a newline; with the
    flag it is [CAny]. *)
Definition cls_match (k : cclass) (c : N) : bool :=
  match k with
  | CLit d => N.eqb c d
  | CSpace => is_space c
  | CDigit => is_digit c
  | CDot => negb (N.eqb c 10)
  | CAny => true
  end.

(** ** Parser *)

(** The characters the pattern syntax gives a meaning. *)
Definition special (c : N) : bool :=
  existsb (N.eqb c) [40; 41; 124; 42; 43; 63; 92; 46]%N.

(** [\s], [\d], [\b], the control escapes [\n], [\t], [\r], [\f],
    [\v], and an escaped character for itself. *)
Definition escape (c : N) : regex :=
  if N.eqb c 115 then RAtom CSpace
  else if N.eqb c 100 then RAtom CDigit
  else if N.eqb c 98 then RWordB
  else if N.eqb c 110 then RAtom (CLit 10)
  else if N.eqb c 116 then RAtom (CLit 9)
  else if N.eqb c 114 then RAtom (CLit 13)
  else if N.eqb c 102 then RAtom (CLit 12)
  else if N.eqb c 118 then RAtom (CLit 11)
  else RAtom (CLit c).

Definition seq (r1 r2 : regex) : regex :=
  match r2 with REps => r1 | _ => RSeq r1 r2 end.

Definition quantify (r : regex) (s : ustring) : option (regex * ustring) :=
  match s, r with
  | 42%N :: s', RAtom k => Some (RStar k, s')
  | 43%N :: s', RAtom k => Some (RPlus k, s')
  | 42%N :: _, _ => None
  | 43%N :: _, _ => None
  | 63%N :: s', _ => Some (ROpt r, s')
  | _, _ => Some (r, s)
  end.

Definition close (res : option (regex * nat * ustring)) (f : regex -> regex)
  : option (regex * nat * ustring) :=
  match res with
  | Some (r, g, 41%N :: s') => Some (f r, g, s')
  | _ => None
  end.

(** Recursive descent: an alternation of sequences of quantified atoms.
    [g] is the number the next capturing group gets: Python numbers the
    groups by their opening parenthesis, from 1. *)
Fixpoint parse_alt (fuel : nat) (g : nat) (s : ustring) : option (regex * nat * ustring) :=
  match fuel with
  | O => None
  | S f =>
      match parse_seq f g s with
      | Some (r1, g1, 124%N :: s1) =>
          match parse_alt f g1 s1 with
          | Some (r2, g2, s2) => Some (RAlt r1 r2, g2, s2)
          | None => None
          end
      | res => res
      end
  end
with parse_seq (fuel : nat) (g : nat) (s : ustring) : option (regex * nat * ustring) :=
  match fuel with
  | O => None
  | S f =>
      match s with
      | [] => Some (REps, g, s)
      | 41%N :: _ => Some (REps, g, s)
      | 124%N :: _ => Some (REps, g, s)
      | _ =>
          match parse_item f g s with
          | Some (r1, g1, s1) =>
              match parse_seq f g1 s1 with
              | Some (r2, g2, s2) => Some (seq r1 r2, g2, s2)
              | None => None
              end
          | None => None
          end
      end
  end
with parse_item (fuel : nat) (g : nat) (s : ustring) : option (regex * nat * ustring) :=
  match fuel with
  | O => None
  | S f =>
      let atom :=
        match s with
        | 40%N :: 63%N :: 58%N :: s' => close (parse_alt f g s') (fun r => r)
        | 40%N :: 63%N :: 33%N :: s' => close (parse_alt f g s') RNotAhead
        | 40%N :: s' => close (parse_alt f (S g) s') (RGroup g)
        | 92%N :: c :: s' => Some (escape c, g, s')
        | 46%N :: s' => Some (RAtom CDot, g, s')
        | c :: s' => if special c then None else Some (RAtom (CLit c), g, s')
        | [] => None
        end in
      match atom with
      | Some (r, g1, s1) =>
          match quantify r s1 with
          | Some (r', s2) => Some (r', g1, s2)
          | None => None
          end
      | None => None
      end
  end.

(** [re.compile]: the whole pattern must be read. *)
Definition parse (s : ustring) : option regex :=
  match parse_alt (4 * length s + 4) 1 s with
  | Some (r, _, []) => Some r
  | _ => None
  end.

(** A pattern that never matches, for text that does not parse. *)
Definition never : regex := RNotAhead REps.

(** A raw string literal of the source, compiled. *)
Definition rx (s : string) : regex :=
  match parse (u s) with Some r => r | None => never end.

Definition dotall_class (k : cclass) : cclass := match k with CDot => CAny | _ => k end.

(** The flag [re.DOTALL]. *)
Fixpoint dotall (r : regex) : regex :=
  match r with
  | RAtom k => RAtom (dotall_class k)
  | RStar k => RStar (dotall_class k)
  | RPlus k => RPlus (dotall_class k)
  | ROpt r1 => ROpt (dotall r1)
  | RSeq r1 r2 => RSeq (dotall r1) (dotall r2)
  | RAlt r1 r2 => RAlt (dotall r1) (dotall r2)
  | RGroup n r1 => RGroup n (dotall r1)
  | RNotAhead r1 => RNotAhead (dotall r1)
  | _ => r
  end.

Definition parses (s : string) : bool :=
  match parse (u s) with Some _ => true | None => false end.

(** ** Matcher *)

(** A position in the text: the characters read, nearest first, and the
    characters left. *)
Definition pos : Type := list N * list N.

(** The captures made so far, the latest first. *)
Definition caps : Type := list (nat * ustring).

Definition answer : Type := pos * caps.

Definition step (k : cclass) (p : pos) : option pos :=
  match snd p with
  | c :: a => if cls_match k c then Some (c :: fst p, a) else None
  | [] => None
  end.

Definition at_boundary (p : pos) : bool :=
  let w1 := match fst p with c :: _ => is_word c | [] => false end in
  let w2 := match snd p with c :: _ => is_word c | [] => false end in
  xorb w1 w2.

(** The text between two positions. *)
Definition captured (p p' : pos) : ustring :=
  firstn (length (snd p) - length (snd p')) (snd p).

(** Greedy repetition of a class: the longest run first, then each
    shorter one. *)
Fixpoint star (k : cclass) (b a : list N) (cs : caps) (kt : pos -> caps -> option answer)
  : option answer :=
  match a with
  | c :: a' =>
      if cls_match k c then
        match star k (c :: b) a' cs kt with
        | Some x => Some x
        | None => kt (b, a) cs
        end
      else kt (b, a) cs
  | [] => kt (b, a) cs
  end.

Fixpoint m (r : regex) (kt : pos -> caps -> option answer) (p : pos) (cs : caps)
  : option answer :=
  match r with
  | REps => kt p cs
  | RAtom k => match step k p with Some p' => kt p' cs | None => None end
  | RStar k => star k (fst p) (snd p) cs kt
  | RPlus k => match step k p with Some p' => star k (fst p') (snd p') cs kt | None => None end
  | ROpt r1 => match m r1 kt p cs with Some x => Some x | None => kt p cs end
  | RSeq r1 r2 => m r1 (fun p' cs' => m r2 kt p' cs') p cs
  | RAlt r1 r2 => match m r1 kt p cs with Some x => Some x | None => m r2 kt p cs end
  | RGroup n r1 => m r1 (fun p' cs' => kt p' ((n, captured p p') :: cs')) p cs
  | RWordB => if at_boundary p then kt p cs else None
  | RNotAhead r1 =>
      match m r1 (fun p' cs' => Some (p', cs')) p cs with
      | Some _ => None
      | None => kt p cs
      end
  end.

Definition finish (p : pos) (cs : caps) : option answer := Some (p, cs).

(** The result of a match: where it starts, where it ends, its groups. *)
Record match_result := mkMatch { mr_start : pos; mr_end : pos; mr_caps : caps }.

(** [re.search]: the first start position, from the left, at which the
    pattern matches; the end of the text is a start position too. *)
Fixpoint search_from (r : regex) (b a : list N) : option match_result :=
  match m r finish (b, a) [] with
  | Some (p', cs) => Some (mkMatch (b, a) p' cs)
  | None => match a with c :: a' => search_from r (c :: b) a' | [] => None end
  end.

Definition search (r : regex) (s : ustring) : option match_result := search_from r [] s.

(** [bool(re.search(p, s))]. *)
Definition re_search (r : regex) (s : ustring) : bool :=
  match search r s with Some _ => true | None => false end.

(** [match.group(n)]: the latest capture of group [n]. *)
Definition group (n : nat) (x : match_result) : option ustring :=
  match n with
  | O => Some (captured (mr_start x) (mr_end x))
  | _ => option_map snd (find (fun nc => Nat.eqb (fst nc) n) (mr_caps x))
  end.

(** [re.sub(pattern, repl, text)] with a replacement free of
    backslashes: at each position the first match, by the engine's
    priority, is replaced; [skip] counts the characters of a non-empty
    match still to pass over; after an empty match the next character
    is copied, and a match is tried at the end of the text too. *)
Fixpoint sub_go (r : regex) (repl : ustring) (skip : nat) (b a : list N) : ustring :=
  match skip with
  | S k => match a with c :: a' => sub_go r repl k (c :: b) a' | [] => [] end
  | O =>
      let tail := match a with c :: a' => fun k => c :: sub_go r repl k (c :: b) a' | [] => fun _ => [] end in
      match m r finish (b, a) [] with
      | Some ((_, a'), _) =>
          match length a - length a' with
          | O => repl ++ tail O
          | S n =>
              repl ++ match a with c :: a2 => sub_go r repl n (c :: b) a2 | [] => [] end
          end
      | None => tail O
      end
  end.

Definition re_sub (r : regex) (repl s : ustring) : ustring := sub_go r repl 0 [] s.

(** ** Declarative semantics *)

Inductive star_rel (k : cclass) : pos -> pos -> Prop :=
| star_done p : star_rel k p p
| star_more b c a p' :
    cls_match k c = true -> star_rel k (c :: b, a) p' -> star_rel k (b, c :: a) p'.

(** [den r p p']: the pattern [r] matches the text from [p] to [p']. *)
Fixpoint den (r : regex) (p p' : pos) : Prop :=
  match r with
  | REps => p' = p
  | RAtom k => step k p = Some p'
  | RStar k => star_rel k p p'
  | RPlus k => exists q, step k p = Some q /\ star_rel k q p'
  | ROpt r1 => den r1 p p' \/ p' = p
  | RSeq r1 r2 => exists q, den r1 p q /\ den r2 q p'
  | RAlt r1 r2 => den r1 p p' \/ den r2 p p'
  | RGroup _ r1 => den r1 p p'
  | RWordB => at_boundary p = true /\ p' = p
  | RNotAhead r1 => (forall q, ~ den r1 p q) /\ p' = p
  end.

(** ** The matcher agrees with the semantics *)

Lemma star_sound (k : cclass) (b a : list N) (cs : caps) kt (x : answer) :
  star k b a cs kt = Some x -> exists p', star_rel k (b, a) p' /\ kt p' cs = Some x.
Proof.
  revert b. induction a as [|c a IH]; intros b; cbn.
  - intros H. exists ([] ++ b, []). split; [constructor | exact H].
  - destruct (cls_match k c) eqn:Ec; [|intros H; eexists; split; [constructor | exact H]].
    destruct (star k (c :: b) a cs kt) as [y|] eqn:Es.
    + intros [= <-]. destruct (IH _ Es) as (p' & Hr & Hk).
      exists p'. split; [apply star_more; assumption | exact Hk].
    + intros H. eexists. split; [constructor | exact H].
Qed.

Lemma star_complete (k : cclass) (p p' : pos) (cs : caps) kt :
  star_rel k p p' -> kt p' cs <> None -> star k (fst p) (snd p) cs kt <> None.
Proof.
  induction 1 as [[b a]|b c a p' Hc _ IH]; cbn; intros Hk.
  - destruct a as [|c a]; cbn; [exact Hk|].
    destruct (cls_match k c); [|exact Hk].
    destruct (star k (c :: b) a cs kt); [discriminate | exact Hk].
  - rewrite Hc. specialize (IH Hk). cbn in IH.
    destruct (star k (c :: b) a cs kt); [discriminate | contradiction].
Qed.

(** Close a goal of nested existentials and conjunctions from the
    hypotheses. *)
Local Ltac ex_solve := repeat first [eassumption | reflexivity | eexists | split].

Definition m_sound (r : regex) : Prop :=
  forall kt p cs x, m r kt p cs = Some x -> exists p' cs', den r p p' /\ kt p' cs' = Some x.

Definition m_complete (r : regex) : Prop :=
  forall kt p p' cs, den r p p' -> (forall cs', kt p' cs' <> None) -> m r kt p cs <> None.

(** The two directions are proved together: the look-ahead needs the
    completeness of its body for soundness and conversely. *)
Lemma m_correct (r : regex) : m_sound r /\ m_complete r.
Proof.
  unfold m_sound, m_complete.
  induction r as [| k | k | k | r1 [S1 C1] | r1 [S1 C1] r2 [S2 C2] | r1 [S1 C1] r2 [S2 C2]
                  | n r1 [S1 C1] | | r1 [S1 C1]]; split; cbn.
  - ex_solve.
  - intros kt p p' cs -> Hk. apply Hk.
  - intros kt p cs x. destruct (step k p) as [q|] eqn:E; [ex_solve | discriminate].
  - intros kt p p' cs -> Hk. apply Hk.
  - intros kt [b a] cs x H. destruct (star_sound k b a cs kt x H) as (p' & ? & ?). ex_solve.
  - intros kt p p' cs Hr Hk. apply (star_complete k p p'); auto.
  - intros kt p cs x. destruct (step k p) as [[b a]|] eqn:E; [|discriminate].
    intros H. destruct (star_sound k b a cs kt x H) as (p' & Hr & Hk).
    exists p', cs. split; [exists (b, a); split; [reflexivity | exact Hr] | exact Hk].
  - intros kt p p' cs (q & Hq & Hr) Hk. rewrite Hq. apply (star_complete k q p'); auto.
  - intros kt p cs x. destruct (m r1 kt p cs) as [y|] eqn:E.
    + intros [= <-]. destruct (S1 _ _ _ _ E) as (p' & cs' & ? & ?).
      exists p', cs'. split; [left|]; assumption.
    + intros H. exists p, cs. split; [right|]; auto.
  - intros kt p p' cs [Hr | ->] Hk.
    + pose proof (C1 kt p p' cs Hr Hk). destruct (m r1 kt p cs); [discriminate | contradiction].
    + destruct (m r1 kt p cs); [discriminate | apply Hk].
  - intros kt p cs x H. destruct (S1 _ _ _ _ H) as (q & cs1 & Hq & H2).
    destruct (S2 _ _ _ _ H2) as (p' & cs' & ? & ?). ex_solve.
  - intros kt p p' cs (q & Hq & Hr) Hk. apply (C1 _ p q); [exact Hq|].
    intros cs'. apply (C2 _ q p'); assumption.
  - intros kt p cs x. destruct (m r1 kt p cs) as [y|] eqn:E.
    + intros [= <-]. destruct (S1 _ _ _ _ E) as (p' & cs' & ? & ?).
      exists p', cs'. split; [left|]; assumption.
    + intros H. destruct (S2 _ _ _ _ H) as (p' & cs' & ? & ?).
      exists p', cs'. split; [right|]; assumption.
  - intros kt p p' cs [Hr | Hr] Hk.
    + pose proof (C1 kt p p' cs Hr Hk). destruct (m r1 kt p cs); [discriminate | contradiction].
    + destruct (m r1 kt p cs); [discriminate | exact (C2 kt p p' cs Hr Hk)].
  - intros kt p cs x H. destruct (S1 _ _ _ _ H) as (p' & cs' & ? & ?). ex_solve.
  - intros kt p p' cs Hr Hk. apply (C1 _ p p'); [exact Hr|]. intros cs'. apply Hk.
  - intros kt p cs x. destruct (at_boundary p) eqn:E; [ex_solve | discriminate].
  - intros kt p p' cs [Hb ->] Hk. rewrite Hb. apply Hk.
  - intros kt p cs x. destruct (m r1 _ p cs) as [y|] eqn:E; [discriminate|].
    intros H. exists p, cs. split; [|exact H]. split; [|reflexivity].
    intros q Hq. exact (C1 (fun p' cs' => Some (p', cs')) p q cs Hq ltac:(discriminate) E).
  - intros kt p p' cs [Hn ->] Hk. destruct (m r1 _ p cs) as [y|] eqn:E; [|apply Hk].
    destruct (S1 _ _ _ _ E) as (q & _ & Hq & _). exfalso. exact (Hn q Hq).
Qed.

Lemma m_finish_spec (r : regex) (p : pos) (cs : caps) :
  m r finish p cs <> None <-> exists p', den r p p'.
Proof.
  destruct (m_correct r) as [S C]. split.
  - destruct (m r finish p cs) as [x|] eqn:E; [|contradiction].
    intros _. destruct (S _ _ _ _ E) as (p' & _ & ? & _). eauto.
  - intros [p' Hr]. apply (C _ p p'); [exact Hr | discriminate].
Qed.

Lemma search_from_sound (r : regex) (b a : list N) (x : match_result) :
  search_from r b a = Some x -> den r (mr_start x) (mr_end x).
Proof.
  revert b. induction a as [|c a IH]; intros b; cbn;
    destruct (m r finish (b, _) []) as [[p' cs]|] eqn:E.
  1, 3: intros [= <-]; destruct (proj1 (m_correct r) _ _ _ _ E) as (q & cs' & Hq & [= -> _]);
        exact Hq.
  - discriminate.
  - apply IH.
Qed.

Lemma search_from_spec (r : regex) (b a : list N) :
  search_from r b a <> None <->
  exists pre post p', a = pre ++ post /\ den r (rev pre ++ b, post) p'.
Proof.
  revert b. induction a as [|c a IH]; intros b; cbn.
  - destruct (m r finish (b, []) []) as [[px csx]|] eqn:E.
    + split; [|discriminate]. intros _.
      destruct (proj1 (m_finish_spec r (b, []) [])) as [p' Hp']; [rewrite E; discriminate|].
      exists [], [], p'. auto.
    + split; [contradiction|]. intros (pre & post & p' & Hs & Hr).
      destruct pre; [|discriminate]. destruct post; [|discriminate].
      intros _. apply (proj2 (m_finish_spec r (b, []) [])); [exists p'; exact Hr | exact E].
  - destruct (m r finish (b, c :: a) []) as [[px csx]|] eqn:E.
    + split; [|discriminate]. intros _.
      destruct (proj1 (m_finish_spec r (b, c :: a) [])) as [p' Hp']; [rewrite E; discriminate|].
      exists [], (c :: a), p'. auto.
    + rewrite IH. split.
      * intros (pre & post & p' & -> & Hr). exists (c :: pre), post, p'.
        split; [reflexivity|]. cbn. rewrite <- app_assoc. exact Hr.
      * intros (pre & post & p' & Hs & Hr). destruct pre as [|c' pre].
        -- cbn in Hs, Hr. subst post. exfalso.
           apply (proj2 (m_finish_spec r (b, c :: a) [])); [exists p'; exact Hr | exact E].
        -- injection Hs as <- ->. exists pre, post, p'. split; [reflexivity|].
           cbn in Hr. rewrite <- app_assoc in Hr. exact Hr.
Qed.

(** [re.search] finds a match exactly when the pattern matches, by the
    declarative semantics, from some position of the text. *)
Lemma re_search_spec (r : regex) (s : ustring) :
  re_search r s = true <-> exists pre post p', s = pre ++ post /\ den r (rev pre, post) p'.
Proof.
  unfold re_search, search. pose proof (search_from_spec r [] s) as H.
  setoid_rewrite app_nil_r in H. destruct (search_from r [] s); split; intros Hx.
  - apply H. discriminate.
  - reflexivity.
  - discriminate.
  - apply H in Hx. contradiction.
Qed.

(** A match consumes a prefix of the text left: the text after it is a
    suffix of the text before it. *)
Lemma step_suffix (k : cclass) (p q : pos) :
  step k p = Some q -> exists c, snd p = c :: snd q /\ cls_match k c = true.
Proof.
  unfold step. destruct p as [b [|c a]]; simpl; [discriminate|].
  destruct (cls_match k c) eqn:Hc; intros Hs; inversion Hs; subst; simpl; eauto.
Qed.

Lemma star_rel_suffix (k : cclass) (p p' : pos) :
  star_rel k p p' -> exists mid, snd p = mid ++ snd p'.
Proof.
  induction 1 as [p|b c a p' _ _ [mid Hm]]; [exists []; reflexivity|].
  exists (c :: mid). simpl in *. congruence.
Qed.

Lemma den_suffix (r : regex) : forall p p', den r p p' -> exists mid, snd p = mid ++ snd p'.
Proof.
  induction r; simpl; intros p p' Hd.
  - subst. exists []. reflexivity.
  - destruct (step_suffix _ _ _ Hd) as [c [Hc _]]. exists [c]. exact Hc.
  - exact (star_rel_suffix _ _ _ Hd).
  - destruct Hd as [q [Hs Hst]]. destruct (step_suffix _ _ _ Hs) as [c [Hc _]].
    destruct (star_rel_suffix _ _ _ Hst) as [mid Hm]. exists (c :: mid). simpl. congruence.
  - destruct Hd as [Hd| ->]; [exact (IHr _ _ Hd)|exists []; reflexivity].
  - destruct Hd as [q [H1 H2]]. destruct (IHr1 _ _ H1) as [m1 E1], (IHr2 _ _ H2) as [m2 E2].
    exists (m1 ++ m2). rewrite E1, E2, app_assoc. reflexivity.
  - destruct Hd as [Hd|Hd]; [exact (IHr1 _ _ Hd)|exact (IHr2 _ _ Hd)].
  - exact (IHr _ _ Hd).
  - destruct Hd as [_ ->]. exists []. reflexivity.
  - destruct Hd as [_ ->]. exists []. reflexivity.
Qed.

End Regex.
