(* ===== verification/Lookup.v ===== *)
(** The read-only look-ups of [src/clustering.py]: [search_by_location]
    (the lowered query, compiled as a regular expression as
    [str.contains] does at its default [regex=True], searched in the
    lowered city and province names; the matches ranked by [hci]), [get_cluster_info] (the summary of one
    cluster, or [{}]) and [get_all_clusters_summary] (one summary per
    cluster id, in increasing order). *)

From S2P Require Import Prelude Dataset Fixture Ranking Pipeline Text Regex.
From stdpp Require Import base list strings.
From Stdlib Require Import NArith QArith Lqa Lia Sorted Permutation Ascii.
Import Store Ranking Pipeline.

Module Lookup.

(** ** [search_by_location] *)

(** The characters Python's [re] gives a meaning in a pattern. *)
Definition regex_meta (c : N) : bool :=
  existsb (N.eqb c) [40; 41; 124; 42; 43; 63; 92; 46; 91; 93; 123; 125; 94; 36]%N.

(** The class a character of the query stands for: [.] any character
    but a newline, any other character itself. *)
Definition query_class (c : N) : Regex.cclass :=
  if N.eqb c 46 then Regex.CDot else Regex.CLit c.

Fixpoint query_regex (p : Text.ustring) : Regex.regex :=
  match p with
  | [] => Regex.REps
  | c :: p' => Regex.seq (Regex.RAtom (query_class c)) (query_regex p')
  end.

(** [re.compile] of the lowered query on the patterns modelled, those
    whose only metacharacter is [.]; [None] for any other pattern. *)
Definition compile_query (p : Text.ustring) : option Regex.regex :=
  if forallb (fun c => N.eqb c 46 || negb (regex_meta c)) p then Some (query_regex p) else None.

(** [column.str.lower().str.contains(pattern, na=False)] on one cell:
    [regex=True] is the default, so the cell is searched with
    [re.search]. *)
Definition cell_match (r : Regex.regex) (cell : string) : bool :=
  Regex.re_search r (Text.lower (Text.u cell)).

(** The mask: the pattern is found in the lowered city name or in the
    lowered province name. *)
Definition location_mask (r : Regex.regex) (row : Row) : bool :=
  cell_match r (name row) || cell_match r (province row).

Section WithSort.
Context `{HciSort}.

(** [search_by_location]; [None] for a query whose pattern is not
    modelled. *)
Definition search_by_location (e : Engine) (location_name : string) (top_k : Z)
  : option (list Recommendation) :=
  match compile_query (Text.lower (Text.u location_name)) with
  | Some r => Some (map row_to_dict (pd_head top_k (sort_hci (List.filter (location_mask r) (df e)))))
  | None => None
  end.

End WithSort.

(** The text a compiled query is found in: a window of the text whose
    characters are, one by one, in the classes of the query. *)
Definition window_match (p s : Text.ustring) : Prop :=
  exists pre mid suf, s = pre ++ mid ++ suf /\
    Forall2 (fun q c => Regex.cls_match (query_class q) c = true) p mid.

(** ** The pattern of a query *)

Lemma den_seq (r1 r2 : Regex.regex) (p p' : Regex.pos) :
  Regex.den (Regex.seq r1 r2) p p' <-> exists q, Regex.den r1 p q /\ Regex.den r2 q p'.
Proof.
  destruct r2; cbn [Regex.seq]; try reflexivity.
  split; [intros Hr; exists p'; split; [exact Hr|reflexivity]|intros (q & Hq & ->); exact Hq].
Qed.

(** The pattern reads a window of the text, class by class. *)
Lemma den_query_regex (p : Text.ustring) (b a : list N) (p' : Regex.pos) :
  Regex.den (query_regex p) (b, a) p' <->
  exists mid a', a = mid ++ a' /\
    Forall2 (fun q c => Regex.cls_match (query_class q) c = true) p mid /\
    p' = (rev mid ++ b, a').
Proof.
  revert b a. induction p as [|q p IH]; intros b a; cbn [query_regex].
  - cbn [Regex.den]. split; [intros ->; exists [], a; auto|].
    intros (mid & a' & -> & Hf & ->). inversion Hf. reflexivity.
  - rewrite den_seq. cbn [Regex.den Regex.step snd fst]. split.
    + intros ([b1 a1] & Hs & Hr). destruct a as [|c a]; [discriminate|]. cbn in Hs.
      destruct (Regex.cls_match (query_class q) c) eqn:Ec; [|discriminate]. injection Hs as <- <-.
      apply IH in Hr as (mid & a' & -> & Hf & ->). exists (c :: mid), a'.
      split; [reflexivity|]. split; [constructor; assumption|]. cbn. rewrite <- app_assoc. reflexivity.
    + intros (mid & a' & -> & Hf & ->). inversion Hf as [|q' c p'' mid' Hc Hf']; subst.
      exists (c :: b, mid' ++ a'). cbn. rewrite Hc. split; [reflexivity|].
      apply IH. exists mid', a'. split; [reflexivity|]. split; [exact Hf'|]. cbn. rewrite <- app_assoc. reflexivity.
Qed.

(** [re.search] of a compiled query finds exactly the windows of the
    text that match it. *)
Lemma re_search_query (p s : Text.ustring) :
  Regex.re_search (query_regex p) s = true <-> window_match p s.
Proof.
  rewrite Regex.re_search_spec. unfold window_match. split.
  - intros (pre & post & p' & -> & Hd). apply den_query_regex in Hd as (mid & suf & -> & Hf & _). eauto.
  - intros (pre & mid & suf & -> & Hf). exists pre, (mid ++ suf), (rev mid ++ rev pre, suf).
    split; [reflexivity|]. apply den_query_regex. eauto.
Qed.

(** Without [.] the window is the query itself: [str.contains] is then a
    substring test. *)
Lemma window_match_literal (p s : Text.ustring) :
  forallb (fun c => negb (N.eqb c 46)) p = true ->
  window_match p s <-> exists pre suf, s = pre ++ p ++ suf.
Proof.
  intros Hp. unfold window_match.
  assert (Hmid : forall mid, Forall2 (fun q c => Regex.cls_match (query_class q) c = true) p mid <-> mid = p).
  { induction p as [|q p IH]; intros mid; cbn in Hp.
    - split; [intros Hf; inversion Hf; reflexivity|intros ->; constructor].
    - apply andb_prop in Hp as [Hq Hp]. apply negb_true_iff in Hq.
      assert (Hk : query_class q = Regex.CLit q) by (unfold query_class; rewrite Hq; reflexivity).
      split.
      + intros Hf. inversion Hf as [|? c ? mid' Hc Hf']; subst. rewrite Hk in Hc. cbn in Hc.
        apply N.eqb_eq in Hc as ->. f_equal. apply IH; assumption.
      + intros ->. constructor; [rewrite Hk; apply N.eqb_refl|]. apply IH; auto. }
  split.
  - intros (pre & mid & suf & -> & Hf). apply Hmid in Hf as ->. eauto.
  - intros (pre & suf & ->). exists pre, p, suf. split; [reflexivity|]. apply Hmid. reflexivity.
Qed.

(** The empty query matches every text. *)
Lemma window_match_nil (s : Text.ustring) : window_match [] s.
Proof. exists [], [], s. split; [reflexivity|constructor]. Qed.

(** A lone [.] matches every text with a character other than a
    newline. *)
Lemma window_match_dot (s : Text.ustring) :
  window_match [46%N] s <-> exists c, In c s /\ c <> 10%N.
Proof.
  unfold window_match. split.
  - intros (pre & mid & suf & -> & Hf). inversion Hf as [|? c ? ? Hc Hf']; subst. inversion Hf'; subst.
    exists c. split; [apply in_or_app; right; left; reflexivity|].
    cbn in Hc. intros ->. discriminate.
  - intros (c & Hc & Hn). apply in_split in Hc as (pre & suf & ->).
    exists pre, [c], suf. split; [reflexivity|]. constructor; [|constructor].
    cbn. apply negb_true_iff, N.eqb_neq. exact Hn.
Qed.

(** ** [get_cluster_info] and [get_all_clusters_summary] *)

(** The dictionary [get_cluster_info] returns for a cluster with rows;
    [centroid_location] is [{}] ([None]) when the cluster has no
    centroid row. *)
Record ClusterSummary := mkClusterSummary {
  cs_cluster_id : Z;
  cs_total_locations : nat;
  cs_avg_temp : Q;
  cs_avg_wind : Q;
  cs_avg_precipitation : Q;
  cs_avg_humidity : Q;
  cs_avg_cloud_cover : Q;
  cs_avg_hci : Q;
  cs_centroid_location : option (string * string)
}.

Definition in_cluster (cid : Z) (r : Row) : bool := (cluster r =? cid)%Z.

(** [get_cluster_info]: [None] stands for the empty dictionary [{}]. *)
Definition get_cluster_info (e : Engine) (cluster_id : Z) : option ClusterSummary :=
  let cluster_data := List.filter (in_cluster cluster_id) (df e) in
  let centroid := List.filter (in_cluster cluster_id) (centroids e) in
  match cluster_data with
  | [] => None
  | _ :: _ =>
      Some {| cs_cluster_id := cluster_id;
              cs_total_locations := length cluster_data;
              cs_avg_temp := meanQ (map avgtemp_c cluster_data);
              cs_avg_wind := meanQ (map maxwind_kph cluster_data);
              cs_avg_precipitation := meanQ (map totalprecip_mm cluster_data);
              cs_avg_humidity := meanQ (map avghumidity cluster_data);
              cs_avg_cloud_cover := meanQ (map cloud_cover_mean cluster_data);
              cs_avg_hci := meanQ (map hci cluster_data);
              cs_centroid_location :=
                match centroid with
                | c :: _ => Some (name c, province c)
                | [] => None
                end |}
  end.

(** [sorted(self.df['cluster'].unique())]: insertion into a strictly
    increasing list without duplicates. *)
Fixpoint insert_unique (x : Z) (l : list Z) : list Z :=
  match l with
  | [] => [x]
  | y :: ys =>
      if (x <? y)%Z then x :: y :: ys
      else if (x =? y)%Z then y :: ys
      else y :: insert_unique x ys
  end.

Definition sorted_unique (l : list Z) : list Z := fold_right insert_unique [] l.

(** [get_all_clusters_summary]: the summaries of the cluster ids present,
    in increasing order, keeping those that are not [{}]. *)
Definition get_all_clusters_summary (e : Engine) : list ClusterSummary :=
  omap (get_cluster_info e) (sorted_unique (map cluster (df e))).

(** The weather means of a summary, indexed by feature. *)
Definition cs_feature_mean (s : ClusterSummary) (f : feature) : Q :=
  match f with
  | F_avgtemp_c => cs_avg_temp s
  | F_maxwind_kph => cs_avg_wind s
  | F_totalprecip_mm => cs_avg_precipitation s
  | F_avghumidity => cs_avg_humidity s
  | F_cloud_cover_mean => cs_avg_cloud_cover s
  end.

(** ** Lemmas on the look-ups *)

Lemma insert_unique_In (x y : Z) (l : list Z) : In y (insert_unique x l) <-> y = x \/ In y l.
Proof.
  induction l as [|z zs IH]; simpl; [intuition congruence|].
  destruct (x <? z)%Z; simpl; [intuition congruence|].
  destruct (x =? z)%Z eqn:E; bool_to_prop; simpl; [subst; intuition congruence|]. rewrite IH. tauto.
Qed.

Lemma insert_unique_sorted (x : Z) (l : list Z) :
  StronglySorted Z.lt l -> StronglySorted Z.lt (insert_unique x l).
Proof.
  induction 1 as [|z zs Hs IH Hall]; simpl; [repeat constructor|].
  destruct (x <? z)%Z eqn:E1; bool_to_prop.
  - constructor; [constructor; assumption|]. constructor; [exact E1|].
    rewrite List.Forall_forall in Hall |- *. intros w Hw. specialize (Hall w Hw). lia.
  - destruct (x =? z)%Z eqn:E2; bool_to_prop; [constructor; assumption|].
    constructor; [exact IH|]. apply List.Forall_forall. intros w Hw.
    apply insert_unique_In in Hw as [->|Hw]; [lia|]. rewrite List.Forall_forall in Hall. auto.
Qed.

Lemma sorted_unique_In (x : Z) (l : list Z) : In x (sorted_unique l) <-> In x l.
Proof. induction l as [|y l IH]; simpl; [tauto|]. rewrite insert_unique_In, IH. intuition congruence. Qed.

Lemma sorted_unique_sorted (l : list Z) : StronglySorted Z.lt (sorted_unique l).
Proof. induction l; simpl; [constructor | apply insert_unique_sorted; assumption]. Qed.

Lemma cluster_data_Forall (e : Engine) (cid : Z) (P : Row -> Prop) :
  (forall r, In r (df e) -> cluster r = cid -> P r) ->
  List.Forall P (List.filter (in_cluster cid) (df e)).
Proof.
  intros HP. apply List.Forall_forall. intros r Hr. apply filter_In_iff in Hr as [Hr Hc].
  apply HP; [exact Hr | apply Z.eqb_eq, Hc].
Qed.

Lemma mean_column_bounds (l : list Row) (g : Row -> Q) (lo hi : Q) :
  l <> [] -> List.Forall (fun r => lo <= g r <= hi)%Q l -> (lo <= meanQ (map g l) <= hi)%Q.
Proof.
  intros Hne HF. apply meanQ_bounds; [destruct l; [congruence | discriminate]|].
  apply Forall_map. exact HF.
Qed.

Section Theorems.
Context `{HciSort}.

(** C14: [search_by_location] on a query whose pattern is modelled (no
    metacharacter but [.]) returns a best-first selection of [top_k]
    rows of the table whose lowered city or province name has a window
    that matches the lowered query, [re.search] reading [.] as any
    character but a newline; for a query without [.] the window is
    the query itself ([window_match_literal]). *)
Theorem search_by_location_sound (e : Engine) (q : string) (k : Z) (recs : list Recommendation) :
  (0 <= k)%Z -> search_by_location e q k = Some recs ->
  exists rows data, recs = map row_to_dict rows /\ topk_spec (Z.to_nat k) data rows /\
    forall r, In r data <->
      In r (df e) /\
      (window_match (Text.lower (Text.u q)) (Text.lower (Text.u (name r))) \/
       window_match (Text.lower (Text.u q)) (Text.lower (Text.u (province r)))).
Proof.
  intros Hk. unfold search_by_location, compile_query.
  destruct (forallb _ _); [|discriminate]. intros [= <-].
  set (p := Text.lower (Text.u q)). set (data := List.filter (location_mask (query_regex p)) (df e)).
  rewrite pd_head_nonneg by exact Hk.
  exists (firstn (Z.to_nat k) (sort_hci data)), data. split; [reflexivity|]. split.
  - apply topk_of_sorted; [apply sort_hci_perm | apply sort_hci_sorted].
  - intros r. unfold data, location_mask, cell_match.
    rewrite filter_In_iff, orb_true_iff, !re_search_query. reflexivity.
Qed.

(** C15: [str.contains] reads the query as a regular expression: the
    query "." finds what the empty query finds, the whole table ranked
    by [hci], as soon as every city name has a character other than a
    newline, although no name contains a dot. *)
Theorem search_by_location_dot (e : Engine) (k : Z) :
  (forall r, In r (df e) -> exists c, In c (Text.lower (Text.u (name r))) /\ c <> 10%N) ->
  search_by_location e "." k = search_by_location e "" k.
Proof.
  intros Hn. unfold search_by_location.
  change (compile_query (Text.lower (Text.u "."))) with (Some (query_regex [46%N])).
  change (compile_query (Text.lower (Text.u ""))) with (Some (query_regex [])).
  do 4 f_equal. apply filter_ext_in. intros r Hr. unfold location_mask, cell_match.
  rewrite (proj2 (re_search_query [46%N] _)), (proj2 (re_search_query [] _)); [reflexivity| |].
  - apply window_match_nil.
  - apply window_match_dot, Hn, Hr.
Qed.

End Theorems.

(** C17: [get_cluster_info] returns the empty result, not an error,
    exactly when no row of the table has the cluster id. *)
Theorem get_cluster_info_None (e : Engine) (cid : Z) :
  get_cluster_info e cid = None <-> forall r, In r (df e) -> cluster r <> cid.
Proof.
  unfold get_cluster_info. destruct (List.filter (in_cluster cid) (df e)) as [|r rs] eqn:E.
  - split; [|reflexivity]. intros _ r Hr Hc. apply filter_nil_iff with (x := r) in E; [|exact Hr].
    unfold in_cluster in E. rewrite Hc, Z.eqb_refl in E. discriminate.
  - split; [discriminate|]. intros Hno. exfalso.
    assert (In r (List.filter (in_cluster cid) (df e))) as Hin by (rewrite E; left; reflexivity).
    apply filter_In_iff in Hin as [Hin Hc]. apply (Hno r Hin), Z.eqb_eq, Hc.
Qed.

(** C18: a cluster summary counts the rows of the cluster, and each of
    its means lies within any bounds that all the cluster's rows satisfy
    (in particular between the minimum and the maximum). *)
Theorem get_cluster_info_means (e : Engine) (cid : Z) (s : ClusterSummary) :
  get_cluster_info e cid = Some s ->
  cs_cluster_id s = cid /\
  cs_total_locations s = length (List.filter (in_cluster cid) (df e)) /\
  (forall f lo hi, (forall r, In r (df e) -> cluster r = cid -> lo <= feature_value f r <= hi)%Q ->
     (lo <= cs_feature_mean s f <= hi)%Q) /\
  (forall lo hi, (forall r, In r (df e) -> cluster r = cid -> lo <= hci r <= hi)%Q ->
     (lo <= cs_avg_hci s <= hi)%Q).
Proof.
  unfold get_cluster_info. destruct (List.filter (in_cluster cid) (df e)) as [|r rs] eqn:E;
    [discriminate|]. intros Hs. injection Hs as <-.
  split; [reflexivity|]. split; [reflexivity|].
  split; [intros f lo hi Hb | intros lo hi Hb];
    pose proof (cluster_data_Forall e cid _ Hb) as HF; rewrite E in HF;
    [destruct f|]; apply (mean_column_bounds (r :: rs)); solve [discriminate | exact HF].
Qed.

Lemma get_cluster_info_present (e : Engine) (cid : Z) :
  (exists r, In r (df e) /\ cluster r = cid) ->
  exists s, get_cluster_info e cid = Some s /\ cs_cluster_id s = cid.
Proof.
  intros (r & Hr & Hc). unfold get_cluster_info.
  destruct (List.filter (in_cluster cid) (df e)) as [|r0 rs] eqn:E.
  - exfalso. apply filter_nil_iff with (x := r) in E; [|exact Hr].
    unfold in_cluster in E. rewrite Hc, Z.eqb_refl in E. discriminate.
  - eexists. split; reflexivity.
Qed.

Lemma omap_ids (e : Engine) (l : list Z) :
  (forall c, In c l -> exists s, get_cluster_info e c = Some s /\ cs_cluster_id s = c) ->
  map cs_cluster_id (omap (get_cluster_info e) l) = l.
Proof.
  induction l as [|c l IH]; intros Hl; [reflexivity|]. simpl.
  destruct (Hl c (or_introl eq_refl)) as (s & -> & <-). simpl. f_equal.
  apply IH. intros c' Hc'. apply Hl. right. exact Hc'.
Qed.

(** C19: [get_all_clusters_summary] has one summary per cluster id
    present in the table, none for any other id, in strictly increasing
    order of id (so without duplicates). *)
Theorem get_all_clusters_summary_ids (e : Engine) :
  map cs_cluster_id (get_all_clusters_summary e) = sorted_unique (map cluster (df e)) /\
  StronglySorted Z.lt (map cs_cluster_id (get_all_clusters_summary e)) /\
  forall c, In c (map cs_cluster_id (get_all_clusters_summary e)) <->
            exists r, In r (df e) /\ cluster r = c.
Proof.
  assert (Hids : map cs_cluster_id (get_all_clusters_summary e) = sorted_unique (map cluster (df e))).
  { apply omap_ids. intros c Hc. apply get_cluster_info_present.
    apply sorted_unique_In, in_map_iff in Hc as (r & <- & Hr). eauto. }
  rewrite Hids. split; [reflexivity|]. split; [apply sorted_unique_sorted|].
  intros c. rewrite sorted_unique_In, in_map_iff. split; intros (r & H1 & H2); eauto.
Qed.

(** C20: on a table satisfying the data-model invariant [wf_table]
    (each row's cluster has exactly one centroid row), every cluster
    summary names its centroid's city and province: the [{}] branch of
    [centroid_location] is unreachable. *)
Theorem get_cluster_info_centroid (e : Engine) (cid : Z) (s : ClusterSummary) :
  loaded e -> wf_table (df e) = true -> get_cluster_info e cid = Some s ->
  exists c, In c (centroids e) /\ cluster c = cid /\ cs_centroid_location s = Some (name c, province c).
Proof.
  intros (_ & Hcent & _) Hwf Hs.
  destruct (proj1 (filter_nonempty_iff (in_cluster cid) (df e))) as (r & Hr & Hrc).
  { intros E. unfold get_cluster_info in Hs. rewrite E in Hs. discriminate. }
  unfold wf_table in Hwf. rewrite forallb_forall in Hwf. specialize (Hwf r Hr). bool_to_prop.
  apply Nat.eqb_eq in H0. unfold count_centroids in H0. apply Z.eqb_eq in Hrc.
  destruct (List.filter (fun x => is_centroid x && (cluster x =? cluster r)%Z) (df e))
    as [|c0 cs0] eqn:Ec0; [discriminate|].
  assert (In c0 (List.filter (in_cluster cid) (centroids e))) as Hc0.
  { assert (In c0 (List.filter (fun x => is_centroid x && (cluster x =? cluster r)%Z) (df e))) as Hin
      by (rewrite Ec0; left; reflexivity).
    apply filter_In_iff in Hin as [Hin Hb]. bool_to_prop. rewrite Hcent.
    apply filter_In_iff. split; [apply filter_In_iff; auto|]. unfold in_cluster. rewrite <- Hrc. apply Z.eqb_eq. assumption. }
  unfold get_cluster_info in Hs. destruct (List.filter (in_cluster cid) (df e)); [discriminate|].
  injection Hs as <-. simpl.
  destruct (List.filter (in_cluster cid) (centroids e)) as [|c cs] eqn:Ec; [contradiction|].
  exists c. assert (In c (List.filter (in_cluster cid) (centroids e))) as Hc by (rewrite Ec; left; reflexivity).
  apply filter_In_iff in Hc as [Hc Hcc]. unfold in_cluster in Hcc. apply Z.eqb_eq in Hcc. auto.
Qed.

(** ** Witnesses on the fixture table *)

(** Searching "lo" on the fixture table. *)
Lemma search_by_location_sound_witness :
  exists rows data,
    map row_to_dict [Fixture.halong] = map row_to_dict rows /\ topk_spec (Z.to_nat 2) data rows /\
    forall r, In r data <->
      In r (df Fixture.engine) /\
      (window_match (Text.lower (Text.u "lo")) (Text.lower (Text.u (name r))) \/
       window_match (Text.lower (Text.u "lo")) (Text.lower (Text.u (province r)))).
Proof. apply (search_by_location_sound Fixture.engine "lo" 2); [lia | vm_compute; reflexivity]. Defined.

Lemma search_by_location_dot_witness :
  search_by_location Fixture.engine "." 5 = search_by_location Fixture.engine "" 5.
Proof.
  apply search_by_location_dot. intros r Hr. simpl in Hr.
  repeat destruct Hr as [<-|Hr]; try contradiction;
    (eexists; split; [vm_compute; left; reflexivity|discriminate]).
Defined.

Lemma get_cluster_info_None_witness : get_cluster_info Fixture.engine 7 = None.
Proof.
  apply (proj2 (get_cluster_info_None _ _)). intros r Hr. simpl in Hr.
  repeat destruct Hr as [<-|Hr]; [discriminate..|contradiction].
Defined.

Lemma get_cluster_info_means_witness :
  exists s, get_cluster_info Fixture.engine 1 = Some s /\
    cs_cluster_id s = 1%Z /\
    cs_total_locations s = length (List.filter (in_cluster 1) (df Fixture.engine)) /\
    (forall f lo hi, (forall r, In r (df Fixture.engine) -> cluster r = 1%Z ->
                       lo <= feature_value f r <= hi)%Q ->
       (lo <= cs_feature_mean s f <= hi)%Q) /\
    (forall lo hi, (forall r, In r (df Fixture.engine) -> cluster r = 1%Z -> lo <= hci r <= hi)%Q ->
       (lo <= cs_avg_hci s <= hi)%Q).
Proof.
  eexists. split; [vm_compute; reflexivity|].
  apply (get_cluster_info_means Fixture.engine 1). vm_compute. reflexivity.
Defined.

Lemma get_cluster_info_centroid_witness :
  exists s c, get_cluster_info Fixture.engine 0 = Some s /\
    In c (centroids Fixture.engine) /\ cluster c = 0%Z /\
    cs_centroid_location s = Some (name c, province c).
Proof.
  eexists. assert (Hs : get_cluster_info Fixture.engine 0 = Some _) by (vm_compute; reflexivity).
  destruct (get_cluster_info_centroid Fixture.engine 0 _ Fixture.engine_loaded
              ltac:(vm_compute; reflexivity) Hs) as (c & Hc).
  exists c. split; [exact Hs | exact Hc].
Defined.

End Lookup.
