(* ===== verification/Validate.v ===== *)
(** The chatbot's [_validate_preferences] ([src/chatbot.py]): the
    clamping and defaulting of the preference dictionary extracted from a
    message, and the contract it establishes for the engine: a validated
    dictionary has every key [find_best_cluster] reads. *)

From S2P Require Import Prelude Dataset Fixture Ranking Centroid Pipeline.
From stdpp Require Import base list strings.
From Stdlib Require Import QArith Qminmax Lqa Lia.
Import Store Ranking Centroid Pipeline.

Module Validate.

(** [max(lo, min(hi, x))] with Python's [min] and [max] on numbers. *)
Definition clamp (lo hi x : Q) : Q := Qmax lo (Qmin hi x).

Definition clamp_month (m : Z) : Z := Z.max 1 (Z.min 12 m).

Definition default_description : string := "du lịch chung".

(** [_validate_preferences]: each weather value is read with its default
    and clamped to its documented range; the month, when present, is
    clamped to 1..12; region and terrain are copied; the description
    defaults to "du lịch chung". *)
Definition validate_preferences (p : Prefs) : Prefs :=
  {| p_avgtemp_c := Some (clamp 15 35 (get_default 25 (p_avgtemp_c p)));
     p_maxwind_kph := Some (clamp 5 30 (get_default 15 (p_maxwind_kph p)));
     p_totalprecip_mm := Some (clamp 0 30 (get_default 10 (p_totalprecip_mm p)));
     p_avghumidity := Some (clamp 50 90 (get_default 70 (p_avghumidity p)));
     p_cloud_cover_mean := Some (clamp 0 100 (get_default 50 (p_cloud_cover_mean p)));
     p_month := option_map clamp_month (p_month p);
     p_region := p_region p;
     p_terrain := p_terrain p;
     p_preferences := Some (match p_preferences p with
                            | Some d => d
                            | None => default_description
                            end) |}.

(** The contract between the chatbot and the engine: every weather key
    is present, and each value lies in its documented range. *)
Definition in_range (lo hi : Q) (o : option Q) : Prop :=
  match o with Some v => (lo <= v <= hi)%Q | None => False end.

Definition valid_prefs (p : Prefs) : Prop :=
  in_range 15 35 (p_avgtemp_c p) /\ in_range 5 30 (p_maxwind_kph p) /\
  in_range 0 30 (p_totalprecip_mm p) /\ in_range 50 90 (p_avghumidity p) /\
  in_range 0 100 (p_cloud_cover_mean p) /\
  match p_month p with Some m => (1 <= m <= 12)%Z | None => True end.

(** ** Lemmas on [clamp] *)

Lemma clamp_bounds (lo hi x : Q) : (lo <= hi)%Q -> (lo <= clamp lo hi x <= hi)%Q.
Proof.
  intros H. unfold clamp.
  pose proof (Q.min_spec hi x). pose proof (Q.max_spec lo (Qmin hi x)).
  set (m := Qmin hi x) in *. set (M := Qmax lo m) in *. lra.
Qed.

Lemma clamp_id (lo hi x : Q) : (lo <= x <= hi)%Q -> (clamp lo hi x == x)%Q.
Proof.
  intros [H1 H2]. unfold clamp.
  pose proof (Q.min_spec hi x). pose proof (Q.max_spec lo (Qmin hi x)).
  set (m := Qmin hi x) in *. set (M := Qmax lo m) in *. lra.
Qed.


Lemma clamp_month_bounds (m : Z) : (1 <= clamp_month m <= 12)%Z.
Proof. unfold clamp_month. lia. Qed.

Lemma in_range_clamp (lo hi x : Q) : (lo <= hi)%Q -> in_range lo hi (Some (clamp lo hi x)).
Proof. apply clamp_bounds. Qed.

Lemma validate_user_vector (p : Prefs) : exists u, user_vector (validate_preferences p) = Ok u.
Proof. eexists. reflexivity. Qed.

(** A dictionary in the contract has every key [user_vector] reads. *)
Lemma valid_user_vector (p : Prefs) : valid_prefs p -> exists u, user_vector p = Ok u.
Proof.
  destruct p as [t w pr h cl mo rg tr d]; unfold valid_prefs; cbn.
  destruct t, w, h; cbn; try tauto. intros _. eexists. reflexivity.
Qed.

(** With a non-empty centroid set and every key [user_vector] reads,
    the only exception of [get_recommendations] is the one of the
    categorical filters. *)
Lemma user_vector_filter_error `{HciSort} (e : Engine) (p : Prefs) (k : Z) (u : feature -> Q)
    (err : engine_error) :
  user_vector p = Ok u -> centroids e <> [] ->
  get_recommendations e p k = Err err -> filter_stage p (df e) = Err err.
Proof.
  intros Hu Hne [E|(fs & _ & _ & Hb)]%get_recommendations_Err; [exact E|].
  apply (find_best_cluster_keys_Err e _ u err Hu) in Hb as [Hc _]. contradiction.
Qed.

Lemma user_vector_get_recommendations `{HciSort} (e : Engine) (p : Prefs) (k : Z) (u : feature -> Q)
    (fs : list Row) :
  user_vector p = Ok u -> centroids e <> [] -> filter_stage p (df e) = Ok fs ->
  exists recs, get_recommendations e p k = Ok recs.
Proof.
  intros Hu Hne Hfs. destruct (get_recommendations e p k) as [recs|err] eqn:E; [eauto|].
  apply (user_vector_filter_error e p k u err Hu Hne) in E. congruence.
Qed.

(** C13: [_validate_preferences] always produces a dictionary with the
    five weather values present and within their documented ranges
    (temperature 15-35, wind 5-30, precipitation 0-30, humidity 50-90,
    cloud cover 0-100) and a month, when given, in 1..12. *)
Theorem validate_preferences_valid (p : Prefs) : valid_prefs (validate_preferences p).
Proof.
  unfold valid_prefs, validate_preferences; simpl.
  repeat split; try (apply clamp_bounds; unfold Qle; simpl; lia).
  destruct (p_month p); simpl; [apply clamp_month_bounds | exact I].
Qed.


(** C12: the contract between the chatbot and the engine: on a validated
    dictionary, [find_best_cluster] never raises [KeyError], and when the
    table has a centroid row the only exception [get_recommendations]
    can raise is the one of comparing a region or terrain that the
    validation let through as a list. *)
Theorem validate_get_recommendations `{HciSort} (e : Engine) (p : Prefs) (k : Z) (err : engine_error) :
  centroids e <> [] ->
  get_recommendations e (validate_preferences p) k = Err err ->
  filter_stage (validate_preferences p) (df e) = Err err.
Proof.
  destruct (validate_user_vector p) as [u Hu].
  exact (user_vector_filter_error e _ k u err Hu).
Qed.

(** ** Witnesses *)

Definition empty_prefs : Prefs := mkPrefs None None None None None None None None None.

(** A region given as a list of one region. *)
Definition list_region_prefs : Prefs :=
  mkPrefs None None None None None None (Some (CatList [Some "North"%string])) None None.

Lemma validate_get_recommendations_witness :
  centroids Fixture.engine <> [] /\
  get_recommendations Fixture.engine (validate_preferences list_region_prefs) 1 =
    Err (ValueError "('Lengths must match to compare', (5,), (1,))") /\
  filter_stage (validate_preferences list_region_prefs) (df Fixture.engine) =
    Err (ValueError "('Lengths must match to compare', (5,), (1,))").
Proof.
  split; [discriminate|]. split; [vm_compute; reflexivity|].
  apply (validate_get_recommendations Fixture.engine list_region_prefs 1); [discriminate|].
  vm_compute. reflexivity.
Defined.

End Validate.
