(* ===== verification/Endpoint.v ===== *)
(** The HTTP layer of [src/main.py] and the table of [src/models.py]:
    the [/chat] handler as a step of a state machine whose state is the
    [chat_history] table, the look-up routes, and the [/api/history]
    query, which on a table filled in clock order is the table read
    backwards.  The chatbot behind [process_user_input] is an oracle that may
    answer each call differently or raise; [generate_response] calls it
    a second time, as the code does.  [Chat] builds the oracle from the
    chatbot's model. *)

From S2P Require Import Prelude Dataset Fixture Ranking Centroid Pipeline Lookup Text.
From stdpp Require Import base list strings sorting.
From Stdlib Require Import Lia Sorted Permutation Ascii String.
Import Store Ranking Centroid Pipeline Lookup.

Module Endpoint.

(** ** The [chat_history] table *)

(** What [json.dumps] stores in [extracted_features]: the extracted
    preference dictionary, or [{"preferences": "non_travel_query"}]. *)
Inductive Features :=
| Extracted (p : Prefs)
| NonTravelQuery.

(** One row of [ChatHistory]; the JSON columns hold the values that
    [json.dumps] serialises. *)
Record ChatRecord := mkChatRecord {
  ch_id : nat;
  ch_timestamp : Z;
  ch_user_message : string;
  ch_bot_response : string;
  ch_extracted_features : Features;
  ch_recommended_locations : list Recommendation;
  ch_user_ip : string;
  ch_session_id : string
}.

Definition Db := list ChatRecord.

(** SQLite assigns an [INTEGER PRIMARY KEY] one more than the largest
    key in the table. *)
Definition next_id (db : Db) : nat := S (fold_right Nat.max 0%nat (map ch_id db)).

(** [db.add(chat_record); db.commit()]; [timestamp] takes its default
    [datetime.utcnow()] at the insert. *)
Definition db_insert (db : Db) (now : Z) (msg resp : string) (feat : Features)
    (recs : list Recommendation) (ip sid : string) : Db :=
  db ++ [{| ch_id := next_id db; ch_timestamp := now; ch_user_message := msg;
            ch_bot_response := resp; ch_extracted_features := feat;
            ch_recommended_locations := recs; ch_user_ip := ip; ch_session_id := sid |}].

(** ** The chatbot as the handler sees it *)

(** The result of [process_user_input]: [(True, preferences)] or
    [(False, refusal)]. *)
Inductive Processed :=
| Travel (p : Prefs)
| Refusal (text : string).

(** The answers of the language model: the [n]-th call of
    [process_user_input] in a request returns [classify n msg], or raises
    an exception whose [str(e)] is given; [compose] is the reply written
    for a list of recommendations. *)
Record Oracle := mkOracle {
  classify : nat -> string -> result Processed string;
  compose : string -> list Recommendation -> string
}.

Definition no_match_text : string :=
  "Tôi hiểu yêu cầu của bạn, nhưng hiện tại chưa tìm được địa điểm phù hợp. Bạn có thể cung cấp thêm thông tin cụ thể về thời gian, địa điểm, hoặc điều kiện thời tiết mong muốn không?".

(** [generate_response(user_input, recommendations)]: classifies the
    message again (call [1]) before answering; an exception of that call
    is not caught there. *)
Definition generate_response (o : Oracle) (user_input : string) (recs : list Recommendation)
  : result string string :=
  match classify o 1 user_input with
  | Err e => Err e
  | Ok (Refusal r) => Ok r
  | Ok (Travel _) =>
      Ok (match recs with
          | [] => no_match_text
          | _ :: _ => compose o user_input recs
          end)
  end.

(** ** [/chat] *)

(** The JSON body of the request: the keys [message] and [session_id]. *)
Record ChatRequest := mkChatRequest {
  req_message : option string;
  req_session_id : option string;
  req_client_host : string
}.

Inductive ChatResponse :=
| ChatOk (response : string) (is_travel_related : bool) (recommendations : list Recommendation)
         (preferences : Features) (session_id : string) (has_recommendations : bool)
| ChatFail (status : Z) (error : string) (response : string).

(** [str.strip()]: the message is a Python [str], here its UTF-8
    bytes; the characters [str.isspace] accepts ([Text.is_space], the
    Unicode white space with U+00A0, U+2000-U+200A and U+3000) are
    removed from both ends. *)
Definition strip (s : string) : string := Text.string_of_ustring (Text.strip (Text.u s)).

(** [str(e)] of the exceptions that reach the handler. *)
Definition error_text (e : engine_error) : string :=
  match e with
  | KeyError k => String.append "'" (String.append k "'")
  | ValueError m => m
  end.

Definition generic_failure_text : string := "Xin lỗi, đã có lỗi xảy ra. Vui lòng thử lại sau.".

(** [chat_endpoint]: [new_uuid] is [str(uuid.uuid4())] and [now] the
    clock at the insert.  The [HTTPException] raised on an empty message
    is inside the [try] and is turned into a 500 response by [except
    Exception]. *)
Definition chat_endpoint `{HciSort} (e : Engine) (o : Oracle) (db : Db) (req : ChatRequest)
    (new_uuid : string) (now : Z) : ChatResponse * Db :=
  let user_message := strip (match req_message req with Some m => m | None => EmptyString end) in
  let session_id := match req_session_id req with Some s => s | None => new_uuid end in
  if String.eqb user_message EmptyString then
    (ChatFail 500 "400: Message cannot be empty" generic_failure_text, db)
  else
    match classify o 0 user_message with
    | Err err => (ChatFail 500 err generic_failure_text, db)
    | Ok (Travel prefs) =>
        match get_recommendations e prefs 5 with
        | Err err => (ChatFail 500 (error_text err) generic_failure_text, db)
        | Ok recs =>
            match generate_response o user_message recs with
            | Err err => (ChatFail 500 err generic_failure_text, db)
            | Ok bot_response =>
                (ChatOk bot_response true recs (Extracted prefs) session_id
                        (0 <? List.length recs)%nat,
                 db_insert db now user_message bot_response (Extracted prefs) recs
                           (req_client_host req) session_id)
            end
        end
    | Ok (Refusal bot_response) =>
        (ChatOk bot_response false [] NonTravelQuery session_id false,
         db_insert db now user_message bot_response NonTravelQuery []
                   (req_client_host req) session_id)
    end.

(** ** The other routes *)

(** [/api/clusters]. *)
Definition get_clusters (e : Engine) : list ClusterSummary := get_all_clusters_summary e.

(** [/api/search/{location}]: the results with their count ([None]
    where the query's pattern is not modelled). *)
Definition search_location `{HciSort} (e : Engine) (location : string) : option (list Recommendation * nat) :=
  option_map (fun results => (results, List.length results)) (search_by_location e location 10).

(** [ORDER BY timestamp DESC]: SQL leaves the order of equal timestamps
    unspecified, so the query is modelled by its contract. *)
Class HistoryOrder := {
  order_desc : list ChatRecord -> list ChatRecord;
  order_desc_perm : forall l, Permutation (order_desc l) l;
  order_desc_sorted : forall l, Sorted (fun a b => ch_timestamp b <= ch_timestamp a)%Z (order_desc l)
}.

(** One order SQLite may produce: an insertion sort, newest first. *)
Fixpoint insert_newest (c : ChatRecord) (l : list ChatRecord) : list ChatRecord :=
  match l with
  | [] => [c]
  | x :: l' => if (ch_timestamp x <=? ch_timestamp c)%Z then c :: l else x :: insert_newest c l'
  end.

Definition order_newest (db : Db) : Db := fold_right insert_newest [] db.

(** [LIMIT n]: SQLite reads a negative limit as no limit. *)
Definition sql_limit {A : Type} (n : Z) (l : list A) : list A :=
  if (n <? 0)%Z then l else firstn (Z.to_nat n) l.

(** The fields of one history entry returned by [/api/history]. *)
Record HistoryEntry := mkHistoryEntry {
  he_id : nat;
  he_timestamp : Z;
  he_user_message : string;
  he_bot_response : string;
  he_session_id : string
}.

Definition to_entry (r : ChatRecord) : HistoryEntry :=
  {| he_id := ch_id r; he_timestamp := ch_timestamp r; he_user_message := ch_user_message r;
     he_bot_response := ch_bot_response r; he_session_id := ch_session_id r |}.

Definition get_chat_history `{HistoryOrder} (db : Db) (limit : Z) : list HistoryEntry * nat :=
  let history := sql_limit limit (order_desc db) in
  (map to_entry history, List.length history).

(** ** The server as a state machine *)

(** One [/chat] request against the table. *)
Inductive chat_step `{HciSort} (e : Engine) (o : Oracle) : Db -> Db -> Prop :=
| step_chat db req uuid now resp db' :
    chat_endpoint e o db req uuid now = (resp, db') -> chat_step e o db db'.

(** The database file [travel_chatbot.db]: [None] before the table
    [chat_history] exists. *)
Definition Database : Type := option Db.

(** [create_tables()], run when [main.py] is imported:
    [Base.metadata.create_all] creates [chat_history] when it is missing
    and keeps the rows of an existing one. *)
Definition create_tables (d : Database) : Db :=
  match d with Some db => db | None => [] end.

(** The tables the server can produce: started on a fresh file, then
    [/chat] requests and restarts on the stored file. *)
Inductive reachable `{HciSort} (e : Engine) (o : Oracle) : Db -> Prop :=
| reach_init : reachable e o (create_tables None)
| reach_step db db' : reachable e o db -> chat_step e o db db' -> reachable e o db'
| reach_restart db : reachable e o db -> reachable e o (create_tables (Some db)).


(** ** Lemmas *)


(** Every outcome of the handler: the table is unchanged, or it gains
    one record built from the request. *)
(** Case on the branches of [chat_endpoint]: the guard, the first
    classification, the engine and [generate_response]. *)
Local Ltac chat_cases :=
  unfold chat_endpoint; cbv zeta;
  destruct (String.eqb _ _) eqn:?Hguard;
  [| destruct (classify _ 0 _) as [[?prefs|?bot]|?err];
     [ destruct (get_recommendations _ _ 5) as [?recs|?err];
       [ destruct (generate_response _ _ _) as [?bot|?err] | ] | | ] ];
  intros Hc; injection Hc as <- <-.

Lemma chat_endpoint_db `{HciSort} (e : Engine) (o : Oracle) (db : Db) req uuid now resp db' :
  chat_endpoint e o db req uuid now = (resp, db') ->
  db' = db \/
  exists msg bot feat recs sid, msg <> EmptyString /\ (feat = NonTravelQuery -> recs = []) /\
    db' = db_insert db now msg bot feat recs (req_client_host req) sid.
Proof.
  chat_cases; try (left; reflexivity); right; apply String.eqb_neq in Hguard;
    do 5 eexists; (split; [exact Hguard|]); (split; [|reflexivity]);
    intros Hf; solve [discriminate Hf | reflexivity].
Qed.

(** What the handler stores in a record: a message that is not empty,
    and no recommendations for a message refused as non-travel. *)
Definition record_ok (r : ChatRecord) : Prop :=
  ch_user_message r <> EmptyString /\
  (ch_extracted_features r = NonTravelQuery -> ch_recommended_locations r = []).

Section Theorems.
Context `{HciSort}.

(** C24 (invariant): in every table the server can produce, from a
    fresh database file through [/chat] requests and restarts, every
    record has a non-empty message (the guard runs on the stripped
    message that is stored) and every record of a refused message has
    no recommendations. *)
Theorem reachable_records_ok (e : Engine) (o : Oracle) (db : Db) :
  reachable e o db -> List.Forall record_ok db.
Proof.
  induction 1 as [|db db' _ IH Hstep|db _ IH]; [constructor| |exact IH].
  destruct Hstep as [db req uuid now resp db' Hc].
  destruct (chat_endpoint_db e o db req uuid now resp db' Hc)
    as [->|(msg & bot & feat & recs & sid & Hm & Hf & ->)]; [exact IH|].
  apply List.Forall_app. split; [exact IH|]. constructor; [|constructor]. split; assumption.
Qed.

(** C22: a message that is empty after [strip()] (a message of Unicode
    white space included) gets a 500 response,
    not the intended 400: the [HTTPException] is raised inside the [try]
    and caught by [except Exception]; nothing is stored. *)
Theorem chat_empty_message_500 (e : Engine) (o : Oracle) (db : Db) (req : ChatRequest) uuid now :
  strip (match req_message req with Some m => m | None => EmptyString end) = EmptyString ->
  chat_endpoint e o db req uuid now =
  (ChatFail 500 "400: Message cannot be empty" generic_failure_text, db).
Proof. intros Hs. unfold chat_endpoint. rewrite Hs. reflexivity. Qed.

(** C23: a failed request stores nothing, and a successful one appends
    exactly one record with the next key, the stripped message, the reply,
    the recommendations and the session id it returns;
    [has_recommendations] is true exactly when there are recommendations. *)
Theorem chat_endpoint_store (e : Engine) (o : Oracle) (db : Db) (req : ChatRequest) uuid now resp db' :
  chat_endpoint e o db req uuid now = (resp, db') ->
  match resp with
  | ChatFail _ _ _ => db' = db
  | ChatOk bot travel recs feat sid has =>
      has = (0 <? List.length recs)%nat /\
      db' = db_insert db now (strip (match req_message req with Some m => m | None => EmptyString end))
                      bot feat recs (req_client_host req) sid
  end.
Proof. chat_cases; auto. Qed.


(** C25: for [limit >= 0], [/api/history] returns at most [limit]
    entries of the table, newest first; for a negative [limit] SQLite
    applies no limit and every record is returned. *)
Theorem get_chat_history_spec `{HistoryOrder} (db : Db) (limit : Z) :
  let '(entries, total) := get_chat_history db limit in
  total = List.length entries /\
  Sorted (fun a b => he_timestamp b <= he_timestamp a)%Z entries /\
  (forall x, In x entries -> exists r, In r db /\ x = to_entry r) /\
  (if (limit <? 0)%Z then total = List.length db else (total <= Z.to_nat limit)%nat).
Proof.
  unfold get_chat_history, sql_limit.
  assert (Hmap : forall l, Sorted (fun a b => ch_timestamp b <= ch_timestamp a)%Z l ->
                 Sorted (fun a b => he_timestamp b <= he_timestamp a)%Z (map to_entry l)).
  { induction 1 as [|x l _ IH Hhd]; simpl; constructor; [exact IH|].
    destruct Hhd; simpl; constructor. assumption. }
  destruct (limit <? 0)%Z.
  - rewrite length_map. split; [reflexivity|]. split; [apply Hmap, order_desc_sorted|]. split.
    + intros x Hx. apply in_map_iff in Hx as (r & <- & Hr). exists r. split; [|reflexivity].
      apply (Permutation_in _ (order_desc_perm db)), Hr.
    + apply Permutation_length, order_desc_perm.
  - rewrite length_map. split; [reflexivity|]. split.
    + apply Hmap. apply (sorted_prefix _ _ (skipn (Z.to_nat limit) (order_desc db))).
      rewrite firstn_skipn. apply order_desc_sorted.
    + split; [|rewrite length_firstn; lia].
      intros x Hx. apply in_map_iff in Hx as (r & <- & Hr). exists r. split; [|reflexivity].
      apply (Permutation_in _ (order_desc_perm db)), (In_firstn_l _ _ _ Hr).
Qed.

End Theorems.

(** ** The history of a table filled in clock order *)

Section History.
Context `{HistoryOrder}.

Lemma StronglySorted_filter {A : Type} (R : A -> A -> Prop) (p : A -> bool) (l : list A) :
  StronglySorted R l -> StronglySorted R (List.filter p l).
Proof.
  induction 1 as [|a l _ IH Ha]; cbn [List.filter]; [constructor|].
  destruct (p a); [|exact IH]. constructor; [exact IH|].
  rewrite List.Forall_forall in Ha |- *. intros x Hx. apply Ha, (proj1 (filter_In p x l) Hx).
Qed.

Lemma StronglySorted_map_iff {A B : Type} (R : B -> B -> Prop) (f : A -> B) (l : list A) :
  StronglySorted R (map f l) <-> StronglySorted (fun a b => R (f a) (f b)) l.
Proof.
  induction l as [|a l IH]; cbn [map]; [split; constructor|].
  rewrite !StronglySorted_cons, IH, Forall_map. reflexivity.
Qed.

(** Two records of a table with strictly increasing timestamps that
    carry the same timestamp are the same record. *)
Lemma increasing_timestamp_inj (db : Db) (x y : ChatRecord) :
  StronglySorted (fun a b => ch_timestamp a < ch_timestamp b)%Z db ->
  In x db -> In y db -> ch_timestamp x = ch_timestamp y -> x = y.
Proof.
  induction 1 as [|a l _ IH Ha]; [contradiction|]. rewrite List.Forall_forall in Ha.
  intros [<-|Hx] [<-|Hy] E; auto.
  - specialize (Ha y Hy). lia.
  - specialize (Ha x Hx). lia.
Qed.

Lemma increasing_rev_desc (db : Db) :
  StronglySorted (fun a b => ch_timestamp a < ch_timestamp b)%Z db ->
  StronglySorted (fun a b => ch_timestamp b <= ch_timestamp a)%Z (rev db).
Proof.
  induction 1 as [|a l _ IH Ha]; cbn [rev]; [constructor|].
  apply StronglySorted_app_2; [|exact IH|repeat constructor].
  intros x1 x2 Hx1 Hx2. apply list_elem_of_singleton in Hx2 as ->.
  apply list_elem_of_In, in_rev in Hx1. rewrite List.Forall_forall in Ha.
  specialize (Ha x1 Hx1). lia.
Qed.

(** Appending later records to a table keeps its timestamps increasing. *)
Lemma increasing_app (db added : Db) :
  StronglySorted (fun a b => ch_timestamp a < ch_timestamp b)%Z db ->
  StronglySorted (fun a b => ch_timestamp a < ch_timestamp b)%Z added ->
  (forall x y, In x db -> In y added -> ch_timestamp x < ch_timestamp y)%Z ->
  StronglySorted (fun a b => ch_timestamp a < ch_timestamp b)%Z (db ++ added).
Proof.
  intros H1 H2 H12. apply StronglySorted_app_2; [|exact H1|exact H2].
  intros x y Hx Hy. apply H12; apply list_elem_of_In; assumption.
Qed.

(** [ORDER BY timestamp DESC] of a table whose timestamps increase
    strictly is the table read backwards, whatever the tie-breaking. *)
Lemma order_desc_increasing (db : Db) :
  StronglySorted (fun a b => ch_timestamp a < ch_timestamp b)%Z db -> order_desc db = rev db.
Proof.
  intros Hs. apply (StronglySorted_unique_strong (fun a b => ch_timestamp b <= ch_timestamp a)%Z).
  - intros x1 x2 Hx1 Hx2 E1 E2. apply (increasing_timestamp_inj db); [exact Hs| | |lia].
    + apply (Permutation_in _ (order_desc_perm db)), list_elem_of_In, Hx1.
    + apply in_rev, list_elem_of_In, Hx2.
  - apply Sorted.Sorted_StronglySorted; [intros ???; lia|apply order_desc_sorted].
  - apply increasing_rev_desc, Hs.
  - rewrite order_desc_perm. apply Permutation_rev.
Qed.

Lemma sql_limit_map {A B : Type} (f : A -> B) (n : Z) (l : list A) :
  sql_limit n (map f l) = map f (sql_limit n l).
Proof. unfold sql_limit. destruct (n <? 0)%Z; [reflexivity|apply firstn_map]. Qed.

(** On such a table [/api/history] lists the last [limit] messages,
    newest first. *)
Lemma get_chat_history_increasing (db : Db) (limit : Z) :
  StronglySorted (fun a b => ch_timestamp a < ch_timestamp b)%Z db ->
  map he_user_message (fst (get_chat_history db limit)) = sql_limit limit (rev (map ch_user_message db)).
Proof.
  intros Hs. unfold get_chat_history. cbn [fst].
  rewrite order_desc_increasing, map_map, <- map_rev, sql_limit_map by exact Hs.
  reflexivity.
Qed.

End History.

Lemma insert_newest_perm (c : ChatRecord) (l : list ChatRecord) :
  Permutation (insert_newest c l) (c :: l).
Proof.
  induction l as [|x l IH]; cbn [insert_newest]; [reflexivity|].
  destruct (_ <=? _)%Z; [reflexivity|]. rewrite IH. apply perm_swap.
Qed.

Lemma insert_newest_sorted (c : ChatRecord) (l : list ChatRecord) :
  Sorted (fun a b => ch_timestamp b <= ch_timestamp a)%Z l ->
  Sorted (fun a b => ch_timestamp b <= ch_timestamp a)%Z (insert_newest c l).
Proof.
  induction l as [|y ys IH]; cbn [insert_newest]; intros Hs; [repeat constructor|].
  destruct (Z.leb_spec (ch_timestamp y) (ch_timestamp c)).
  - constructor; [exact Hs|]. constructor. lia.
  - inversion Hs as [|? ? Hs' Hhd]; subst. constructor; [apply IH, Hs'|].
    destruct ys as [|z zs]; cbn [insert_newest]; [constructor; lia|].
    destruct (Z.leb_spec (ch_timestamp z) (ch_timestamp c)); constructor;
      first [lia | inversion Hhd; assumption].
Qed.

#[export] Instance order_newest_HistoryOrder : HistoryOrder.
Proof.
  refine {| order_desc := order_newest |}; intros l; induction l as [|x l IH]; cbn [order_newest fold_right].
  - constructor.
  - fold (order_newest l). rewrite insert_newest_perm. constructor. exact IH.
  - constructor.
  - fold (order_newest l). apply insert_newest_sorted, IH.
Defined.

(** ** Witnesses and examples *)

Definition fixed_oracle (first second : Processed) : Oracle :=
  {| classify := fun n _ => Ok match n with 0%nat => first | _ => second end;
     compose := fun _ _ => "Gợi ý" |}.

Definition travel_prefs : Prefs := Pipeline.fixture_prefs.

Lemma chat_empty_message_500_witness :
  chat_endpoint Fixture.engine (fixed_oracle (Travel travel_prefs) (Travel travel_prefs)) []
    (mkChatRequest (Some "  　	") None "127.0.0.1") "uuid-1" 0 =
  (ChatFail 500 "400: Message cannot be empty" generic_failure_text, []).
Proof. apply chat_empty_message_500. vm_compute. reflexivity. Defined.

Lemma chat_endpoint_store_witness :
  exists resp db', chat_endpoint Fixture.engine (fixed_oracle (Refusal "no") (Refusal "no")) []
                     (mkChatRequest (Some " hi ") None "127.0.0.1") "uuid-1" 7 = (resp, db') /\
  match resp with
  | ChatFail _ _ _ => db' = []
  | ChatOk bot travel recs feat sid has =>
      has = (0 <? List.length recs)%nat /\
      db' = db_insert [] 7 (strip " hi ") bot feat recs "127.0.0.1" sid
  end.
Proof.
  do 2 eexists. split; [reflexivity|].
  apply (chat_endpoint_store Fixture.engine (fixed_oracle (Refusal "no") (Refusal "no")) [] (mkChatRequest (Some " hi ") None "127.0.0.1") "uuid-1" 7).
  reflexivity.
Defined.


Lemma reachable_records_ok_witness :
  exists db, reachable Fixture.engine (fixed_oracle (Refusal "no") (Refusal "no")) db /\
    List.Forall record_ok db.
Proof.
  set (o := fixed_oracle (Refusal "no") (Refusal "no")).
  set (req := mkChatRequest (Some " hello ") None "127.0.0.1").
  exists (snd (chat_endpoint Fixture.engine o [] req "u" 1)).
  assert (Hr : reachable Fixture.engine o (snd (chat_endpoint Fixture.engine o [] req "u" 1))).
  { apply (reach_step _ _ []); [constructor|].
    apply (step_chat _ _ [] req "u" 1 (fst (chat_endpoint Fixture.engine o [] req "u" 1))).
    reflexivity. }
  split; [exact Hr | apply (reachable_records_ok Fixture.engine o _ Hr)].
Defined.

(** The reply can contradict the classification: [generate_response]
    asks the language model again, so when the second answer is a
    refusal the handler returns the refusal text together with
    [is_travel_related = true] and non-empty recommendations. *)
Example chat_refusal_with_recommendations :
  exists recs db',
    chat_endpoint Fixture.engine (fixed_oracle (Travel travel_prefs) (Refusal "Tôi chỉ hỗ trợ về du lịch Việt Nam."))
      [] (mkChatRequest (Some "đi biển") None "127.0.0.1") "uuid-1" 3 =
    (ChatOk "Tôi chỉ hỗ trợ về du lịch Việt Nam." true recs (Extracted travel_prefs) "uuid-1" true, db') /\
    recs <> [].
Proof. do 2 eexists. split; [vm_compute; reflexivity | discriminate]. Qed.

End Endpoint.
