(* ===== verification/Json.v ===== *)
(** [json.loads] as the chatbot uses it, and the chatbot's extraction of
    the JSON object from the language model's text ([src/chatbot.py],
    [check_travel_topic] and [extract_travel_preferences]): the greedy
    [re.search(r'\{.*\}', content, re.DOTALL)], the two [re.sub]
    clean-ups, and the decoding.  Values are Python's: [dict]s keep the
    first position and the last value of a repeated key. *)

From S2P Require Import Prelude Text Regex.
From Stdlib Require Import NArith ZArith QArith Lia List String.
Import ListNotations Text Regex.

Module Json.

(** ** Values *)

#[warnings="-register-all"]
Inductive jvalue :=
| JNull
| JBool (b : bool)
| JNum (q : Q)
| JStr (s : ustring)
| JArr (l : list jvalue)
| JObj (d : list (ustring * jvalue)).

Definition dict : Type := list (ustring * jvalue).

Definition ueqb (a b : ustring) : bool := if list_eq_dec N.eq_dec a b then true else false.

(** [d[k] = v]. *)
Fixpoint dict_set (d : dict) (k : ustring) (v : jvalue) : dict :=
  match d with
  | [] => [(k, v)]
  | (k', v') :: d' => if ueqb k' k then (k, v) :: d' else (k', v') :: dict_set d' k v
  end.

Definition dict_lookup (d : dict) (k : ustring) : option jvalue :=
  option_map snd (find (fun kv => ueqb (fst kv) k) d).

(** [d.get(k, default)]. *)
Definition dict_get (d : dict) (k : ustring) (dflt : jvalue) : jvalue :=
  match dict_lookup d k with Some v => v | None => dflt end.


(** The exceptions the chatbot's dictionary handling raises. *)
Inductive py_error := TypeError (msg : string) | ValueError (msg : string).

(** ** The scanner *)

Inductive json_error := DecodeError | OutOfFuel.

Local Open Scope N_scope.

Definition is_json_ws (c : N) : bool := (c =? 32) || (c =? 9) || (c =? 10) || (c =? 13).

Definition skip_ws (s : ustring) : ustring := drop_while is_json_ws s.

Definition hex_val (c : N) : option N :=
  if between 48 57 c then Some (c - 48)
  else if between 97 102 c then Some (c - 87)
  else if between 65 70 c then Some (c - 55)
  else None.

Definition hex4 (a b c d : N) : option N :=
  match hex_val a, hex_val b, hex_val c, hex_val d with
  | Some x, Some y, Some z, Some w => Some (((x * 16 + y) * 16 + z) * 16 + w)
  | _, _, _, _ => None
  end.

(** The single-character escapes of [BACKSLASH]. *)
Definition simple_escape (c : N) : option N :=
  if c =? 34 then Some 34 else if c =? 92 then Some 92 else if c =? 47 then Some 47
  else if c =? 98 then Some 8 else if c =? 102 then Some 12 else if c =? 110 then Some 10
  else if c =? 114 then Some 13 else if c =? 116 then Some 9 else None.

(** [scanstring] with [strict=True], after the opening quote: the
    characters up to the closing quote, with the escapes decoded; a
    control character is an error; a [\uXXXX] high surrogate followed by
    a [\uXXXX] low surrogate is one character, otherwise it stands
    alone.  The characters are collected in reverse. *)
Fixpoint scan_string (s : ustring) (acc : ustring) : option (ustring * ustring) :=
  match s with
  | [] => None
  | c :: r =>
      if c =? 34 then Some (rev acc, r)
      else if c =? 92 then
        match r with
        | e :: r1 =>
            if e =? 117 then
              match r1 with
              | h1 :: h2 :: h3 :: h4 :: r2 =>
                  match hex4 h1 h2 h3 h4 with
                  | None => None
                  | Some hi =>
                      if between 0xD800 0xDBFF hi then
                        match r2 with
                        | b1 :: b2 :: l1 :: l2 :: l3 :: l4 :: r3 =>
                            if (b1 =? 92) && (b2 =? 117) then
                              match hex4 l1 l2 l3 l4 with
                              | None => None
                              | Some lo =>
                                  if between 0xDC00 0xDFFF lo
                                  then scan_string r3
                                         ((0x10000 + (hi - 0xD800) * 1024 + (lo - 0xDC00)) :: acc)
                                  else scan_string r2 (hi :: acc)
                              end
                            else scan_string r2 (hi :: acc)
                        | _ => scan_string r2 (hi :: acc)
                        end
                      else scan_string r2 (hi :: acc)
                  end
              | _ => None
              end
            else
              match simple_escape e with
              | Some d => scan_string r1 (d :: acc)
              | None => None
              end
        | [] => None
        end
      else if c <? 32 then None
      else scan_string r (c :: acc)
  end.

Local Close Scope N_scope.

Definition digits_value (ds : ustring) : Z :=
  fold_left (fun acc c => (acc * 10 + (Z.of_N c - 48))%Z) ds 0%Z.

(** The scanner's [NUMBER_RE]: an optional minus sign and an integer
    part ([0], or a non-zero digit and digits), then an optional fraction
    (a dot and digits) and an optional exponent ([e] or [E], a sign,
    digits), each taken only when its digits follow. *)
Definition scan_number (s : ustring) : option (Q * ustring) :=
  let '(neg, s1) := match s with 45%N :: r => (true, r) | _ => (false, s) end in
  let int_part :=
    match s1 with
    | 48%N :: r => Some ([48%N], r)
    | c :: _ => if is_digit c then Some (take_while is_digit s1, drop_while is_digit s1) else None
    | [] => None
    end in
  match int_part with
  | None => None
  | Some (ids, r1) =>
      let '(frac, r2) :=
        match r1 with
        | 46%N :: r => match take_while is_digit r with
                       | [] => ([], r1)
                       | fds => (fds, drop_while is_digit r)
                       end
        | _ => ([], r1)
        end in
      let '(ex, r3) :=
        match r2 with
        | e :: r =>
            if (N.eqb e 101 || N.eqb e 69)%bool then
              let '(eneg, r') := match r with
                                 | 45%N :: r' => (true, r')
                                 | 43%N :: r' => (false, r')
                                 | _ => (false, r)
                                 end in
              match take_while is_digit r' with
              | [] => (0%Z, r2)
              | eds => ((if eneg then - digits_value eds else digits_value eds)%Z,
                        drop_while is_digit r')
              end
            else (0%Z, r2)
        | [] => (0%Z, r2)
        end in
      let mag := (inject_Z (digits_value ids)
                  + inject_Z (digits_value frac) / inject_Z (10 ^ Z.of_nat (List.length frac)))
                 * Qpower (inject_Z 10) ex in
      Some (if neg then - mag else mag, r3)
  end.

Definition strip_lit (lit s : ustring) : option ustring :=
  if ueqb (firstn (List.length lit) s) lit then Some (skipn (List.length lit) s) else None.

(** [scan_once], [JSONArray] and [JSONObject], with fuel: every call
    of [parse_value] reads a character before it calls [parse_elems] or
    [parse_members], and these read one before they call themselves. *)
(** The first character of a text, when it is [c]: the rest. *)
Definition after (c : N) (s : ustring) : option ustring :=
  match s with
  | d :: r => if N.eqb d c then Some r else None
  | [] => None
  end.

Fixpoint parse_value (fuel : nat) (s : ustring) : result (jvalue * ustring) json_error :=
  match fuel with
  | O => Err OutOfFuel
  | S f =>
      match after 34 s with
      | Some r =>
          match scan_string r [] with
          | Some (str, r') => Ok (JStr str, r')
          | None => Err DecodeError
          end
      | None =>
      match after 123 s with
      | Some r =>
          match after 125 (skip_ws r) with
          | Some r' => Ok (JObj [], r')
          | None => parse_members f (skip_ws r) []
          end
      | None =>
      match after 91 s with
      | Some r =>
          match after 93 (skip_ws r) with
          | Some r' => Ok (JArr [], r')
          | None => parse_elems f (skip_ws r) []
          end
      | None =>
          match strip_lit (u "null"%string) s with
          | Some r => Ok (JNull, r)
          | None =>
              match strip_lit (u "true"%string) s with
              | Some r => Ok (JBool true, r)
              | None =>
                  match strip_lit (u "false"%string) s with
                  | Some r => Ok (JBool false, r)
                  | None =>
                      match scan_number s with
                      | Some (q, r) => Ok (JNum q, r)
                      | None => Err DecodeError
                      end
                  end
              end
          end
      end
      end
      end
  end
with parse_elems (fuel : nat) (s : ustring) (acc : list jvalue)
  : result (jvalue * ustring) json_error :=
  match fuel with
  | O => Err OutOfFuel
  | S f =>
      match parse_value f s with
      | Ok (v, r) =>
          match after 44 (skip_ws r) with
          | Some r' => parse_elems f (skip_ws r') (v :: acc)
          | None =>
              match after 93 (skip_ws r) with
              | Some r' => Ok (JArr (rev (v :: acc)), r')
              | None => Err DecodeError
              end
          end
      | Err e => Err e
      end
  end
with parse_members (fuel : nat) (s : ustring) (d : dict) : result (jvalue * ustring) json_error :=
  match fuel with
  | O => Err OutOfFuel
  | S f =>
      match after 34 s with
      | Some r =>
          match scan_string r [] with
          | Some (k, r1) =>
              match after 58 (skip_ws r1) with
              | Some r2 =>
                  match parse_value f (skip_ws r2) with
                  | Ok (v, r3) =>
                      match after 44 (skip_ws r3) with
                      | Some r4 => parse_members f (skip_ws r4) (dict_set d k v)
                      | None =>
                          match after 125 (skip_ws r3) with
                          | Some r4 => Ok (JObj (dict_set d k v), r4)
                          | None => Err DecodeError
                          end
                      end
                  | Err e => Err e
                  end
              | None => Err DecodeError
              end
          | None => Err DecodeError
          end
      | None => Err DecodeError
      end
  end.

(** [json.loads(s)]: a leading byte order mark is refused; white space
    around the value; anything after it is "Extra data". *)
Definition json_loads_go (s : ustring) : result jvalue json_error :=
  match after 0xFEFF s with
  | Some _ => Err DecodeError
  | None =>
      let s0 := skip_ws s in
      match parse_value (2 * List.length s0 + 1) s0 with
      | Ok (v, r) => match skip_ws r with [] => Ok v | _ => Err DecodeError end
      | Err e => Err e
      end
  end.

(** A JSON text written with ['] for the double quote, which a Rocq
    string literal cannot hold on its own. *)
Definition jtext (s : string) : ustring := map (fun c => if N.eqb c 39 then 34%N else c) (u s).

(** ** The chatbot's JSON extraction *)

(** [content.strip()], [re.search(r'\{.*\}', content, re.DOTALL)],
    [json_match.group()], [re.sub(r'\n\s*', ' ', json_str)],
    [re.sub(r',\s*}', '}', json_str)] and [json.loads(json_str)]:
    [Ok None] when there is no match, an error when the text does not
    decode. *)
Definition decode_answer (content : ustring) : result (option jvalue) json_error :=
  let c := Text.strip content in
  match search (dotall (rx "\{.*\}"%string)) c with
  | None => Ok None
  | Some mt =>
      let js := captured (mr_start mt) (mr_end mt) in
      let js := re_sub (rx "\n\s*"%string) (u " "%string) js in
      let js := re_sub (rx ",\s*}"%string) (u "}"%string) js in
      match json_loads_go js with
      | Ok v => Ok (Some v)
      | Err e => Err e
      end
  end.

(** The dictionary the model's text holds, or [None] for the fallback:
    no match, a [JSONDecodeError], or (never, the text starting with a
    brace) a value that is not an object. *)
Definition extract_json (content : ustring) : option dict :=
  match decode_answer content with
  | Ok (Some (JObj d)) => Some d
  | _ => None
  end.

(** ** The decoder always decides *)

Local Abbreviation length := List.length.
Local Open Scope nat_scope.

Lemma drop_while_length (f : N -> bool) (s : ustring) : length (drop_while f s) <= length s.
Proof. induction s as [|c s IH]; cbn; [lia|]. destruct (f c); cbn; lia. Qed.

Lemma skip_ws_length (s : ustring) : length (skip_ws s) <= length s.
Proof. apply drop_while_length. Qed.

Lemma after_length (c : N) (s r : ustring) : after c s = Some r -> length r < length s.
Proof.
  destruct s as [|d s]; cbn; [discriminate|].
  destruct (N.eqb d c); [intros [= <-]; lia | discriminate].
Qed.

Lemma strip_lit_length (lit s r : ustring) :
  lit <> [] -> strip_lit lit s = Some r -> length r < length s.
Proof.
  unfold strip_lit, ueqb. intros Hl.
  destruct (list_eq_dec N.eq_dec (firstn (length lit) s) lit) as [E|]; [|discriminate].
  intros [= <-]. rewrite length_skipn.
  assert (length (firstn (length lit) s) = length lit) as Hf by (rewrite E; reflexivity).
  rewrite length_firstn in Hf. destruct lit as [|c lit]; [contradiction|].
  simpl length in *. lia.
Qed.

Lemma scan_string_length (n : nat) (s acc x r : ustring) :
  length s <= n -> scan_string s acc = Some (x, r) -> length r < length s.
Proof.
  revert s acc x r. induction n as [|n IH]; intros [|c r0] acc x r Hl H; cbn in Hl; try lia;
    cbn in H; try discriminate.
  repeat match type of H with
    | context [if ?b then _ else _] => destruct b
    | context [match ?l with [] => _ | _ :: _ => _ end] => destruct l
    | context [match ?o with Some _ => _ | None => _ end] => destruct o
    end;
    try discriminate;
    try (injection H as _ <-; cbn; lia);
    (eapply IH in H; cbn in *; lia).
Qed.

Lemma scan_number_length (s r : ustring) (q : Q) :
  scan_number s = Some (q, r) -> length r < length s.
Proof.
  unfold scan_number. intros H.
  assert (Hs1 : forall neg s1, (neg, s1) = match s with 45%N :: r => (true, r) | _ => (false, s) end ->
            length s1 <= length s)
    by (intros neg s1; destruct s as [|c t]; [intros [= _ ->]; lia|];
        destruct c as [|[p|p|]]; try (intros [= _ ->]; lia);
        repeat (destruct p as [p|p|]; try (intros [= _ ->]; cbn; lia))).
  destruct (match s with 45%N :: r => (true, r) | _ => (false, s) end) as [neg s1] eqn:E1.
  specialize (Hs1 neg s1 eq_refl).
  destruct s1 as [|c t]; [discriminate|].
  assert (Hint : forall ids r1, Some (ids, r1) = match c :: t with
                                  | 48%N :: r => Some ([48%N], r)
                                  | c :: _ => if is_digit c then Some (take_while is_digit (c :: t),
                                                drop_while is_digit (c :: t)) else None
                                  | [] => None end -> length r1 < length (c :: t)).
  { intros ids r1. pose proof (drop_while_length is_digit t).
    destruct c as [|[p|p|]]; cbn;
      try (destruct (is_digit _); [intros [= _ ->]; cbn; try destruct (is_digit _); cbn; lia | discriminate]).
    all: repeat (destruct p as [p|p|]; cbn;
      try (destruct (is_digit _); [intros [= _ ->]; cbn; try destruct (is_digit _); cbn; lia | discriminate]));
      try (intros [= _ ->]; lia). }
  destruct (match c :: t with
            | 48%N :: r => Some ([48%N], r)
            | c :: _ => if is_digit c then Some (take_while is_digit (c :: t),
                          drop_while is_digit (c :: t)) else None
            | [] => None end) as [[ids r1]|] eqn:E2; [|discriminate].
  specialize (Hint ids r1 eq_refl).
  destruct (match r1 with
            | 46%N :: r => match take_while is_digit r with
                           | [] => ([], r1)
                           | fds => (fds, drop_while is_digit r)
                           end
            | _ => ([], r1) end) as [frac r2] eqn:E3.
  assert (H2 : length r2 <= length r1).
  { revert E3. destruct r1 as [|d t1]; [intros [= _ <-]; lia|].
    pose proof (drop_while_length is_digit t1).
    destruct d as [|[p|p|]]; try (intros [= _ <-]; lia);
      repeat (destruct p as [p|p|]; try (intros [= _ <-]; lia));
      destruct (take_while is_digit t1); intros [= _ <-]; cbn; lia. }
  destruct (match r2 with
            | e :: r =>
                if (N.eqb e 101 || N.eqb e 69)%bool then
                  let '(eneg, r') := match r with
                                     | 45%N :: r' => (true, r')
                                     | 43%N :: r' => (false, r')
                                     | _ => (false, r)
                                     end in
                  match take_while is_digit r' with
                  | [] => (0%Z, r2)
                  | eds => ((if eneg then - digits_value eds else digits_value eds)%Z,
                            drop_while is_digit r')
                  end
                else (0%Z, r2)
            | [] => (0%Z, r2) end) as [ex r3] eqn:E4.
  assert (H3 : length r3 <= length r2).
  { revert E4. destruct r2 as [|e t2]; [intros [= _ <-]; lia|].
    destruct (N.eqb e 101 || N.eqb e 69)%bool; [|intros [= _ <-]; lia].
    destruct (match t2 with
              | 45%N :: r' => (true, r')
              | 43%N :: r' => (false, r')
              | _ => (false, t2) end) as [eneg r'] eqn:E5.
    assert (length r' <= length t2).
    { revert E5. destruct t2 as [|d t3]; [intros [= _ <-]; lia|].
      destruct d as [|[p|p|]]; try (intros [= _ <-]; cbn; lia);
        repeat (destruct p as [p|p|]; try (intros [= _ <-]; cbn; lia)). }
    pose proof (drop_while_length is_digit r').
    destruct (take_while is_digit r'); intros [= _ <-]; cbn; lia. }
  injection H as _ <-. lia.
Qed.

Lemma parse_fuel (F : nat) :
  (forall s, 2 * length s + 1 <= F ->
     parse_value F s <> Err OutOfFuel /\
     forall v r, parse_value F s = Ok (v, r) -> length r < length s) /\
  (forall s acc, 2 * length s + 2 <= F ->
     parse_elems F s acc <> Err OutOfFuel /\
     forall v r, parse_elems F s acc = Ok (v, r) -> length r < length s) /\
  (forall s d, 2 * length s + 2 <= F ->
     parse_members F s d <> Err OutOfFuel /\
     forall v r, parse_members F s d = Ok (v, r) -> length r < length s).
Proof.
  induction F as [|f (IHv & IHe & IHm)]; [repeat split; intros; lia|].
  split; [|split].
  - intros s Hs. cbn [parse_value].
    destruct (after 34 s) as [r|] eqn:E1.
    { apply after_length in E1.
      destruct (scan_string r []) as [[str r']|] eqn:E2; split; try discriminate.
      intros v r0 [= <- <-]. apply (scan_string_length (length r)) in E2; lia. }
    destruct (after 123 s) as [r|] eqn:E2.
    { apply after_length in E2. pose proof (skip_ws_length r).
      destruct (after 125 (skip_ws r)) as [r'|] eqn:E3.
      - split; [discriminate|]. intros v r0 [= <- <-]. apply after_length in E3. lia.
      - destruct (IHm (skip_ws r) [] ltac:(lia)) as [G1 G2].
        split; [exact G1|]. intros v r0 Hr. apply G2 in Hr. lia. }
    destruct (after 91 s) as [r|] eqn:E3.
    { apply after_length in E3. pose proof (skip_ws_length r).
      destruct (after 93 (skip_ws r)) as [r'|] eqn:E4.
      - split; [discriminate|]. intros v r0 [= <- <-]. apply after_length in E4. lia.
      - destruct (IHe (skip_ws r) [] ltac:(lia)) as [G1 G2].
        split; [exact G1|]. intros v r0 Hr. apply G2 in Hr. lia. }
    destruct (strip_lit (u "null"%string) s) as [r|] eqn:E4.
    { split; [discriminate|]. intros v r0 [= <- <-].
      apply strip_lit_length in E4; [exact E4 | discriminate]. }
    destruct (strip_lit (u "true"%string) s) as [r|] eqn:E5.
    { split; [discriminate|]. intros v r0 [= <- <-].
      apply strip_lit_length in E5; [exact E5 | discriminate]. }
    destruct (strip_lit (u "false"%string) s) as [r|] eqn:E6.
    { split; [discriminate|]. intros v r0 [= <- <-].
      apply strip_lit_length in E6; [exact E6 | discriminate]. }
    destruct (scan_number s) as [[q r]|] eqn:E7; split; try discriminate.
    intros v r0 [= <- <-]. exact (scan_number_length _ _ _ E7).
  - intros s acc Hs. cbn [parse_elems].
    destruct (IHv s ltac:(lia)) as [Hv1 Hv2].
    destruct (parse_value f s) as [[v r]|e] eqn:E; [|split; [congruence | discriminate]].
    specialize (Hv2 v r eq_refl). pose proof (skip_ws_length r).
    destruct (after 44 (skip_ws r)) as [r'|] eqn:E1.
    + apply after_length in E1. pose proof (skip_ws_length r').
      destruct (IHe (skip_ws r') (v :: acc) ltac:(lia)) as [G1 G2].
      split; [exact G1|]. intros v0 r0 Hr. apply G2 in Hr. lia.
    + destruct (after 93 (skip_ws r)) as [r'|] eqn:E2; split; try discriminate.
      intros v0 r0 [= <- <-]. apply after_length in E2. lia.
  - intros s d Hs. cbn [parse_members].
    destruct (after 34 s) as [r|] eqn:E1; [|split; discriminate].
    apply after_length in E1.
    destruct (scan_string r []) as [[k r1]|] eqn:E2; [|split; discriminate].
    apply (scan_string_length (length r)) in E2; [|lia]. pose proof (skip_ws_length r1).
    destruct (after 58 (skip_ws r1)) as [r2|] eqn:E3; [|split; discriminate].
    apply after_length in E3. pose proof (skip_ws_length r2).
    destruct (IHv (skip_ws r2) ltac:(lia)) as [Hv1 Hv2].
    destruct (parse_value f (skip_ws r2)) as [[v r3]|e] eqn:E4; [|split; [congruence | discriminate]].
    specialize (Hv2 v r3 eq_refl). pose proof (skip_ws_length r3).
    destruct (after 44 (skip_ws r3)) as [r4|] eqn:E5.
    + apply after_length in E5. pose proof (skip_ws_length r4).
      destruct (IHm (skip_ws r4) (dict_set d k v) ltac:(lia)) as [G1 G2].
      split; [exact G1|]. intros v0 r0 Hr. apply G2 in Hr. lia.
    + destruct (after 125 (skip_ws r3)) as [r4|] eqn:E6; split; try discriminate.
      intros v0 r0 [= <- <-]. apply after_length in E6. lia.
Qed.

Lemma json_loads_go_decides (s : ustring) : json_loads_go s <> Err OutOfFuel.
Proof.
  unfold json_loads_go. destruct (after _ s); [discriminate|].
  destruct (proj1 (parse_fuel (2 * length (skip_ws s) + 1)) (skip_ws s) ltac:(lia)) as [H _].
  destruct (parse_value _ _) as [[v r]|e] eqn:E; [destruct (skip_ws r); discriminate | congruence].
Qed.

(** The patterns of the extraction parse. *)
Lemma decode_patterns_parse : forallb parses ["\{.*\}"; "\n\s*"; ",\s*}"]%string = true.
Proof. vm_compute. reflexivity. Qed.

End Json.
