(* ===== verification/Prompt.v ===== *)
(** Python's [str.format] with keyword arguments, and the two prompt
    templates of [TravelChatbot.__init__] ([src/chatbot.py]) that
    [check_travel_topic] and [extract_travel_preferences] format with
    [user_input] inside their [try].  The template is scanned the way
    CPython's [MarkupIterator_next] and [parse_field] scan it: literal
    text, a doubled brace for a brace, and a replacement field made of a
    field name (brackets quote their content), an optional [!]
    conversion and an optional [:] format spec with nested braces; the
    field's object is looked up as [get_field_object] does. *)

From S2P Require Import Prelude Text Json.
From Stdlib Require Import NArith List String.
Import ListNotations Text Json.

Module Prompt.

Local Open Scope N_scope.
Local Open Scope bool_scope.

(** The exceptions of [str.format].  [FmtUnsupported] marks a field the
    model does not render: attribute or index access on the argument,
    the conversions [!r] and [!a], nested fields in the format spec or a
    non-empty format spec. *)
Inductive fmt_error :=
| FmtKeyError (key : ustring)
| FmtIndexError
| FmtValueError (msg : string)
| FmtUnsupported.

(** Where the scan is: in literal text; after a brace of the literal
    loop; in the field name, inside brackets or not; after [!]; after
    the conversion character; in the format spec, at a nesting depth.
    Names and specs are collected in reverse. *)
Inductive fstate :=
| Lit
| Brace (b : N)
| Name (inb : bool) (name : ustring)
| Conv (name : ustring)
| AfterConv (name : ustring) (conv : N)
| Spec (name : ustring) (conv : option N) (depth : nat) (expand : bool) (spec : ustring).

(** The first part of a field name, up to a [.] or a [[]. *)
Fixpoint split_first (s : ustring) : ustring * ustring :=
  match s with
  | [] => ([], [])
  | c :: r => if (c =? 46) || (c =? 91) then ([], s) else let '(a, b) := split_first r in (c :: a, b)
  end.

(** [get_field_object] with no positional argument: an empty first
    part is the automatic index 0 and a decimal one an index, both out
    of range; a name is looked up among the keyword arguments. *)
Definition get_field (kw : list (ustring * ustring)) (name : ustring) : result ustring fmt_error :=
  let '(first, rest) := split_first name in
  match first with
  | [] => Err FmtIndexError
  | _ =>
      if forallb is_digit first then Err FmtIndexError
      else match find (fun kv => ueqb (fst kv) first) kw with
           | None => Err (FmtKeyError first)
           | Some (_, v) => match rest with [] => Ok v | _ => Err FmtUnsupported end
           end
  end.

(** [render_field]: the object, its conversion ([!s] is the identity on
    a [str]), and its format spec. *)
Definition render_field (kw : list (ustring * ustring)) (name : ustring) (conv : option N)
    (expand : bool) (spec : ustring) : result ustring fmt_error :=
  (let? v := get_field kw name in
   let? v := match conv with
             | None => Ok v
             | Some c =>
                 if c =? 115 then Ok v
                 else if (c =? 114) || (c =? 97) then Err FmtUnsupported
                 else Err (FmtValueError ("Unknown conversion specifier " ++ string_of_ustring [c])%string)
             end in
   if expand then Err FmtUnsupported
   else match spec with [] => Ok v | _ => Err FmtUnsupported end)%engine.

Definition finish_field (kw : list (ustring * ustring)) (name : ustring) (conv : option N)
    (expand : bool) (spec : ustring) : result (fstate * ustring) fmt_error :=
  (let? v := render_field kw (rev name) conv expand (rev spec) in Ok (Lit, v))%engine.

(** One character of the field-name loop of [parse_field]: inside
    brackets everything up to [']'] belongs to the name; [}], [:] and
    [!] end it. *)
Definition name_step (kw : list (ustring * ustring)) (inb : bool) (name : ustring) (c : N)
  : result (fstate * ustring) fmt_error :=
  if inb then Ok (Name (negb (c =? 93)) (c :: name), [])
  else if c =? 123 then Err (FmtValueError "unexpected '{' in field name")
  else if c =? 91 then Ok (Name true (c :: name), [])
  else if c =? 125 then finish_field kw name None false []
  else if c =? 58 then Ok (Spec name None 1 false [], [])
  else if c =? 33 then Ok (Conv name, [])
  else Ok (Name false (c :: name), []).

(** One character of the template: the next state and the text it
    emits. *)
Definition step (kw : list (ustring * ustring)) (st : fstate) (c : N)
  : result (fstate * ustring) fmt_error :=
  match st with
  | Lit => if (c =? 123) || (c =? 125) then Ok (Brace c, []) else Ok (Lit, [c])
  | Brace b =>
      if c =? b then Ok (Lit, [b])
      else if b =? 125 then Err (FmtValueError "Single '}' encountered in format string")
      else name_step kw false [] c
  | Name inb name => name_step kw inb name c
  | Conv name => Ok (AfterConv name c, [])
  | AfterConv name conv =>
      if c =? 125 then finish_field kw name (Some conv) false []
      else if c =? 58 then Ok (Spec name (Some conv) 1 false [], [])
      else Err (FmtValueError "expected ':' after conversion specifier")
  | Spec name conv depth expand spec =>
      if c =? 123 then Ok (Spec name conv (S depth) true (c :: spec), [])
      else if c =? 125 then
        match depth with
        | S O => finish_field kw name conv expand spec
        | _ => Ok (Spec name conv (pred depth) expand (c :: spec), [])
        end
      else Ok (Spec name conv depth expand (c :: spec), [])
  end.

(** The end of the template in each state. *)
Definition at_end (st : fstate) (out : ustring) : result ustring fmt_error :=
  match st with
  | Lit => Ok out
  | Brace b =>
      if b =? 125 then Err (FmtValueError "Single '}' encountered in format string")
      else Err (FmtValueError "Single '{' encountered in format string")
  | Name _ _ => Err (FmtValueError "expected '}' before end of string")
  | Conv _ => Err (FmtValueError "end of string while looking for conversion specifier")
  | AfterConv _ _ | Spec _ _ _ _ _ => Err (FmtValueError "unmatched '{' in format spec")
  end.

Fixpoint format_go (kw : list (ustring * ustring)) (st : fstate) (s out : ustring)
  : result ustring fmt_error :=
  match s with
  | [] => at_end st out
  | c :: r =>
      match step kw st c with
      | Ok (st', w) => format_go kw st' r (out ++ w)
      | Err e => Err e
      end
  end.

(** [template.format] with the keyword arguments [kw]. *)
Definition py_format (template : ustring) (kw : list (ustring * ustring)) : result ustring fmt_error :=
  format_go kw Lit template [].

Local Close Scope N_scope.

(** ** The templates, verbatim (['] stands for the double quote) *)

(** [self.topic_check_prompt]. *)
Definition topic_check_prompt : ustring := jtext "
        Bạn là một AI chuyên phân tích chủ đề câu hỏi của người dùng.
        Hãy xác định xem câu hỏi sau có liên quan đến du lịch Việt Nam hay không.

        Câu hỏi: '{user_input}'

        Các chủ đề ĐƯỢC CHẤP NHẬN (liên quan đến du lịch):
        - Hỏi về địa điểm du lịch, thành phố, tỉnh thành Việt Nam
        - Hỏi về thời tiết, khí hậu cho du lịch
        - Hỏi về thời gian du lịch (tháng, mùa)
        - Hỏi về loại địa hình (biển, núi, đồng bằng)
        - Hỏi về vùng miền (Bắc, Trung, Nam)
        - Hỏi về điều kiện thời tiết mong muốn (nhiệt độ, gió, độ ẩm, tầm nhìn)
        - Gợi ý nơi đi chơi, nghỉ dưỡng
        - Lập kế hoạch du lịch

        Các chủ đề KHÔNG ĐƯỢC CHẤP NHẬN (không liên quan đến du lịch):
        - Toán học, vật lý, hóa học
        - Lịch sử, địa lý (không liên quan đến du lịch)
        - Tin học, lập trình, công nghệ
        - Y học, sức khỏe
        - Kinh tế, chính trị, xã hội
        - Giáo dục, học tập
        - Thể thao (không liên quan đến du lịch thể thao)
        - Ẩm thực (trừ khi hỏi về ẩm thực địa phương cho du lịch)
        - Mua sắm (trừ khi hỏi về mua sắm du lịch)
        - Người nổi tiếng, hoặc khi hỏi về danh tính của một nhân vật nào đó
        - Các câu hỏi chung chung không rõ ràng

        Trả về JSON với format:
        {
            'is_travel_related': true/false,
            'confidence': 0.0-1.0,
            'reason': 'lý do ngắn gọn'
        }

        Chỉ trả về JSON, không có text khác.
        ".

(** [self.extraction_prompt]. *)
Definition extraction_prompt : ustring := jtext "
        Bạn là một AI chuyên phân tích yêu cầu du lịch của người dùng.
        Hãy phân tích câu hỏi sau và trích xuất thông tin về điều kiện thời tiết mong muốn, vùng miền, địa hình, và thời gian.

        Câu hỏi: '{user_input}'

        QUAN TRỌNG: Hãy chú ý đặc biệt đến THÁNG được đề cập trong câu hỏi.

        Hãy trả về kết quả dưới dạng JSON với các trường sau:
        - avgtemp_c: nhiệt độ trung bình mong muốn (°C) - số thực từ 15-35
        - maxwind_kph: tốc độ gió tối đa mong muốn (km/h) - số thực từ 5-30
        - totalprecip_mm: lượng mưa mong muốn (mm) - số thực từ 0-30
        - avghumidity: độ ẩm trung bình mong muốn (%) - số thực từ 50-90
        - cloud_cover_mean: độ che phủ mây mong muốn (%) - số thực từ 0-100
        - month: tháng du lịch (1-12) - PHẢI trích xuất chính xác từ câu hỏi, nếu không có thì null
        - region: vùng miền mong muốn - nếu có đề cập, nếu không thì null
        - terrain: địa hình mong muốn - nếu có đề cập, nếu không thì null
        - preferences: mô tả ngắn gọn về sở thích du lịch

        Quy tắc trích xuất chi tiết:

        THÁNG:
        - 'tháng 1' hoặc 'tháng một' -> 1
        - 'tháng 2' hoặc 'tháng hai' -> 2
        - 'tháng 3' hoặc 'tháng ba' -> 3
        - 'tháng 4' hoặc 'tháng tư' -> 4
        - 'tháng 5' hoặc 'tháng năm' -> 5
        - 'tháng 6' hoặc 'tháng sáu' -> 6
        - 'tháng 7' hoặc 'tháng bảy' -> 7
        - 'tháng 8' hoặc 'tháng tám' -> 8
        - 'tháng 9' hoặc 'tháng chín' -> 9
        - 'tháng 10' hoặc 'tháng mười' -> 10
        - 'tháng 11' hoặc 'tháng mười một' -> 11
        - 'tháng 12' hoặc 'tháng mười hai' -> 12
        - 'mùa xuân' -> 2, 'mùa hè' -> 6, 'mùa thu' -> 9, 'mùa đông' -> 12
        - 'mùa khô' -> 4, 'mùa mưa' -> 8

        NHIỆT ĐỘ (avgtemp_c):
        - '20 độ', '20°C', '20 độ C' -> 20
        - 'mát mẻ', 'se lạnh' -> 20
        - 'nóng', 'ấm áp' -> 30
        - 'ôn hòa', 'dễ chịu' -> 25
        - 'lạnh' -> 18

        GIÓ (maxwind_kph):
        - '10 km/h', '10km/h', '10 kmh' -> 10
        - 'gió nhẹ', 'ít gió' -> 8
        - 'gió mạnh' -> 25
        - 'không thích gió mạnh' -> 10

        ĐỘ ẨM (avghumidity):
        - '60%', '60 phần trăm' -> 60
        - 'khô ráo', 'khô' -> 55
        - 'ẩm ướt', 'ẩm' -> 80
        - 'vừa phải' -> 70

        LƯỢNG MƯA (totalprecip_mm):
        - 'ít mưa', 'khô ráo' -> 10
        - 'mưa vừa', 'bình thường' -> 20
        - 'mưa nhiều', 'mùa mưa' -> 30
        - 'không mưa' -> 0

        ĐỘ CHE PHỦ MÂY (cloud_cover_mean):
        - 'ít mây', 'trời quang' -> 20
        - 'mây vừa', 'bình thường' -> 50
        - 'nhiều mây', 'u ám' -> 80
        - 'trời trong' -> 10

        VÙNG MIỀN (region):
        - 'miền Bắc', 'Bắc Bộ', 'phía Bắc' -> 'Trung du và miền núi Bắc Bộ' hoặc 'Đồng bằng sông Hồng'
        - 'miền Nam', 'Nam Bộ', 'phía Nam' -> 'Đồng bằng sông Cửu Long' hoặc 'Đông Nam Bộ'
        - 'miền Trung', 'Trung Bộ', 'phía Trung' -> 'Bắc Trung Bộ và Duyên hải miền Trung'
        - 'Tây Nguyên', 'cao nguyên' -> 'Tây Nguyên'
        - 'đồng bằng sông Hồng', 'Hà Nội', 'Hải Phòng' -> 'Đồng bằng sông Hồng'
        - 'đồng bằng sông Cửu Long', 'Mekong', 'Cần Thơ', 'An Giang', 'miền Tây', 'phía Tây' -> 'Đồng bằng sông Cửu Long'

        ĐỊA HÌNH (terrain):
        - 'miền núi', 'núi', 'vùng núi', 'cao', 'leo núi' -> 'miền núi'
        - 'ven biển', 'biển', 'bãi biển', 'tắm biển', 'gần biển', 'du lịch biển' -> 'ven biển'
        - 'đồng bằng', 'bằng phẳng', 'đồng ruộng', 'nông thôn', 'cánh đồng', 'thôn quê' -> 'đồng bằng'

        Ví dụ:
        - 'Tôi muốn đi chơi vào tháng 11' -> {{'avgtemp_c': 25, 'maxwind_kph': 15, 'totalprecip_mm': 20, 'avghumidity': 70, 'cloud_cover_mean': 50, 'month': 11, 'region': null, 'terrain': null, 'preferences': 'du lịch tháng 11'}}
        - 'Tôi muốn nơi mát mẻ 20 độ C vào tháng 12' -> {{'avgtemp_c': 20, 'maxwind_kph': 15, 'totalprecip_mm': 10, 'avghumidity': 70, 'cloud_cover_mean': 40, 'month': 12, 'region': null, 'terrain': null, 'preferences': 'nơi mát mẻ 20°C tháng 12'}}
        - 'Du lịch biển miền Trung mùa hè' -> {{'avgtemp_c': 28, 'maxwind_kph': 20, 'totalprecip_mm': 30, 'avghumidity': 75, 'cloud_cover_mean': 60, 'month': null, 'region': 'Bắc Trung Bộ và Duyên hải miền Trung', 'terrain': 'ven biển', 'preferences': 'du lịch biển miền Trung mùa hè'}}
        - 'Tôi thích leo núi ở Tây Nguyên' -> {{'avgtemp_c': 25, 'maxwind_kph': 15, 'totalprecip_mm': 20, 'avghumidity': 70, 'cloud_cover_mean': 50, 'month': null, 'region': 'Tây Nguyên', 'terrain': 'miền núi', 'preferences': 'leo núi Tây Nguyên'}}
        - 'Nơi đồng bằng miền Nam, khô ráo' -> {{'avgtemp_c': 25, 'maxwind_kph': 15, 'totalprecip_mm': 10, 'avghumidity': 55, 'cloud_cover_mean': 30, 'month': null, 'region': 'Đồng bằng sông Cửu Long', 'terrain': 'đồng bằng', 'preferences': 'đồng bằng miền Nam khô ráo'}}
        - 'Tôi muốn đi biển ở miền Bắc' -> {{'avgtemp_c': 25, 'maxwind_kph': 15, 'totalprecip_mm': 20, 'avghumidity': 70, 'cloud_cover_mean': 50, 'month': null, 'region': 'Bắc Trung Bộ và Duyên hải miền Trung', 'terrain': 'ven biển', 'preferences': 'biển miền Bắc'}}
        - 'Nơi nóng 30 độ, ít mưa, trời quang' -> {{'avgtemp_c': 30, 'maxwind_kph': 15, 'totalprecip_mm': 10, 'avghumidity': 60, 'cloud_cover_mean': 20, 'month': null, 'region': null, 'terrain': null, 'preferences': 'nóng 30°C, ít mưa, trời quang'}}

        Chỉ trả về JSON, không có text khác.
        ".

(** The key [str.format] looks up for the JSON example of
    [topic_check_prompt]: the text after its single [{] up to the first
    [:]. *)
Definition topic_example_key : ustring :=
  10%N :: repeat 32%N 12 ++ jtext "'is_travel_related'"%string.

Definition is_ok {A E : Type} (r : result A E) : bool :=
  match r with Ok _ => true | Err _ => false end.

(** ** The formatted prompts *)

(** The topic prompt writes its JSON example with single braces, so
    [str.format] reads it as a replacement field named after the text
    up to its first colon, and raises [KeyError] whatever the user
    wrote. *)
Lemma topic_check_prompt_KeyError (x : ustring) :
  py_format topic_check_prompt [(u "user_input"%string, x)] = Err (FmtKeyError topic_example_key).
Proof. vm_compute. reflexivity. Qed.

(** The extraction prompt doubles its braces and formats for every
    input. *)
Lemma extraction_prompt_formats (x : ustring) :
  exists p, py_format extraction_prompt [(u "user_input"%string, x)] = Ok p.
Proof.
  assert (H : is_ok (py_format extraction_prompt [(u "user_input"%string, x)]) = true)
    by (vm_compute; reflexivity).
  destruct (py_format _ _); [eauto | discriminate].
Qed.

End Prompt.
