(* ===== verification/Extract.v ===== *)
(** The chatbot's preference extraction ([src/chatbot.py]):
    [_extract_fallback], the regular-expression extraction of each
    preference from the lower-cased message, [_get_default_preferences],
    [_get_default_preferences_with_fallback], and
    [extract_travel_preferences], which merges the language model's
    answer with the fallback extractions and validates the result.  The
    language model is an input, a function from the formatted
    [extraction_prompt] to its text ([None] when the call fails); the
    text is decoded by [Json.extract_json], and the
    [fallback_map] loop and [_validate_preferences] read the JSON values
    with Python's comparison and [int()], an exception giving the
    fallback dictionary. *)

From S2P Require Import Prelude Dataset Fixture Ranking Pipeline Validate Text Regex Json Prompt.
From Stdlib Require Import NArith QArith Qminmax Lqa Lia Ascii String List.
Import ListNotations Json Prompt Store Ranking Pipeline Validate Text Regex.

Module Extract.

Local Open Scope Q_scope.
Local Open Scope string_scope.

(** ** [_extract_fallback] *)

Inductive extract_type :=
  | EMonth | ETemperature | EWind | EHumidity | EPrecipitation | ECloudCover | ERegion | ETerrain.

(** What [_extract_fallback] returns: an [int], a [float] or a [str]. *)
Inductive fallback_value := FInt (z : Z) | FFloat (q : Q) | FStr (s : string).

(** [any(re.search(p, text) for p in patterns)]. *)
Definition any_search (ps : list string) (s : ustring) : bool :=
  existsb (fun p => re_search (rx p) s) ps.

(** The first entry of a table, in the table's order, one of whose
    patterns is found: the loops over [month_patterns], [regions] and
    [terrains], and the chains of keyword tests. *)
Fixpoint first_match {A} (tbl : list (list string * A)) (s : ustring) : option A :=
  match tbl with
  | [] => None
  | (ps, v) :: t => if any_search ps s then Some v else first_match t s
  end.

Definition digits_Z (ds : ustring) : Z :=
  fold_left (fun acc c => (acc * 10 + (Z.of_N c - 48))%Z) ds 0%Z.

(** [float(t)] on the text of [\d+(?:\.\d+)?], exactly. *)
Definition parse_float (t : ustring) : Q :=
  let int_part := inject_Z (digits_Z (take_while is_digit t)) in
  match drop_while is_digit t with
  | dot :: fp =>
      if N.eqb dot 46
      then int_part + inject_Z (digits_Z fp) / inject_Z (10 ^ Z.of_nat (List.length fp))
      else int_part
  | [] => int_part
  end.

(** The loop over the numeric patterns: the number the first matching
    pattern captures, when it lies in the range; otherwise the next
    pattern.  Group 1 takes part in every match of these patterns. *)
Fixpoint first_number (pats : list string) (lo hi : Q) (s : ustring) : option Q :=
  match pats with
  | [] => None
  | p :: ps =>
      match search (rx p) s with
      | Some mt =>
          match group 1 mt with
          | Some g =>
              let v := parse_float g in
              if Qle_bool lo v && Qle_bool v hi then Some v else first_number ps lo hi s
          | None => first_number ps lo hi s
          end
      | None => first_number ps lo hi s
      end
  end.

Definition extract_number (pats : list string) (lo hi : Q) (kws : list (list string * Q))
    (s : ustring) : option Q :=
  match first_number pats lo hi s with
  | Some v => Some v
  | None => first_match kws s
  end.

(** [month_patterns], in the dictionary's insertion order. *)
Definition month_patterns : list (list string * Z) :=
  [(["tháng\s*12\b"; "tháng\s*mười\s*hai\b"], 12%Z);
   (["tháng\s*11\b"; "tháng\s*mười\s*một\b"], 11%Z);
   (["tháng\s*10\b"; "tháng\s*mười\b(?!\s*(một|hai))"], 10%Z);
   (["tháng\s*1\b"; "tháng\s*một\b"], 1%Z); (["tháng\s*2\b"; "tháng\s*hai\b"], 2%Z);
   (["tháng\s*3\b"; "tháng\s*ba\b"], 3%Z); (["tháng\s*4\b"; "tháng\s*tư\b"], 4%Z);
   (["tháng\s*5\b"; "tháng\s*năm\b"], 5%Z); (["tháng\s*6\b"; "tháng\s*sáu\b"], 6%Z);
   (["tháng\s*7\b"; "tháng\s*bảy\b"], 7%Z); (["tháng\s*8\b"; "tháng\s*tám\b"], 8%Z);
   (["tháng\s*9\b"; "tháng\s*chín\b"], 9%Z)].

Definition extract_month (s : ustring) : option Z := first_match month_patterns s.

Definition temperature_patterns : list string :=
  ["(\d+(?:\.\d+)?)\s*(?:độ|°)\s*c?\b"; "nhiệt\s*độ\s*(\d+(?:\.\d+)?)"].

Definition temperature_keywords : list (list string * Q) :=
  [(["mát\s*mẻ|lạnh"], 20); (["nóng|ấm\s*áp"], 30); (["ôn\s*hòa|dễ\s*chịu"], 25)].

Definition extract_temperature (s : ustring) : option Q :=
  extract_number temperature_patterns 15 35 temperature_keywords s.

Definition wind_patterns : list string :=
  ["(\d+(?:\.\d+)?)\s*km/h\b"; "gió\s*(\d+(?:\.\d+)?)"].

Definition wind_keywords : list (list string * Q) :=
  [(["không\s*thích\s*gió|ít\s*gió"], 6); (["gió\s*nhẹ"], 8); (["gió\s*mạnh"], 25)].

Definition extract_wind (s : ustring) : option Q :=
  extract_number wind_patterns 5 30 wind_keywords s.

Definition humidity_patterns_1 : string := "(\d+(?:\.\d+)?)\s*%\b".

Definition humidity_patterns_2 : string := "độ\s*ẩm\s*(\d+(?:\.\d+)?)".

Definition humidity_patterns : list string := [humidity_patterns_1; humidity_patterns_2].

Definition humidity_keywords : list (list string * Q) :=
  [(["khô\s*ráo|khô"], 55); (["ẩm\s*ướt|ẩm"], 80); (["vừa\s*phải"], 70)].

Definition extract_humidity (s : ustring) : option Q :=
  extract_number humidity_patterns 50 90 humidity_keywords s.

(** Whether no [%] of the text is directly followed by a word character. *)
Fixpoint percent_word_free (s : ustring) : bool :=
  match s with
  | c :: ((d :: _) as s') => negb (N.eqb c 37 && is_word d) && percent_word_free s'
  | _ => true
  end.

Definition precipitation_patterns : list string :=
  ["(\d+(?:\.\d+)?)\s*mm\b"; "mưa\s*(\d+(?:\.\d+)?)"].

Definition precipitation_keywords : list (list string * Q) :=
  [(["không\s*mưa"], 0); (["ít\s*mưa|khô\s*ráo"], 10); (["mưa\s*vừa|bình\s*thường"], 20);
   (["mưa\s*nhiều|mùa\s*mưa"], 30)].

Definition extract_precipitation (s : ustring) : option Q :=
  extract_number precipitation_patterns 0 30 precipitation_keywords s.

Definition cloud_cover_patterns : list string :=
  ["(\d+(?:\.\d+)?)\s*%\s*mây"; "mây\s*(\d+(?:\.\d+)?)"].

Definition cloud_cover_keywords : list (list string * Q) :=
  [(["trời\s*quang|ít\s*mây"], 20); (["nhiều\s*mây|u\s*ám"], 80);
   (["mây\s*vừa|bình\s*thường"], 50)].

Definition extract_cloud_cover (s : ustring) : option Q :=
  extract_number cloud_cover_patterns 0 100 cloud_cover_keywords s.

Definition regions : list (list string * string) :=
  [(["tây\s*nguyên"; "đà\s*lạt"], "Tây Nguyên");
   (["hà\s*nội"; "hải\s*phòng"; "miền\s*bắc"], "Đồng bằng sông Hồng");
   (["cần\s*thơ"; "miền\s*nam"; "miền\s*tây"], "Đồng bằng sông Cửu Long");
   (["miền\s*trung"; "huế"; "đà\s*nẵng"; "nha\s*trang"], "Bắc Trung Bộ và Duyên hải miền Trung")].

Definition terrains : list (list string * string) :=
  [(["biển"; "bãi\s*biển"; "tắm\s*biển"], "ven biển");
   (["núi"; "leo\s*núi"; "vùng\s*núi"], "miền núi");
   (["đồng\s*bằng"; "nông\s*thôn"], "đồng bằng")].

Definition extract_region (s : ustring) : option string := first_match regions s.

Definition extract_terrain (s : ustring) : option string := first_match terrains s.

(** [_extract_fallback(user_input, extract_type)]: every branch reads
    [user_input.lower()]. *)
Definition extract_fallback (user_input : ustring) (t : extract_type) : option fallback_value :=
  let s := lower user_input in
  match t with
  | EMonth => option_map FInt (extract_month s)
  | ETemperature => option_map FFloat (extract_temperature s)
  | EWind => option_map FFloat (extract_wind s)
  | EHumidity => option_map FFloat (extract_humidity s)
  | EPrecipitation => option_map FFloat (extract_precipitation s)
  | ECloudCover => option_map FFloat (extract_cloud_cover s)
  | ERegion => option_map FStr (extract_region s)
  | ETerrain => option_map FStr (extract_terrain s)
  end.

(** ** The default dictionaries *)

Definition get_default_preferences : Prefs :=
  mkPrefs (Some 27) (Some 15) (Some 10) (Some 65) (Some 60) None None None
          (Some "du lịch chung").

(** [str()] of the extracted numbers, Python's formatting, which the
    description text uses and nothing else reads. *)
Section Formatting.
Variable str_int : Z -> string.
Variable str_float : Q -> string.

(** [if x:] on a number. *)
Definition truthy_num (o : option Q) : bool :=
  match o with Some q => negb (Qeq_bool q 0) | None => false end.

Definition truthy_str (o : option string) : bool :=
  match o with Some s => negb (String.eqb s "") | None => false end.

Definition opt_part {A} (test : bool) (o : option A) (f : A -> string) : list string :=
  match o with Some x => if test then [f x] else [] | None => [] end.

(** [desc_parts], in the order the code appends them. *)
Definition desc_parts (mo : option Z) (t w h pr c : option Q) (rg tr : option string)
  : list string :=
  List.concat [opt_part (match mo with Some m => negb (Z.eqb m 0) | None => false end) mo
           (fun m => "tháng " ++ str_int m);
  opt_part (truthy_num t) t (fun x => str_float x ++ "°C");
  opt_part (truthy_num w) w (fun x => "gió " ++ str_float x ++ "km/h");
  opt_part (truthy_num h) h (fun x => "độ ẩm " ++ str_float x ++ "%");
  opt_part true pr (fun x => "mưa " ++ str_float x ++ "mm");
  opt_part true c (fun x => "mây " ++ str_float x ++ "%");
  opt_part (truthy_str rg) rg (fun x => x);
  opt_part (truthy_str tr) tr (fun x => x)].

Definition override {A} (fb : option A) (d : option A) : option A :=
  match fb with Some v => Some v | None => d end.

(** [_get_default_preferences_with_fallback]: the defaults, each
    replaced by its fallback extraction when there is one, and the
    description built from the extractions. *)
Definition get_default_preferences_with_fallback (user_input : ustring) : Prefs :=
  let s := lower user_input in
  let mo := extract_month s in
  let t := extract_temperature s in
  let w := extract_wind s in
  let h := extract_humidity s in
  let pr := extract_precipitation s in
  let c := extract_cloud_cover s in
  let rg := extract_region s in
  let tr := extract_terrain s in
  let d := get_default_preferences in
  let parts := desc_parts mo t w h pr c rg tr in
  mkPrefs (override t (p_avgtemp_c d)) (override w (p_maxwind_kph d))
          (override pr (p_totalprecip_mm d)) (override h (p_avghumidity d))
          (override c (p_cloud_cover_mean d)) (override mo (p_month d))
          (override (option_map CatStr rg) (p_region d)) (override (option_map CatStr tr) (p_terrain d))
          (match parts with
           | [] => p_preferences d
           | _ => Some ("du lịch " ++ String.concat ", " parts)
           end).

End Formatting.

(** ** [extract_travel_preferences] *)

(** A number as Python compares it: [bool] is an [int]. *)
Definition py_num (v : jvalue) : option Q :=
  match v with
  | JNum q => Some q
  | JBool b => Some (if b then 1 else 0)
  | _ => None
  end.

Definition compare_error : py_error :=
  TypeError "'<=' not supported between instances of 'int' and 'str'".

(** The test of the [fallback_map] loop: the value is missing or
    [None], or, for a key with a range, outside it; comparing a value
    that is not a number raises [TypeError]. *)
Definition needs_fallback (rng : option (Q * Q)) (v : option jvalue) : result bool py_error :=
  match v with
  | None | Some JNull => Ok true
  | Some x =>
      match rng with
      | None => Ok false
      | Some (lo, hi) =>
          match py_num x with
          | Some q => Ok (negb (Qle_bool lo q && Qle_bool q hi))
          | None => Err compare_error
          end
      end
  end.

(** [fallback_map], in its insertion order. *)
Definition fallback_map : list (string * extract_type * option (Q * Q)) :=
  [("month", EMonth, None); ("avgtemp_c", ETemperature, Some (15, 35));
   ("maxwind_kph", EWind, Some (5, 30)); ("avghumidity", EHumidity, Some (50, 90));
   ("totalprecip_mm", EPrecipitation, Some (0, 30)); ("cloud_cover_mean", ECloudCover, Some (0, 100));
   ("region", ERegion, None); ("terrain", ETerrain, None)].

Definition jvalue_of_fallback (v : fallback_value) : jvalue :=
  match v with
  | FInt z => JNum (inject_Z z)
  | FFloat q => JNum q
  | FStr s => JStr (u s)
  end.

(** The loop [for pref_key, (extract_type, valid_range) in
    fallback_map.items()], which updates the dictionary in place. *)
Fixpoint fallback_loop (user_input : ustring) (keys : list (string * extract_type * option (Q * Q)))
    (d : dict) : result dict py_error :=
  match keys with
  | [] => Ok d
  | (k, t, rng) :: ks =>
      (let? need := needs_fallback rng (dict_lookup d (u k)) in
       let d' := if need then
                   match extract_fallback user_input t with
                   | Some fb => dict_set d (u k) (jvalue_of_fallback fb)
                   | None => d
                   end
                 else d in
       fallback_loop user_input ks d')%engine
  end.

(** [max(lo, min(hi, preferences.get(key, default)))]: a missing key
    takes the default; [None] or a value that is not a number raises
    [TypeError]. *)
Definition num_field (d : dict) (k : string) : result (option Q) py_error :=
  match dict_lookup d (u k) with
  | None => Ok None
  | Some v =>
      match py_num v with
      | Some q => Ok (Some q)
      | None => Err (TypeError "'<' not supported between instances of 'NoneType' and 'int'")
      end
  end.

(** [int(s)] of a string: white space around an optional sign and
    ASCII digits. *)
Definition int_of_text (s : ustring) : option Z :=
  let t := Text.strip s in
  let '(neg, ds) := match t with
                    | c :: r => if N.eqb c 45 then (true, r) else if N.eqb c 43 then (false, r) else (false, t)
                    | [] => (false, t)
                    end in
  match ds with
  | [] => None
  | _ => if forallb is_digit ds then Some (if neg then - digits_Z ds else digits_Z ds)%Z else None
  end.

(** [month = preferences.get('month')], then [int(month)] when it is not
    [None]: a float is truncated towards zero, a string parsed. *)
Definition month_field (d : dict) : result (option Z) py_error :=
  match dict_lookup d (u "month") with
  | None | Some JNull => Ok None
  | Some (JNum q) => Ok (Some (Z.quot (Qnum q) (Zpos (Qden q))))
  | Some (JBool b) => Ok (Some (if b then 1 else 0)%Z)
  | Some (JStr s) =>
      match int_of_text s with
      | Some z => Ok (Some z)
      | None => Err (Json.ValueError "invalid literal for int() with base 10")
      end
  | Some _ => Err (TypeError "int() argument must be a string, a bytes-like object or a real number")
  end.

(** [preferences.get('region')] and [preferences.get('terrain')], kept
    as they are: [None] for a missing key or [null], a string, a list
    (its string elements, [None] for the others), or another value. *)
Definition cat_field (d : dict) (k : string) : option cat_value :=
  match dict_lookup d (u k) with
  | None | Some JNull => None
  | Some (JStr s) => Some (CatStr (string_of_ustring s))
  | Some (JArr l) =>
      Some (CatList (map (fun v => match v with JStr s => Some (string_of_ustring s) | _ => None end) l))
  | Some _ => Some CatOther
  end.

(** [preferences.get('preferences', 'du lịch chung')]. *)
Definition description_field (d : dict) : option string :=
  match dict_lookup d (u "preferences") with
  | None => Some default_description
  | Some (JStr s) => Some (string_of_ustring s)
  | Some _ => None
  end.

(** [_validate_preferences] on the decoded dictionary: the values read
    as above, then clamped by [validate_preferences]. *)
Definition validate_dict (d : dict) : result Prefs py_error :=
  (let? t := num_field d "avgtemp_c" in
   let? w := num_field d "maxwind_kph" in
   let? pr := num_field d "totalprecip_mm" in
   let? h := num_field d "avghumidity" in
   let? c := num_field d "cloud_cover_mean" in
   let? mo := month_field d in
   let v := validate_preferences (mkPrefs t w pr h c mo (cat_field d "region") (cat_field d "terrain") None) in
   Ok (mkPrefs (p_avgtemp_c v) (p_maxwind_kph v) (p_totalprecip_mm v) (p_avghumidity v)
               (p_cloud_cover_mean v) (p_month v) (p_region v) (p_terrain v) (description_field d)))%engine.

(** [extract_travel_preferences]: the prompt, formatted inside the
    [try]; [ask] is the model, its text in answer to the prompt ([None]
    when the call raises); the JSON object of the text, the loop and the
    validation.  Any failure on the way gives
    [_get_default_preferences_with_fallback]. *)
Definition extract_travel_preferences (str_int : Z -> string) (str_float : Q -> string)
    (ask : ustring -> option ustring) (user_input : ustring) : Prefs :=
  let fallback := get_default_preferences_with_fallback str_int str_float user_input in
  match py_format extraction_prompt [(u "user_input", user_input)] with
  | Err _ => fallback
  | Ok prompt =>
  match ask prompt with
  | None => fallback
  | Some content =>
      match extract_json content with
      | None => fallback
      | Some d =>
          match fallback_loop user_input fallback_map d with
          | Err _ => fallback
          | Ok d' => match validate_dict d' with Ok p => p | Err _ => fallback end
          end
      end
  end
  end.

(** [_has_specific_wind_pattern], which no code calls. *)
Definition has_specific_wind_pattern (user_input : ustring) : bool :=
  re_search (rx "(không\s*thích\s*gió|ít\s*gió|gió\s*nhẹ|gió\s*mạnh|\d+\s*km/h)") (lower user_input).

(** Every pattern of [_extract_fallback] and [_has_specific_wind_pattern]. *)
Definition extract_patterns : list string :=
  (flat_map fst month_patterns
  ++ temperature_patterns ++ flat_map fst temperature_keywords
  ++ wind_patterns ++ flat_map fst wind_keywords
  ++ humidity_patterns ++ flat_map fst humidity_keywords
  ++ precipitation_patterns ++ flat_map fst precipitation_keywords
  ++ cloud_cover_patterns ++ flat_map fst cloud_cover_keywords
  ++ flat_map fst regions ++ flat_map fst terrains
  ++ ["(không\s*thích\s*gió|ít\s*gió|gió\s*nhẹ|gió\s*mạnh|\d+\s*km/h)"])%list.

(** ** Lemmas *)

(** The patterns are all in the syntax [Regex.parse] reads, so [rx]
    compiles none of them to [never]. *)
Lemma extract_patterns_parse : forallb parses extract_patterns = true.
Proof. vm_compute. reflexivity. Qed.

(** Case on the condition of the first [if] of the goal. *)
Local Ltac case_if E :=
  match goal with |- context [if ?c then _ else _] => destruct c eqn:E end.

Lemma first_number_range (pats : list string) (lo hi : Q) (s : ustring) (v : Q) :
  first_number pats lo hi s = Some v -> lo <= v <= hi.
Proof.
  induction pats as [|p ps IH]; cbn [first_number]; [discriminate|].
  destruct (search (rx p) s) as [mt|]; [|exact IH].
  destruct (group 1 mt) as [g|]; [|exact IH]. cbv zeta.
  case_if E; [|exact IH]. intros [= <-].
  apply andb_true_iff in E as [E1 E2]. apply Qle_bool_iff in E1, E2. auto.
Qed.

Lemma first_match_In {A} (tbl : list (list string * A)) (s : ustring) (v : A) :
  first_match tbl s = Some v -> In v (map snd tbl).
Proof.
  induction tbl as [|[ps w] t IH]; cbn [first_match map snd]; [discriminate|].
  case_if E; [intros [= ->]; left; reflexivity | intros H; right; exact (IH H)].
Qed.

Lemma extract_number_range (pats : list string) (lo hi : Q) (kws : list (list string * Q))
    (s : ustring) (v : Q) :
  Forall (fun x => lo <= x <= hi) (map snd kws) ->
  extract_number pats lo hi kws s = Some v -> lo <= v <= hi.
Proof.
  intros Hk. unfold extract_number.
  destruct (first_number pats lo hi s) as [x|] eqn:E.
  - intros [= <-]. exact (first_number_range _ _ _ _ _ E).
  - intros H. apply first_match_In in H. rewrite Forall_forall in Hk. auto.
Qed.

Local Ltac keywords_in_range :=
  intros H;
  unfold extract_temperature, extract_wind, extract_humidity, extract_precipitation,
    extract_cloud_cover in H;
  apply extract_number_range in H; [exact H | cbn; repeat constructor; lra].

Lemma extract_temperature_range (s : ustring) (v : Q) :
  extract_temperature s = Some v -> 15 <= v <= 35.
Proof. keywords_in_range. Qed.

Lemma extract_wind_range (s : ustring) (v : Q) : extract_wind s = Some v -> 5 <= v <= 30.
Proof. keywords_in_range. Qed.

Lemma extract_humidity_range (s : ustring) (v : Q) : extract_humidity s = Some v -> 50 <= v <= 90.
Proof. keywords_in_range. Qed.

Lemma extract_precipitation_range (s : ustring) (v : Q) :
  extract_precipitation s = Some v -> 0 <= v <= 30.
Proof. keywords_in_range. Qed.

Lemma extract_cloud_cover_range (s : ustring) (v : Q) :
  extract_cloud_cover s = Some v -> 0 <= v <= 100.
Proof. keywords_in_range. Qed.

Lemma extract_month_range (s : ustring) (m : Z) : extract_month s = Some m -> (1 <= m <= 12)%Z.
Proof.
  intros H. apply first_match_In in H. cbn in H.
  repeat (destruct H as [<- | H]; [lia|]). contradiction.
Qed.

Lemma override_in_range (lo hi : Q) (fb d : option Q) :
  (forall v, fb = Some v -> lo <= v <= hi) -> in_range lo hi d -> in_range lo hi (override fb d).
Proof. destruct fb as [v|]; cbn; auto. Qed.

(** The path that skips [_validate_preferences] meets the engine's
    contract all the same: every fallback extraction lies in the range
    the validation would clamp to, and so do the defaults. *)
Lemma with_fallback_valid (str_int : Z -> string) (str_float : Q -> string) (inp : ustring) :
  valid_prefs (get_default_preferences_with_fallback str_int str_float inp).
Proof.
  unfold valid_prefs, get_default_preferences_with_fallback. cbv zeta.
  cbn [p_avgtemp_c p_maxwind_kph p_totalprecip_mm p_avghumidity p_cloud_cover_mean p_month
       get_default_preferences].
  repeat split;
    try (apply override_in_range;
         [ intros v Hv; eauto using extract_temperature_range, extract_wind_range,
             extract_precipitation_range, extract_humidity_range, extract_cloud_cover_range
         | cbn; lra ]).
  destruct (extract_month _) eqn:E; cbn; [exact (extract_month_range _ _ E) | exact I].
Qed.

(** The values [_validate_preferences] returns on the decoded
    dictionary are in range, whatever the dictionary held. *)
(** ** The percentage pattern *)

Lemma percent_word_free_cons (x : N) (s : ustring) :
  percent_word_free (x :: s) = true -> percent_word_free s = true.
Proof. destruct s; simpl; [reflexivity|]. intros Hp. apply andb_true_iff in Hp. tauto. Qed.

Lemma percent_word_free_app (pre post : ustring) (c : N) :
  percent_word_free (pre ++ 37%N :: c :: post)%list = true -> is_word c = false.
Proof.
  induction pre as [|x pre IH]; simpl.
  - destruct (is_word c); [discriminate|reflexivity].
  - intros Hp. exact (IH (percent_word_free_cons _ _ Hp)).
Qed.

Lemma humidity_patterns_1_rx :
  rx humidity_patterns_1 =
  RSeq (RGroup 1 (RSeq (RPlus CDigit) (ROpt (RSeq (RAtom (CLit 46)) (RPlus CDigit)))))
       (RSeq (RStar CSpace) (RSeq (RAtom (CLit 37)) RWordB)).
Proof. vm_compute. reflexivity. Qed.

(** Every match of the percentage pattern ends at a [%] followed by a
    word character. *)
Lemma humidity_percent_den (p p' : pos) :
  den (rx humidity_patterns_1) p p' ->
  exists mid c post, snd p = (mid ++ 37%N :: c :: post)%list /\ is_word c = true.
Proof.
  rewrite humidity_patterns_1_rx.
  intros [q1 [Hg [q2 [Hst [q3 [Hs [Hb ->]]]]]]].
  destruct (den_suffix _ _ _ Hg) as [m1 E1]. destruct (star_rel_suffix _ _ _ Hst) as [m2 E2].
  destruct q2 as [b2 [|c0 a2]]; unfold Regex.Regex.step, cls_match in Hs; cbn in Hs; [discriminate|].
  revert Hs. destruct (N.eqb c0 37%N) eqn:Ec; intros Hs; [|discriminate]. apply N.eqb_eq in Ec. subst c0.
  injection Hs as <-. unfold at_boundary in Hb. simpl in Hb, E2.
  destruct a2 as [|c post]; [discriminate|].
  exists (m1 ++ m2)%list, c, post. split; [rewrite E1, E2, app_assoc; reflexivity|exact Hb].
Qed.

Lemma humidity_percent_search (s : ustring) :
  percent_word_free s = true -> search (rx humidity_patterns_1) s = None.
Proof.
  intros Hf. destruct (search (rx humidity_patterns_1) s) eqn:Es; [exfalso|reflexivity].
  assert (Hr : re_search (rx humidity_patterns_1) s = true) by (unfold re_search; rewrite Es; reflexivity).
  apply re_search_spec in Hr as (pre & post & p' & -> & Hd).
  destruct (humidity_percent_den _ _ Hd) as (mid & c & post' & Ep & Hw). simpl in Ep. subst post.
  rewrite app_assoc in Hf. rewrite (percent_word_free_app _ _ _ Hf) in Hw. discriminate.
Qed.

(** ** The answer is read as a dictionary *)


Lemma validate_dict_valid (d : dict) (p : Prefs) : validate_dict d = Ok p -> valid_prefs p.
Proof.
  unfold validate_dict.
  repeat match goal with
    | |- context [result_bind ?m _] => destruct m; cbn [result_bind]; [|discriminate]
    end.
  intros [= <-]. unfold valid_prefs, validate_preferences; cbn.
  repeat split; try (apply clamp_bounds; lra).
  match goal with |- context [option_map clamp_month ?mo] => destruct mo end;
    cbn; [apply clamp_month_bounds | exact I].
Qed.

(** Case on the path [extract_travel_preferences] takes. *)
Ltac extract_cases :=
  unfold extract_travel_preferences; cbv zeta;
  repeat match goal with
    | |- context [match ?x with Some _ => _ | None => _ end] => destruct x
    | |- context [match ?x with Ok _ => _ | Err _ => _ end] => destruct x eqn:?
    end.

Lemma extraction_valid (str_int : Z -> string) (str_float : Q -> string)
    (ask : ustring -> option ustring) (inp : ustring) :
  valid_prefs (extract_travel_preferences str_int str_float ask inp).
Proof. extract_cases; eauto using validate_dict_valid, with_fallback_valid. Qed.

(** C26: whatever the language model answers, [extract_travel_preferences]
    returns a dictionary in the engine's contract: the five weather values
    present and in their documented ranges, the month, when present, in
    1..12.  On the model's path the values are clamped; on the fallback
    path ([_get_default_preferences_with_fallback], which is not
    validated) they are in range because every extraction is. *)
Theorem extract_travel_preferences_valid (str_int : Z -> string) (str_float : Q -> string)
    (ask : ustring -> option ustring) (inp : ustring) :
  valid_prefs (extract_travel_preferences str_int str_float ask inp).
Proof. apply extraction_valid. Qed.

(** C27: the chatbot hands the engine a dictionary it accepts except
    for a list-valued region or terrain: with a centroid row in the
    table, the only exception [get_recommendations] raises on what
    [extract_travel_preferences] returns, for any answer of the language
    model and any message, is the one of the categorical filters. *)
Theorem extract_get_recommendations `{HciSort} (e : Engine) (str_int : Z -> string)
    (str_float : Q -> string) (ask : ustring -> option ustring) (inp : ustring) (k : Z)
    (err : engine_error) :
  centroids e <> [] ->
  get_recommendations e (extract_travel_preferences str_int str_float ask inp) k = Err err ->
  filter_stage (extract_travel_preferences str_int str_float ask inp) (df e) = Err err.
Proof.
  intros Hne. destruct (valid_user_vector _ (extraction_valid str_int str_float ask inp)) as [uv Hu].
  exact (user_vector_filter_error e _ k uv err Hu Hne).
Qed.

(** C28: [r'(\d+(?:\.\d+)?)\s*%\b'] only matches where a [%] is
    directly followed by a word character ([%] is not one, so [\b]
    needs one after it): on a message in which every [%] is followed by
    a space, punctuation or the end, the percentage pattern never
    fires and the humidity is what [r'độ\s*ẩm\s*(\d+...)'] or the
    keywords give. *)
Theorem humidity_percent_needs_word (inp : ustring) :
  percent_word_free (lower inp) = true ->
  extract_fallback inp EHumidity =
  option_map FFloat (extract_number [humidity_patterns_2] 50 90 humidity_keywords (lower inp)).
Proof.
  intros Hf. unfold extract_fallback, extract_humidity, extract_number. cbn [first_number humidity_patterns].
  rewrite (humidity_percent_search _ Hf). reflexivity.
Qed.

(** A temperature written with the degree sign at the end of the
    message is not read ([°] is not a word character, so [\b] fails at
    the end), while the same number followed by [C] is. *)
Example degree_sign_example :
  extract_fallback (u "nơi 30°") ETemperature = None /\
  extract_fallback (u "nơi 30°C") ETemperature = Some (FFloat 30).
Proof. vm_compute. split; reflexivity. Qed.

(** C34: a number the model writes as a string makes the comparison of
    the [fallback_map] loop raise [TypeError], and
    [extract_travel_preferences] then throws the whole answer away: the
    region the model read correctly is lost, and the result is the
    fallback dictionary of the message, whatever the message. *)
Theorem string_number_discards_answer (str_int : Z -> string) (str_float : Q -> string)
    (inp : ustring) :
  extract_travel_preferences str_int str_float
    (fun _ => Some (jtext "{'avgtemp_c': '25', 'region': 'Tây Nguyên'}")) inp =
  get_default_preferences_with_fallback str_int str_float inp.
Proof.
  unfold extract_travel_preferences; cbv zeta.
  destruct (extraction_prompt_formats inp) as [p ->].
  match goal with
  | |- context [extract_json ?c] =>
      let d := eval vm_compute in (extract_json c) in
      replace (extract_json c) with d by (vm_compute; reflexivity)
  end.
  cbn [fallback_loop fallback_map].
  destruct (extract_fallback inp EMonth); reflexivity.
Qed.


(** ** Witnesses *)

(** A model that answers two regions as a list, for a message in June:
    three rows of the table are of June. *)
Definition two_regions_answer : ustring := jtext "{'region': ['Miền Bắc', 'Miền Trung']}".

Lemma extract_get_recommendations_witness :
  centroids Fixture.engine <> [] /\
  get_recommendations Fixture.engine
    (extract_travel_preferences (fun _ => "") (fun _ => "") (fun _ => Some two_regions_answer)
       (u "đi biển tháng 6")) 5%Z = Err (ValueError "('Lengths must match to compare', (3,), (2,))") /\
  filter_stage (extract_travel_preferences (fun _ => "") (fun _ => "") (fun _ => Some two_regions_answer)
       (u "đi biển tháng 6")) (df Fixture.engine) = Err (ValueError "('Lengths must match to compare', (3,), (2,))").
Proof.
  split; [discriminate|]. split; [vm_compute; reflexivity|].
  apply (extract_get_recommendations Fixture.engine (fun _ => "") (fun _ => "") (fun _ => Some two_regions_answer)
           (u "đi biển tháng 6") 5); [discriminate|].
  vm_compute. reflexivity.
Defined.


(** "độ ẩm khoảng 60%": the [%] ends the message, the number is not
    read, and the keyword [ẩm] gives 80. *)
Lemma humidity_percent_needs_word_witness :
  percent_word_free (lower (u "độ ẩm khoảng 60%")) = true /\
  extract_fallback (u "độ ẩm khoảng 60%") EHumidity = Some (FFloat 80).
Proof.
  split; [vm_compute; reflexivity|].
  rewrite (humidity_percent_needs_word (u "độ ẩm khoảng 60%")); vm_compute; reflexivity.
Defined.

End Extract.
