(* ===== verification/Topic.v ===== *)
(** The chatbot's topic check ([src/chatbot.py]): the keyword fallback
    [_check_travel_topic_fallback]; [check_travel_topic], which formats
    its prompt ([Prompt.py_format]) and reads the model's answer to it
    (a function from the prompt to its text, [None] when the call
    fails) through [Json.extract_json];
    and [process_user_input], which refuses or goes on to
    [extract_travel_preferences].  Dictionary values are JSON values
    with Python's truthiness and comparison rules. *)

From S2P Require Import Prelude Dataset Validate Text Regex Json Prompt Extract Endpoint.
From Stdlib Require Import NArith QArith Lqa Lia Ascii String List.
Import ListNotations Store Text Regex Json Prompt Extract Endpoint.

Module Topic.

Local Open Scope Q_scope.
Local Open Scope string_scope.

(** ** Python's reading of the decoded values *)

(** [bool(v)]. *)
Definition truthy (v : jvalue) : bool :=
  match v with
  | JNull => false
  | JBool b => b
  | JNum q => negb (Qeq_bool q 0)
  | JStr s => negb (Nat.eqb (List.length s) 0)
  | JArr l => negb (Nat.eqb (List.length l) 0)
  | JObj d => negb (Nat.eqb (List.length d) 0)
  end.

(** [v > t] for a float [t]: a [bool] compares as 0 or 1; any other
    value that is not a number raises [TypeError]. *)
Definition gt_float (v : jvalue) (t : Q) : result bool py_error :=
  match v with
  | JBool b => Ok (negb (Qle_bool (if b then 1 else 0) t))
  | JNum q => Ok (negb (Qle_bool q t))
  | JStr _ => Err (TypeError "'>' not supported between instances of 'str' and 'float'")
  | JNull => Err (TypeError "'>' not supported between instances of 'NoneType' and 'float'")
  | JArr _ => Err (TypeError "'>' not supported between instances of 'list' and 'float'")
  | JObj _ => Err (TypeError "'>' not supported between instances of 'dict' and 'float'")
  end.

(** ** [_check_travel_topic_fallback] *)

Definition travel_keywords : list string :=
  ["du\s*lịch"; "đi\s*chơi"; "nghỉ\s*dưỡng"; "tham\s*quan"; "tour";
   "địa\s*điểm\s*du\s*lịch"; "nơi\s*du\s*lịch"; "điểm\s*đến";
   "thành\s*phố"; "tỉnh"; "vùng"; "khu\s*vực";
   "miền\s*bắc"; "miền\s*trung"; "miền\s*nam"; "tây\s*nguyên";
   "bắc\s*bộ"; "trung\s*bộ"; "nam\s*bộ";
   "biển"; "núi"; "đồng\s*bằng"; "ven\s*biển"; "bãi\s*biển";
   "leo\s*núi"; "tắm\s*biển"; "ngắm\s*cảnh"; "phong\s*cảnh";
   "thời\s*tiết.*du\s*lịch"; "khí\s*hậu.*du\s*lịch";
   "thời\s*tiết.*tháng"; "khí\s*hậu.*tháng";
   "mát\s*mẻ"; "nóng.*du\s*lịch"; "lạnh.*du\s*lịch";
   "mùa\s*khô"; "mùa\s*mưa"; "mùa\s*xuân"; "mùa\s*hè"; "mùa\s*thu"; "mùa\s*đông";
   "hà\s*nội"; "sài\s*gòn"; "tp\s*hồ\s*chí\s*minh"; "đà\s*nẵng";
   "huế"; "nha\s*trang"; "hạ\s*long"; "sapa"; "đà\s*lạt";
   "phú\s*quốc"; "cần\s*thơ"; "hội\s*an"; "vũng\s*tàu";
   "khách\s*sạn"; "resort"; "homestay"; "lưu\s*trú";
   "ăn\s*uống.*du\s*lịch"; "món\s*ngon.*địa\s*phương"; "đặc\s*sản"; "ẩm\s*thực.*du\s*lịch";
   "lễ\s*hội"; "văn\s*hóa.*du\s*lịch"; "truyền\s*thống.*du\s*lịch";
   "gợi\s*ý.*du\s*lịch"; "gợi\s*ý.*địa\s*điểm"; "khuyên.*du\s*lịch";
   "nên\s*đi.*đâu"; "đi\s*đâu.*du\s*lịch"; "ở\s*đâu.*du\s*lịch";
   "muốn\s*đi.*biển"; "muốn\s*đi.*núi"; "muốn\s*đi.*du\s*lịch"].

Definition short_keywords : list string :=
  ["\btháng\b"; "\bmùa\b"; "\bgió\b"; "\bđộ\s*ẩm\b"; "\bnhiệt\s*độ\b";
   "\bthời\s*tiết\b"; "\bkhí\s*hậu\b"].

Definition topic_result (travel : bool) (confidence : Q) (reason : string) : dict :=
  [(u "is_travel_related", JBool travel); (u "confidence", JNum confidence);
   (u "reason", JStr (u reason))].

Definition check_travel_topic_fallback (user_input : ustring) : dict :=
  let s := Text.strip (lower user_input) in
  let word_count := word_count s in
  let has_main_travel_keywords := any_search travel_keywords s in
  let has_short_keywords := any_search short_keywords s in
  if has_main_travel_keywords then topic_result true (8 # 10) "Chứa từ khóa du lịch rõ ràng"
  else if has_short_keywords && Nat.leb 4 word_count then
    topic_result true (6 # 10) "Có từ khóa liên quan, có thể về du lịch"
  else if Nat.ltb word_count 3 then
    topic_result false (9 # 10) "Câu quá ngắn, cần nói rõ hơn về du lịch"
  else topic_result false (7 # 10) "Không chứa từ khóa du lịch".

(** [check_travel_topic]: the prompt, formatted inside the [try]; the
    model's text ([None] when the call raises) and the JSON object it
    holds, or the fallback when the formatting raises, there is no
    object or it does not decode. *)
Definition check_travel_topic (ask : ustring -> option ustring) (user_input : ustring) : dict :=
  match py_format topic_check_prompt [(u "user_input", user_input)] with
  | Err _ => check_travel_topic_fallback user_input
  | Ok prompt =>
      match ask prompt with
      | Some content =>
          match extract_json content with
          | Some d => d
          | None => check_travel_topic_fallback user_input
          end
      | None => check_travel_topic_fallback user_input
      end
  end.

(** ** [process_user_input] *)

Section Chatbot.
Variable str_int : Z -> string.
Variable str_float : Q -> string.
(** [generate_polite_refusal]: the model's text, or one of the default
    refusals picked by [random.choice]; the default path can raise
    ([Reply.generate_polite_refusal]). *)
Variable generate_polite_refusal : ustring -> dict -> result string py_error.

Definition process_user_input (topic_ask extract_ask : ustring -> option ustring)
    (user_input : ustring) : result Processed py_error :=
  let topic := check_travel_topic topic_ask user_input in
  let proceed := Travel (extract_travel_preferences str_int str_float extract_ask user_input) in
  if truthy (dict_get topic (u "is_travel_related") (JBool false)) then Ok proceed
  else
    (let? high := gt_float (dict_get topic (u "confidence") (JNum 0)) (6 # 10) in
     if high then
       let? refusal_response := generate_polite_refusal user_input topic in
       Ok (Refusal refusal_response)
     else Ok proceed)%engine.

End Chatbot.

(** The fallback's verdict, in terms of the keyword searches. *)
Definition fallback_travel (user_input : ustring) : bool :=
  let s := Text.strip (lower user_input) in
  any_search travel_keywords s || (any_search short_keywords s && Nat.leb 4 (word_count s)).

(** ** Lemmas *)

(** The keyword patterns are all in the syntax [Regex.parse] reads. *)
Lemma topic_patterns_parse : forallb parses (travel_keywords ++ short_keywords)%list = true.
Proof. vm_compute. reflexivity. Qed.

Local Close Scope string_scope.

Lemma drop_while_app_stop (f : N -> bool) (a w : ustring) (c : N) (w' : ustring) :
  w = c :: w' -> f c = false -> exists a', drop_while f (a ++ w) = a' ++ w.
Proof.
  intros -> Hc. induction a as [|x a [a' IH]]; cbn.
  - rewrite Hc. exists []. reflexivity.
  - destruct (f x); [exists a'; exact IH | exists (x :: a); reflexivity].
Qed.

(** [strip] only removes white space at the ends: a piece that starts
    and ends with another character survives it. *)
Lemma strip_keeps_mid (a w b : ustring) (c c' : N) (w1 w2 : ustring) :
  w = c :: w1 -> Text.is_space c = false -> rev w = c' :: w2 -> Text.is_space c' = false ->
  exists a' b', Text.strip (a ++ w ++ b) = a' ++ w ++ b'.
Proof.
  intros Hw Hc Hr Hc'. unfold Text.strip.
  destruct (drop_while_app_stop Text.is_space a (w ++ b) c (w1 ++ b)) as [a1 E1];
    [rewrite Hw; reflexivity | exact Hc |].
  rewrite E1, app_assoc, rev_app_distr.
  destruct (drop_while_app_stop Text.is_space (rev b) (rev (a1 ++ w)) c' (w2 ++ rev a1)) as [b1 E2];
    [rewrite rev_app_distr, Hr; reflexivity | exact Hc' |].
  rewrite E2, rev_app_distr, rev_involutive, <- app_assoc. eauto.
Qed.

Definition du_lich : ustring := u "du lịch"%string.

Lemma du_lich_matches (b rest : list N) :
  m (rx "du\s*lịch"%string) finish (b, du_lich ++ rest) [] <> None.
Proof. vm_compute. discriminate. Qed.

Lemma any_search_du_lich (a b : ustring) :
  any_search travel_keywords (a ++ du_lich ++ b) = true.
Proof.
  unfold any_search, travel_keywords. cbn [existsb].
  replace (re_search (rx "du\s*lịch"%string) (a ++ du_lich ++ b)) with true; [reflexivity|].
  symmetry. apply re_search_spec.
  destruct (proj1 (m_finish_spec _ (rev a, du_lich ++ b) []) (du_lich_matches _ _))
    as [p' Hp'].
  exists a, (du_lich ++ b), p'. auto.
Qed.

Lemma lower_app (a b : ustring) : lower (a ++ b) = lower a ++ lower b.
Proof. apply map_app. Qed.

(** ** Theorems *)

Section Theorems.
Context (str_int : Z -> string) (str_float : Q -> string)
        (generate_polite_refusal : ustring -> dict -> result string py_error).

(** C30: whatever the model would answer about the topic (the topic
    prompt never reaches it), [process_user_input] refuses exactly when
    the keyword fallback finds no travel keyword and no short keyword in
    a message of at least four words; it raises only when the refusal
    generator does, and its "not sure, go on" branch (not travel
    related with a confidence of at most 0.6) is never taken: the
    fallback's negative answers have confidence 0.9 or 0.7.  So a
    message with only a short keyword ([tháng], [mùa], [gió], ...) and at
    least four words is accepted, although the docstring of
    [_check_travel_topic_fallback] says only messages with clear travel
    keywords are, and the comment on [short_keywords] says a short
    keyword needs another keyword. *)
Theorem process_fallback_spec (topic_ask extract_ask : ustring -> option ustring) (inp : ustring) :
  process_user_input str_int str_float generate_polite_refusal topic_ask extract_ask inp =
  if fallback_travel inp
  then Ok (Travel (extract_travel_preferences str_int str_float extract_ask inp))
  else (let? r := generate_polite_refusal inp (check_travel_topic_fallback inp) in
        Ok (Refusal r))%engine.
Proof.
  unfold process_user_input, check_travel_topic. rewrite topic_check_prompt_KeyError.
  unfold fallback_travel, check_travel_topic_fallback. cbv zeta.
  destruct (any_search travel_keywords _); [reflexivity|].
  destruct (any_search short_keywords _ && _); [reflexivity|].
  destruct (Nat.ltb _ 3); reflexivity.
Qed.

(** C31: a message that contains "du lịch", in any letter case and
    anywhere, is travel related for the fallback, so
    [process_user_input] goes on to [extract_travel_preferences]. *)
Theorem process_du_lich (topic_ask extract_ask : ustring -> option ustring) (pre w post : ustring) :
  lower w = du_lich ->
  process_user_input str_int str_float generate_polite_refusal topic_ask extract_ask (pre ++ w ++ post) =
  Ok (Travel (extract_travel_preferences str_int str_float extract_ask (pre ++ w ++ post))).
Proof.
  intros Hw. unfold process_user_input, check_travel_topic. rewrite topic_check_prompt_KeyError.
  unfold check_travel_topic_fallback. rewrite !lower_app, Hw.
  destruct (strip_keeps_mid (lower pre) du_lich (lower post) 100 104 (tl du_lich) (tl (rev du_lich)))
    as (a' & b' & ->); try reflexivity.
  cbv zeta. rewrite any_search_du_lich. reflexivity.
Qed.

(** C32: [check_travel_topic] never consults the model: the topic
    prompt's JSON example is written with single braces, so
    [self.topic_check_prompt.format(user_input=user_input)] raises
    [KeyError] inside the [try] before the API call, and the result is
    always the keyword fallback's, whatever the model would answer and
    whatever the user wrote. *)
Theorem check_travel_topic_always_fallback (ask : ustring -> option ustring) (inp : ustring) :
  check_travel_topic ask inp = check_travel_topic_fallback inp.
Proof. unfold check_travel_topic. now rewrite topic_check_prompt_KeyError. Qed.

End Theorems.

(** ** Witnesses *)

Lemma process_du_lich_witness :
  lower (u "DU LỊCH"%string) = du_lich /\
  process_user_input (fun _ => ""%string) (fun _ => ""%string) (fun _ _ => Ok ""%string) (fun _ => None) (fun _ => None)
    (u "Tôi muốn "%string ++ u "DU LỊCH"%string ++ u " Đà Lạt"%string) =
  Ok (Travel (extract_travel_preferences (fun _ => ""%string) (fun _ => ""%string) (fun _ => None)
                (u "Tôi muốn "%string ++ u "DU LỊCH"%string ++ u " Đà Lạt"%string))).
Proof.
  split; [vm_compute; reflexivity|].
  apply process_du_lich. vm_compute. reflexivity.
Defined.

(** "mùa này có gì vui" ("what is fun this season") has no travel
    keyword, only the short keyword [mùa], and five words: the fallback
    accepts it with confidence 0.6. *)
Example short_keyword_only_example :
  any_search travel_keywords (Text.strip (lower (u "mùa này có gì vui"%string))) = false /\
  check_travel_topic_fallback (u "mùa này có gì vui"%string) =
  topic_result true (6 # 10) "Có từ khóa liên quan, có thể về du lịch"%string.
Proof. vm_compute. split; reflexivity. Qed.

End Topic.
