(* ===== verification/Reply.v ===== *)
(** The chatbot's replies ([src/chatbot.py]): [generate_polite_refusal]
    with its default [_get_default_refusal], and the text
    [generate_response] writes for a list of recommendations, the
    model's answer to [response_prompt] or [_get_default_response].
    Each call to the model is a function from its prompt to the text it
    answers ([None] when the call raises), and [random.choice] draws the
    index [pick]. *)

From S2P Require Import Prelude Pipeline Text Json.
From Stdlib Require Import NArith ZArith QArith Ascii String List.
Import ListNotations Pipeline Text Json.

Module Reply.

Local Open Scope string_scope.

(** [needle in value] for a [str] needle: a substring test on a [str],
    membership in a [list], a key test on a [dict]; other values raise
    [TypeError] (the message names [int] for every number). *)
Fixpoint prefixb (p s : ustring) : bool :=
  match p, s with
  | [], _ => true
  | c :: p', d :: s' => N.eqb c d && prefixb p' s'
  | _ :: _, [] => false
  end.

Fixpoint str_contains (needle s : ustring) : bool :=
  prefixb needle s || match s with [] => false | _ :: s' => str_contains needle s' end.

Definition py_in (needle : ustring) (v : jvalue) : result bool py_error :=
  match v with
  | JStr s => Ok (str_contains needle s)
  | JArr l => Ok (existsb (fun x => match x with JStr t => ueqb t needle | _ => false end) l)
  | JObj d => Ok (existsb (fun kv => ueqb (fst kv) needle) d)
  | JNull => Err (TypeError "argument of type 'NoneType' is not iterable")
  | JBool _ => Err (TypeError "argument of type 'bool' is not iterable")
  | JNum _ => Err (TypeError "argument of type 'int' is not iterable")
  end.

(** [random.choice(seq)] on a non-empty list, the generator drawing
    [pick]. *)
Definition choice (pick : nat) (l : list string) : string :=
  nth (pick mod List.length l) l EmptyString.

(** [messages["quá ngắn"]] and [messages["default"]]. *)
Definition short_refusals : list string :=
  ["Bạn có thể nói rõ hơn về yêu cầu du lịch không? Ví dụ: 'Tôi muốn đi biển miền Trung tháng 6'.";
   "Câu hỏi hơi ngắn, hãy cho tôi biết cụ thể về nơi bạn muốn đi, thời gian hoặc thời tiết bạn thích nhé!"].

Definition default_refusals : list string :=
  ["Tôi chỉ hỗ trợ về du lịch Việt Nam. Bạn có thể hỏi về địa điểm, thời tiết, thời gian du lịch phù hợp.";
   "Xin lỗi, tôi chuyên tư vấn du lịch Việt Nam. Bạn muốn tôi gợi ý địa điểm thú vị không?";
   "Tôi chỉ chuyên về du lịch Việt Nam. Hãy cho tôi biết bạn muốn đi đâu, khi nào nhé!"].

(** [_get_default_refusal(reason)]. *)
Definition get_default_refusal (pick : nat) (reason : jvalue) : result string py_error :=
  (let? short := py_in (u "quá ngắn") reason in
   Ok (if short then choice pick short_refusals else choice pick default_refusals))%engine.

(** The user message of the refusal request. *)
Definition refusal_prompt (user_input : ustring) : ustring :=
  (u "Câu hỏi: '" ++ user_input ++ u "' không liên quan du lịch. Hãy từ chối lịch sự và hướng dẫn.")%list.

(** [generate_polite_refusal(user_input, topic_result)]: [ask] is the
    model, its answer to the prompt ([None] when the call raises); the
    stripped text, or the default refusal for
    [topic_result.get('reason', '')], outside the [try]. *)
Definition generate_polite_refusal (ask : ustring -> option ustring) (pick : nat)
    (user_input : ustring) (topic_result : dict) : result string py_error :=
  match ask (refusal_prompt user_input) with
  | Some content => Ok (string_of_ustring (Text.strip content))
  | None => get_default_refusal pick (dict_get topic_result (u "reason") (JStr []))
  end.

(** ** [_get_default_response] *)

Definition nl : string := String (ascii_of_nat 10) EmptyString.

Section Formatting.
(** [str()] of an [int], and the format specs [:.1f] and [:.2f] of a
    [float]. *)
Variable str_int : Z -> string.
Variable fmt1 fmt2 : Q -> string.

(** The lines of the [i]-th recommendation. *)
Definition response_entry (i : nat) (rec : Recommendation) : string :=
  str_int (Z.of_nat i) ++ ". **" ++ rec_city rec ++ ", " ++ rec_province rec ++ "** ("
    ++ rec_region rec ++ ")" ++ nl
  ++ "   - Thời gian: Tháng " ++ str_int (rec_month rec) ++ nl
  ++ "   - Thời tiết: " ++ fmt1 (rec_avgtemp_c rec) ++ "°C, gió " ++ fmt1 (rec_maxwind_kph rec)
    ++ "km/h, "
  ++ "mưa " ++ fmt1 (rec_totalprecip_mm rec) ++ "mm, độ ẩm " ++ fmt1 (rec_avghumidity rec) ++ "%" ++ nl
  ++ "   - Điểm phù hợp: " ++ fmt2 (rec_score rec) ++ nl ++ nl.

(** [for i, rec in enumerate(recs, i)]. *)
Fixpoint response_entries (i : nat) (recs : list Recommendation) : string :=
  match recs with
  | [] => ""
  | rec :: rest => response_entry i rec ++ response_entries (S i) rest
  end.

Definition no_recommendation_text : string :=
  "Xin lỗi, tôi không tìm thấy địa điểm nào phù hợp với yêu cầu của bạn. Bạn có thể thử với điều kiện khác không?".

Definition get_default_response (recs : list Recommendation) : string :=
  match recs with
  | [] => no_recommendation_text
  | _ :: _ =>
      "Dựa trên yêu cầu của bạn, tôi gợi ý những địa điểm sau:" ++ nl ++ nl
      ++ response_entries 1 (firstn 5 recs)
      ++ "Bạn có muốn biết thêm thông tin về địa điểm nào không?"
  end.

(** [locations_text]: the lines of the [i]-th recommendation. *)
Definition location_entry (i : nat) (rec : Recommendation) : string :=
  str_int (Z.of_nat i) ++ ". " ++ rec_city rec ++ ", " ++ rec_province rec ++ " (" ++ rec_region rec
    ++ ") - Tháng " ++ str_int (rec_month rec) ++ nl
  ++ "   Nhiệt độ: " ++ fmt1 (rec_avgtemp_c rec) ++ "°C, Gió: " ++ fmt1 (rec_maxwind_kph rec) ++ "km/h, "
  ++ "Mưa: " ++ fmt1 (rec_totalprecip_mm rec) ++ "mm, Độ ẩm: " ++ fmt1 (rec_avghumidity rec) ++ "%, "
  ++ "Mây: " ++ fmt1 (rec_cloud_cover_mean rec) ++ "%" ++ nl
  ++ "   Điểm phù hợp: " ++ fmt2 (rec_score rec) ++ nl ++ nl.

Fixpoint locations_text (i : nat) (recs : list Recommendation) : string :=
  match recs with
  | [] => ""
  | rec :: rest => location_entry i rec ++ locations_text (S i) rest
  end.

(** [response_prompt], the f-string around the message and
    [locations_text]. *)
Definition response_prompt (user_input : ustring) (recs : list Recommendation) : ustring :=
  (jtext "
            Dựa trên yêu cầu du lịch: '" ++ user_input ++ jtext "'

            Tôi đã tìm được những địa điểm phù hợp sau:

            " ++ u (locations_text 1 (firstn 5 recs)) ++ jtext "

            Hãy viết một phản hồi tự nhiên, thân thiện để giới thiệu những địa điểm này cho người dùng.
            Phản hồi nên:
            - Bắt đầu bằng lời chào thân thiện
            - Giải thích ngắn gọn tại sao những địa điểm này phù hợp
            - Mô tả đặc điểm thời tiết của từng nơi
            - Kết thúc bằng lời khuyên hoặc câu hỏi để tiếp tục hỗ trợ
            - CHỈ tập trung vào du lịch Việt Nam
            Viết bằng tiếng Việt, tối đa 300 từ.
            ")%list.

(** The [try] of [generate_response] for a non-empty list: [ask] is the
    model, its answer to [response_prompt] ([None] when the call
    raises); the stripped text, or [_get_default_response]. *)
Definition compose_response (ask : ustring -> option ustring) (user_input : ustring)
    (recs : list Recommendation) : string :=
  match ask (response_prompt user_input recs) with
  | Some content => string_of_ustring (Text.strip content)
  | None => get_default_response recs
  end.

End Formatting.

(** ** Lemmas *)

Lemma py_in_str (needle s : ustring) : py_in needle (JStr s) = Ok (str_contains needle s).
Proof. reflexivity. Qed.

Lemma choice_In (pick : nat) (l : list string) : l <> [] -> In (choice pick l) l.
Proof.
  intros Hl. unfold choice. apply nth_In, Nat.mod_upper_bound.
  destruct l; [contradiction | discriminate].
Qed.

(** The default refusal for one of the fallback's reasons: the short
    message list exactly for the reason that says "quá ngắn". *)
Lemma refusal_short_reason (pick : nat) :
  get_default_refusal pick (JStr (u "Câu quá ngắn, cần nói rõ hơn về du lịch"))
  = Ok (choice pick short_refusals).
Proof. unfold get_default_refusal. rewrite py_in_str. vm_compute (str_contains _ _). reflexivity. Qed.

Lemma refusal_default_reason (pick : nat) :
  get_default_refusal pick (JStr (u "Không chứa từ khóa du lịch"))
  = Ok (choice pick default_refusals).
Proof. unfold get_default_refusal. rewrite py_in_str. vm_compute (str_contains _ _). reflexivity. Qed.

End Reply.
