(* ===== verification/Chat.v ===== *)
(** The composition of [src/main.py] with [src/chatbot.py]: the oracle of
    [chat_endpoint] built from [TravelChatbot.process_user_input],
    [generate_polite_refusal] and [generate_response], each call to the
    language model a function from its prompt to its answer, and the
    chatbot's exceptions the [str(e)] the handler reports; a run of the
    server as a sequence of requests ([serve]), with its liveness. *)

From S2P Require Import Prelude Dataset Fixture Ranking Pipeline Validate Text Json Prompt Extract Topic Reply Endpoint.
From Stdlib Require Import QArith Lia Ascii String List Sorted.
Import ListNotations Store Ranking Pipeline Validate Text Json Prompt Extract Topic Reply Endpoint.

Module Chat.

(** [str(e)]. *)
Definition str_error (e : py_error) : string :=
  match e with TypeError m => m | ValueError m => m end.

(** The language model in one request: for each kind of request, the
    text it answers to a prompt ([None] when the call raises), indexed
    by the number of the [process_user_input] call that makes it ([0]
    in [chat_endpoint], [1] in [generate_response]); the draws of
    [random.choice] in the default refusals; and the answer to the
    prompt of the reply to recommendations. *)
Record Model := mkModel {
  topic_api : nat -> ustring -> option ustring;
  extract_api : nat -> ustring -> option ustring;
  refusal_api : nat -> ustring -> option ustring;
  refusal_pick : nat -> nat;
  response_api : ustring -> option ustring
}.

(** The chatbot [main.py] calls: the [n]-th call of [process_user_input]
    in a request asks the model's [n]-th functions, and raises what it
    raises; [generate_response] writes [compose_response] for a
    non-empty list.  [str_int] is [str()] of an [int], [str_float] that
    of a [float], [fmt1] and [fmt2] the format specs [:.1f] and
    [:.2f]. *)
Definition chatbot_oracle (str_int : Z -> string) (str_float fmt1 fmt2 : Q -> string)
    (md : Model) : Oracle :=
  {| classify := fun n msg =>
       match process_user_input str_int str_float
               (generate_polite_refusal (refusal_api md n) (refusal_pick md n))
               (topic_api md n) (extract_api md n) (u msg) with
       | Ok p => Ok p
       | Err e => Err (str_error e)
       end;
     compose := fun msg recs => compose_response str_int fmt1 fmt2 (response_api md) (u msg) recs |}.

(** Every call to the model raises. *)
Definition offline (pick : nat -> nat) : Model :=
  mkModel (fun _ _ => None) (fun _ _ => None) (fun _ _ => None) pick (fun _ => None).

(** The refusal of the [n]-th call for a message the fallback refuses:
    the model's text, or the default refusal the fallback's reason
    selects ("quá ngắn" for fewer than three words). *)
Definition refusal_text (md : Model) (n : nat) (msg : ustring) : string :=
  match refusal_api md n (refusal_prompt msg) with
  | Some t => string_of_ustring (Text.strip t)
  | None => choice (refusal_pick md n)
              (if Nat.ltb (word_count (Text.strip (lower msg))) 3
               then short_refusals else default_refusals)
  end.

(** The reply [/chat] sends: for a travel message, the empty-result
    text or the reply to the recommendations; otherwise the refusal of
    the first call. *)
Definition chat_reply (str_int : Z -> string) (fmt1 fmt2 : Q -> string) (md : Model)
    (msg : ustring) (recs : list Recommendation) : string :=
  if fallback_travel msg then
    match recs with
    | [] => no_match_text
    | _ :: _ => compose_response str_int fmt1 fmt2 (response_api md) msg recs
    end
  else refusal_text md 0 msg.

(** A request of a run: the model's behaviour while it is handled,
    the JSON body, the [uuid4()] drawn and the clock at the insert. *)
Record Request := mkRequest {
  rq_model : Model;
  rq_body : ChatRequest;
  rq_uuid : string;
  rq_now : Z
}.

(** The stripped message of a request. *)
Definition request_message (r : Request) : string :=
  strip (match req_message (rq_body r) with Some m => m | None => EmptyString end).

(** The preferences the first extraction of a request gives. *)
Definition request_prefs (str_int : Z -> string) (str_float : Q -> string) (r : Request) : Prefs :=
  extract_travel_preferences str_int str_float (extract_api (rq_model r) 0) (u (request_message r)).

(** No request of the run has a list as region or terrain in its
    extraction. *)
Definition scalar_run (str_int : Z -> string) (str_float : Q -> string) (reqs : list Request) : bool :=
  forallb (fun r => prefs_scalar (request_prefs str_int str_float r)) reqs.

Definition is_answered (resp : ChatResponse) : bool :=
  match resp with ChatOk _ _ _ _ _ _ => true | ChatFail _ _ _ => false end.

(** The server handling [/chat] requests one after the other, each on
    the table the previous ones left. *)
Fixpoint serve `{HciSort} (str_int : Z -> string) (str_float fmt1 fmt2 : Q -> string)
    (e : Engine) (db : Db) (reqs : list Request) : list ChatResponse * Db :=
  match reqs with
  | [] => ([], db)
  | r :: rest =>
      let '(resp, db1) := chat_endpoint e (chatbot_oracle str_int str_float fmt1 fmt2 (rq_model r))
                            db (rq_body r) (rq_uuid r) (rq_now r) in
      let '(resps, db2) := serve str_int str_float fmt1 fmt2 e db1 rest in
      (resp :: resps, db2)
  end.

(** A run of two requests with the model unreachable: a blank message,
    then a travel message in a session. *)
Definition offline_run : list Request :=
  [mkRequest (offline (fun _ => 0%nat)) (mkChatRequest (Some "   "%string) None "127.0.0.1"%string)
     "uuid-1"%string 1;
   mkRequest (offline (fun _ => 0%nat))
     (mkChatRequest (Some "Tôi muốn đi biển"%string) (Some "s-1"%string) "127.0.0.1"%string)
     "uuid-2"%string 2].

Section Served.
Context (str_int : Z -> string) (str_float fmt1 fmt2 : Q -> string) (md : Model).

Let o := chatbot_oracle str_int str_float fmt1 fmt2 md.

(** Every classification of a request is the keyword fallback's (the
    topic prompt never reaches the model), with the [n]-th extraction as
    preferences and the [n]-th refusal; it never raises. *)
Lemma chatbot_classify (n : nat) (msg : string) :
  classify o n msg =
  Ok (if fallback_travel (u msg)
      then Travel (extract_travel_preferences str_int str_float (extract_api md n) (u msg))
      else Refusal (refusal_text md n (u msg))).
Proof.
  cbn [o chatbot_oracle classify].
  unfold process_user_input, check_travel_topic. rewrite topic_check_prompt_KeyError.
  unfold fallback_travel, check_travel_topic_fallback, refusal_text, generate_polite_refusal. cbv zeta.
  destruct (any_search travel_keywords _); [reflexivity|].
  destruct (any_search short_keywords _ && _)%bool; [reflexivity|].
  destruct (Nat.ltb _ 3); destruct (refusal_api md n (refusal_prompt (u msg))); reflexivity.
Qed.

(** The first extraction gives recommendations when neither its region
    nor its terrain is a list. *)
Lemma extraction_recommendations `{HciSort} (e : Engine) (msg : string) :
  centroids e <> [] ->
  prefs_scalar (extract_travel_preferences str_int str_float (extract_api md 0) (u msg)) = true ->
  exists recs,
    get_recommendations e (extract_travel_preferences str_int str_float (extract_api md 0) (u msg)) 5 = Ok recs.
Proof.
  intros Hne Hs. destruct (valid_user_vector _ (extraction_valid str_int str_float (extract_api md 0) (u msg)))
    as [uv Hu].
  destruct (filter_stage_scalar _ (df e) Hs) as [fs Hfs].
  exact (user_vector_get_recommendations e _ 5 uv fs Hu Hne Hfs).
Qed.

(** C33: whatever the language model answers or raises, as long as the
    extraction gives no list as region or terrain, [/chat] on a table
    with a centroid row answers every message that is not empty after
    [strip()] successfully: [is_travel_related] is the keyword
    fallback's verdict, the recommendations are [get_recommendations]
    on the first extraction (none for a refusal), the text is the reply
    to them or the refusal ([chat_reply]), and exactly one record is
    stored. *)
Theorem chat_never_fails `{HciSort} (e : Engine) (db : Db) (req : ChatRequest) (uuid : string) (now : Z) :
  centroids e <> [] ->
  let msg := strip (match req_message req with Some m => m | None => EmptyString end) in
  let sid := match req_session_id req with Some s => s | None => uuid end in
  let prefs := extract_travel_preferences str_int str_float (extract_api md 0) (u msg) in
  msg <> EmptyString -> prefs_scalar prefs = true ->
  exists recs,
    (if fallback_travel (u msg) then get_recommendations e prefs 5 = Ok recs else recs = []) /\
    let feat := if fallback_travel (u msg) then Extracted prefs else NonTravelQuery in
    let bot := chat_reply str_int fmt1 fmt2 md (u msg) recs in
    chat_endpoint e o db req uuid now =
    (ChatOk bot (fallback_travel (u msg)) recs feat sid (Nat.ltb 0 (List.length recs)),
     db_insert db now msg bot feat recs (req_client_host req) sid).
Proof.
  intros Hne msg sid prefs Hmsg Hs. unfold chat_endpoint, generate_response, chat_reply. cbv zeta.
  fold msg. fold sid.
  destruct (String.eqb_spec msg EmptyString) as [Hm|_]; [contradiction|].
  rewrite !chatbot_classify. fold prefs.
  destruct (fallback_travel (u msg)).
  - destruct (extraction_recommendations e msg Hne Hs) as [recs Hr]. fold prefs in Hr.
    rewrite Hr. exists recs. split; [reflexivity|]. destruct recs; reflexivity.
  - exists []. split; reflexivity.
Qed.

(** C29: a travel message whose extraction gives a list as region, of
    another length than the rows left by the month filter, is answered
    with a 500 whose error is pandas' [ValueError], and nothing is
    stored; the spec's and the code's expectation of a string region is
    not checked by [_validate_preferences]. *)
Theorem chat_list_region_500 `{HciSort} (e : Engine) (db : Db) (req : ChatRequest) (uuid : string)
    (now : Z) (l : list (option string)) :
  let msg := strip (match req_message req with Some m => m | None => EmptyString end) in
  let prefs := extract_travel_preferences str_int str_float (extract_api md 0) (u msg) in
  msg <> EmptyString -> fallback_travel (u msg) = true ->
  p_region prefs = Some (CatList l) -> length l <> length (month_filter (p_month prefs) (df e)) ->
  chat_endpoint e o db req uuid now =
  (ChatFail 500 (lengths_error (length (month_filter (p_month prefs) (df e))) (length l)) generic_failure_text, db).
Proof.
  intros msg prefs Hmsg Ht Hl Hn. unfold chat_endpoint. cbv zeta. fold msg.
  destruct (String.eqb_spec msg EmptyString) as [Hm|_]; [contradiction|].
  rewrite chatbot_classify, Ht. fold prefs.
  rewrite (proj2 (get_recommendations_Err e prefs 5 _)
             (or_introl (filter_stage_list_region prefs (df e) l Hl Hn))).
  reflexivity.
Qed.

(** A message that is not empty is answered and stored. *)
Lemma chat_step_ok `{HciSort} (e : Engine) (db : Db) (req : ChatRequest) (uuid : string) (now : Z) :
  centroids e <> [] ->
  let msg := strip (match req_message req with Some m => m | None => EmptyString end) in
  msg <> EmptyString ->
  prefs_scalar (extract_travel_preferences str_int str_float (extract_api md 0) (u msg)) = true ->
  exists bot travel recs feat sid has,
    chat_endpoint e o db req uuid now =
    (ChatOk bot travel recs feat sid has, db_insert db now msg bot feat recs (req_client_host req) sid).
Proof.
  intros Hne msg Hmsg Hs. unfold chat_endpoint, generate_response. cbv zeta. fold msg.
  destruct (String.eqb_spec msg EmptyString) as [Hm|_]; [contradiction|].
  rewrite !chatbot_classify. destruct (fallback_travel (u msg)); [|eauto 7].
  destruct (extraction_recommendations e msg Hne Hs) as [recs ->]. eauto 7.
Qed.

End Served.

(** The step of a run, on the two kinds of message. *)
Lemma serve_cons `{HciSort} (str_int : Z -> string) (str_float fmt1 fmt2 : Q -> string)
    (e : Engine) (db : Db) (r : Request) (rest : list Request) :
  centroids e <> [] -> prefs_scalar (request_prefs str_int str_float r) = true ->
  exists resp db1,
    serve str_int str_float fmt1 fmt2 e db (r :: rest) =
      (resp :: fst (serve str_int str_float fmt1 fmt2 e db1 rest),
       snd (serve str_int str_float fmt1 fmt2 e db1 rest)) /\
    (if String.eqb (request_message r) EmptyString
     then resp = ChatFail 500%Z "400: Message cannot be empty"%string generic_failure_text /\ db1 = db
     else is_answered resp = true /\
          exists c, db1 = db ++ [c] /\ ch_user_message c = request_message r /\ ch_timestamp c = rq_now r).
Proof.
  intros Hne Hs. cbn [serve].
  destruct (String.eqb_spec (request_message r) EmptyString) as [Hm|Hm].
  - unfold chat_endpoint at 1. cbv zeta. fold (request_message r). rewrite Hm. cbn.
    eexists. exists db. split; [destruct (serve _ _ _ _ e db rest); reflexivity | auto].
  - destruct (chat_step_ok str_int str_float fmt1 fmt2 (rq_model r) e db (rq_body r) (rq_uuid r)
                (rq_now r) Hne Hm Hs) as (bot & travel & recs & feat & sid & has & E).
    rewrite E.
    exists (ChatOk bot travel recs feat sid has),
      (db_insert db (rq_now r) (request_message r) bot feat recs (req_client_host (rq_body r)) sid).
    split; [destruct (serve _ _ _ _ e _ rest); reflexivity|].
    split; [reflexivity|]. eexists. split; [reflexivity|]. split; reflexivity.
Qed.

(** The requests a run answers, in order. *)
Definition answered_requests (reqs : list Request) : list Request :=
  List.filter (fun r => negb (String.eqb (request_message r) EmptyString)) reqs.

(** A run appends one record per non-empty message, in request order,
    with that message and that request's clock. *)
Lemma serve_table `{HciSort} (str_int : Z -> string) (str_float fmt1 fmt2 : Q -> string)
    (e : Engine) (db : Db) (reqs : list Request) :
  centroids e <> [] -> scalar_run str_int str_float reqs = true ->
  exists added, snd (serve str_int str_float fmt1 fmt2 e db reqs) = db ++ added /\
    map ch_user_message added = map request_message (answered_requests reqs) /\
    map ch_timestamp added = map rq_now (answered_requests reqs).
Proof.
  intros Hne. revert db. induction reqs as [|r rest IH]; intros db Hrun.
  - exists []. rewrite app_nil_r. repeat split.
  - cbn [scalar_run forallb] in Hrun. apply andb_prop in Hrun as [Hr1 Hrun].
    destruct (serve_cons str_int str_float fmt1 fmt2 e db r rest Hne Hr1) as (resp & db1 & -> & Hr).
    destruct (IH db1 Hrun) as (added & Hs & Hm & Ht). cbn [snd answered_requests List.filter].
    fold (answered_requests rest). rewrite Hs.
    destruct (String.eqb (request_message r) EmptyString); cbn [negb].
    + destruct Hr as [_ ->]. exists added. split; [reflexivity|split; assumption].
    + destruct Hr as (_ & c & -> & Hcm & Hct). exists (c :: added).
      rewrite <- app_assoc. cbn [map]. rewrite Hcm, Hct, Hm, Ht. repeat split.
Qed.


(** C16 (liveness): no request of a run is lost.  On a table with a
    centroid row, whatever the model does during each request, the
    server answers every request of any run of [/chat] requests: a
    message that is empty after [strip()] with the 500 response, every
    other one successfully; and the history then holds the non-empty
    messages of the run, in order, after the earlier ones. *)
Theorem serve_answers_every_request `{HciSort} (str_int : Z -> string) (str_float fmt1 fmt2 : Q -> string)
    (e : Engine) (db : Db) (reqs : list Request) :
  centroids e <> [] -> scalar_run str_int str_float reqs = true ->
  Forall2 (fun r resp => if String.eqb (request_message r) EmptyString
                         then resp = ChatFail 500%Z "400: Message cannot be empty"%string generic_failure_text
                         else is_answered resp = true)
          reqs (fst (serve str_int str_float fmt1 fmt2 e db reqs)) /\
  map ch_user_message (snd (serve str_int str_float fmt1 fmt2 e db reqs)) =
  map ch_user_message db ++ filter (fun m => negb (String.eqb m EmptyString)) (map request_message reqs).
Proof.
  intros Hne Hrun. split.
  - revert db Hrun. induction reqs as [|r rest IH]; intros db Hrun; [constructor|].
    cbn [scalar_run forallb] in Hrun. apply andb_prop in Hrun as [Hr1 Hrun].
    destruct (serve_cons str_int str_float fmt1 fmt2 e db r rest Hne Hr1) as (resp & db1 & -> & Hr).
    cbn [fst]. constructor; [|apply IH, Hrun]. cbv beta. destruct (String.eqb _ _); tauto.
  - destruct (serve_table str_int str_float fmt1 fmt2 e db reqs Hne Hrun) as (added & -> & Hm & _).
    rewrite map_app, Hm, filter_map_swap. reflexivity.
Qed.

(** C11 (ordering): the history of a run read back.  When every request
    of a run is stamped later than the one before and than every stored
    record, and the stored timestamps increase, [/api/history] after the
    run returns the messages of the table and of the answered requests
    newest first, the last [limit] of them, whatever order SQL gives to
    equal timestamps. *)
Theorem serve_history_newest_first `{HciSort} `{HistoryOrder} (str_int : Z -> string)
    (str_float fmt1 fmt2 : Q -> string) (e : Engine) (db : Db) (reqs : list Request) (limit : Z) :
  centroids e <> [] -> scalar_run str_int str_float reqs = true ->
  StronglySorted (fun a b => ch_timestamp a < ch_timestamp b)%Z db ->
  StronglySorted (fun r1 r2 => rq_now r1 < rq_now r2)%Z reqs ->
  Forall (fun r => Forall (fun c => ch_timestamp c < rq_now r)%Z db) reqs ->
  map he_user_message (fst (get_chat_history (snd (serve str_int str_float fmt1 fmt2 e db reqs)) limit)) =
  sql_limit limit (rev (map ch_user_message db ++
                        filter (fun m => negb (String.eqb m EmptyString)) (map request_message reqs))).
Proof.
  intros Hne Hrun Hdb Hreqs Hlater.
  destruct (serve_table str_int str_float fmt1 fmt2 e db reqs Hne Hrun) as (added & -> & Hm & Ht).
  rewrite get_chat_history_increasing, map_app, Hm, filter_map_swap; [reflexivity|].
  apply increasing_app; [exact Hdb| |].
  - apply (proj1 (StronglySorted_map_iff Z.lt ch_timestamp added)). rewrite Ht.
    apply (proj2 (StronglySorted_map_iff Z.lt rq_now _)), StronglySorted_filter, Hreqs.
  - intros x1 x2 Hx1 Hx2. apply (in_map ch_timestamp) in Hx2. rewrite Ht in Hx2.
    apply in_map_iff in Hx2 as (r & <- & Hin). apply filter_In in Hin as [Hin _].
    rewrite Forall_forall in Hlater. specialize (Hlater r Hin).
    rewrite Forall_forall in Hlater. exact (Hlater x1 Hx1).
Qed.

Local Open Scope string_scope.

(** ** Witnesses *)

Lemma serve_answers_every_request_witness :
  centroids Fixture.engine <> [] /\
  scalar_run (fun _ => "") (fun _ => "") offline_run = true /\
  Forall2 (fun r resp => if String.eqb (request_message r) EmptyString
                         then resp = ChatFail 500%Z "400: Message cannot be empty" generic_failure_text
                         else is_answered resp = true)
          offline_run (fst (serve (fun _ => "") (fun _ => "") (fun _ => "") (fun _ => "")
                                  Fixture.engine [] offline_run)) /\
  map ch_user_message (snd (serve (fun _ => "") (fun _ => "") (fun _ => "") (fun _ => "")
                               Fixture.engine [] offline_run)) =
  (map ch_user_message [] ++ filter (fun m => negb (String.eqb m EmptyString))
                                    (map request_message offline_run))%list.
Proof.
  split; [discriminate|]. split; [vm_compute; reflexivity|].
  apply (serve_answers_every_request (fun _ => "") (fun _ => "") (fun _ => "") (fun _ => "")
           Fixture.engine [] offline_run); [discriminate|vm_compute; reflexivity].
Defined.

(** The run [offline_run] on a fresh table, read back newest first. *)
Lemma serve_history_newest_first_witness :
  centroids Fixture.engine <> [] /\
  scalar_run (fun _ => "") (fun _ => "") offline_run = true /\
  StronglySorted (fun a b => ch_timestamp a < ch_timestamp b)%Z [] /\
  StronglySorted (fun r1 r2 => rq_now r1 < rq_now r2)%Z offline_run /\
  Forall (fun r => Forall (fun c => ch_timestamp c < rq_now r)%Z []) offline_run /\
  map he_user_message (fst (get_chat_history
    (snd (serve (fun _ => "") (fun _ => "") (fun _ => "") (fun _ => "") Fixture.engine [] offline_run)) 10)) =
  sql_limit 10 (rev (map ch_user_message [] ++
                     filter (fun m => negb (String.eqb m EmptyString)) (map request_message offline_run)))%list.
Proof.
  split; [discriminate|]. split; [vm_compute; reflexivity|]. split; [constructor|].
  split; [repeat constructor|]. split; [repeat constructor|].
  apply (serve_history_newest_first (fun _ => "") (fun _ => "") (fun _ => "") (fun _ => "")
           Fixture.engine [] offline_run 10);
    [discriminate|vm_compute; reflexivity|constructor|repeat constructor|repeat constructor].
Defined.

(** With the model unreachable, a travel message is answered with the
    default response to the recommendations. *)
Lemma chat_never_fails_witness :
  centroids Fixture.engine <> [] /\
  strip "Tôi muốn đi biển" <> EmptyString /\
  prefs_scalar (extract_travel_preferences (fun _ => "") (fun _ => "")
                  (extract_api (offline (fun _ => 0%nat)) 0) (u (strip "Tôi muốn đi biển"))) = true /\
  exists recs,
    (if fallback_travel (u (strip "Tôi muốn đi biển"))
     then get_recommendations Fixture.engine
            (extract_travel_preferences (fun _ => "") (fun _ => "")
               (extract_api (offline (fun _ => 0%nat)) 0) (u (strip "Tôi muốn đi biển"))) 5 = Ok recs
     else recs = []) /\
    let feat := if fallback_travel (u (strip "Tôi muốn đi biển"))
                then Extracted (extract_travel_preferences (fun _ => "") (fun _ => "")
                       (extract_api (offline (fun _ => 0%nat)) 0) (u (strip "Tôi muốn đi biển")))
                else NonTravelQuery in
    let bot := chat_reply (fun _ => "") (fun _ => "") (fun _ => "") (offline (fun _ => 0%nat))
                 (u (strip "Tôi muốn đi biển")) recs in
    chat_endpoint Fixture.engine
      (chatbot_oracle (fun _ => "") (fun _ => "") (fun _ => "") (fun _ => "") (offline (fun _ => 0%nat)))
      [] (mkChatRequest (Some "Tôi muốn đi biển") None "127.0.0.1") "uuid-1" 0 =
    (ChatOk bot (fallback_travel (u (strip "Tôi muốn đi biển"))) recs feat "uuid-1"
            (Nat.ltb 0 (List.length recs)),
     db_insert [] 0 (strip "Tôi muốn đi biển") bot feat recs "127.0.0.1" "uuid-1").
Proof.
  split; [discriminate|]. split; [vm_compute; discriminate|]. split; [vm_compute; reflexivity|].
  apply (chat_never_fails (fun _ => "") (fun _ => "") (fun _ => "") (fun _ => "") (offline (fun _ => 0%nat))
           Fixture.engine [] (mkChatRequest (Some "Tôi muốn đi biển") None "127.0.0.1") "uuid-1" 0).
  - discriminate.
  - vm_compute. discriminate.
  - vm_compute. reflexivity.
Defined.

(** A model that answers the extraction with two regions as a list:
    the table has five rows and no month is asked for. *)
Definition two_regions_model : Model :=
  mkModel (fun _ _ => None) (fun _ _ => Some two_regions_answer) (fun _ _ => None) (fun _ => 0%nat)
          (fun _ => None).

Lemma chat_list_region_500_witness :
  chat_endpoint Fixture.engine
    (chatbot_oracle (fun _ => "") (fun _ => "") (fun _ => "") (fun _ => "") two_regions_model)
    [] (mkChatRequest (Some "Tôi muốn đi biển") None "127.0.0.1") "uuid-1" 0 =
  (ChatFail 500 "('Lengths must match to compare', (5,), (2,))" generic_failure_text, []).
Proof.
  rewrite (chat_list_region_500 (fun _ => "") (fun _ => "") (fun _ => "") (fun _ => "") two_regions_model
             Fixture.engine [] (mkChatRequest (Some "Tôi muốn đi biển") None "127.0.0.1") "uuid-1" 0
             [Some "Miền Bắc"; Some "Miền Trung"]).
  - vm_compute. reflexivity.
  - vm_compute. discriminate.
  - vm_compute. reflexivity.
  - vm_compute. reflexivity.
  - vm_compute. discriminate.
Defined.

End Chat.
